(** * OneIDP: the authorization state machine, its store and its codecs

    A shallow embedding of the Python backend ([backend/database],
    [backend/oauth], [backend/bot], [backend/page]) together with the
    properties of the specification that were checked against it.

    Conventions.
    - A Python [str] is a Rocq [string] holding its UTF-8 bytes; a string is
      ASCII when every byte is below 128.
    - A [datetime] is an integer number of microseconds; [timedelta(seconds=n)]
      is [n * 1000000].
    - Every call of [datetime.utcnow()] and of [secrets.token_urlsafe()] is an
      input of the function that makes it: a handler receives [utcnow n], its
      n-th clock reading, and [token_urlsafe n], its n-th random draw. The
      answer of the in-memory rate limiter is an input of the endpoint as
      well.
    - An exception is a value [Raise e] of type [result]; a handler that
      raises is rolled back by its session.
    - A table is the list of its rows in insertion order. The uniqueness
      constraints of models.py make an INSERT fail with [IntegrityError];
      column lengths are not modelled. *)

From Stdlib Require Import ZArith NArith List String Ascii Bool Lia DecimalString.
From stdpp Require Import base option list gmap strings fin_maps.

Local Open Scope string_scope.
Local Open Scope list_scope.
Local Open Scope Z_scope.

(** ** Exceptions and results *)

Inductive exn : Type :=
| TypeError
| UnicodeEncodeError
| MultipleResultsFound
| IntegrityError.

Inductive result (A : Type) : Type :=
| Ok (a : A)
| Raise (e : exn).
Arguments Ok {A} a.
Arguments Raise {A} e.

(** ** hashlib.sha256 (FIPS 180-4) on byte lists *)

Module SHA256.
Local Open Scope N_scope.

Definition mask32 : N := 0xFFFFFFFF.
Definition add32 (x y : N) : N := N.land (x + y) mask32.
Definition rotr (n x : N) : N :=
  N.lor (N.shiftr x n) (N.land (N.shiftl x (32 - n)) mask32).
Definition not32 (x : N) : N := N.lxor x mask32.

Definition Ch (x y z : N) : N := N.lxor (N.land x y) (N.land (not32 x) z).
Definition Maj (x y z : N) : N :=
  N.lxor (N.lxor (N.land x y) (N.land x z)) (N.land y z).
Definition bsig0 (x : N) : N := N.lxor (N.lxor (rotr 2 x) (rotr 13 x)) (rotr 22 x).
Definition bsig1 (x : N) : N := N.lxor (N.lxor (rotr 6 x) (rotr 11 x)) (rotr 25 x).
Definition ssig0 (x : N) : N := N.lxor (N.lxor (rotr 7 x) (rotr 18 x)) (N.shiftr x 3).
Definition ssig1 (x : N) : N := N.lxor (N.lxor (rotr 17 x) (rotr 19 x)) (N.shiftr x 10).

(** The first 64 primes. *)
Definition primes : list N :=
  [2; 3; 5; 7; 11; 13; 17; 19; 23; 29; 31; 37; 41; 43; 47; 53;
   59; 61; 67; 71; 73; 79; 83; 89; 97; 101; 103; 107; 109; 113; 127; 131;
   137; 139; 149; 151; 157; 163; 167; 173; 179; 181; 191; 193; 197; 199;
   211; 223; 227; 229; 233; 239; 241; 251; 257; 263; 269; 271; 277; 281;
   283; 293; 307; 311].

(** Integer cube root below [2 ^ bits], found bit by bit from the top. *)
Fixpoint cube_root (bits : nat) (n r : N) : N :=
  match bits with
  | O => r
  | S b =>
      let r' := r + N.shiftl 1 (N.of_nat b) in
      cube_root b n (if r' * r' * r' <=? n then r' else r)
  end.

(** The first 32 bits of the fractional part of the cube root of [p]. *)
Definition frac_cbrt (p : N) : N := N.land (cube_root 36 (N.shiftl p 96) 0) mask32.

(** The first 32 bits of the fractional part of the square root of [p]. *)
Definition frac_sqrt (p : N) : N := N.land (N.sqrt (N.shiftl p 64)) mask32.

(** The round constants: cube roots of the first 64 primes. *)
Definition round_constants : list N := Eval vm_compute in map frac_cbrt primes.

(** The initial hash value: square roots of the first 8 primes. *)
Definition initial_hash : list N :=
  Eval vm_compute in map frac_sqrt (firstn 8 primes).

(** Big-endian encoding of [x] on [k] bytes. *)
Fixpoint be_bytes (k : nat) (x : N) : list N :=
  match k with
  | O => []
  | S k' => N.land (N.shiftr x (8 * N.of_nat k')) 0xFF :: be_bytes k' x
  end.

(** Padding: a 1 bit, zeros up to 56 mod 64, the bit length on 8 bytes. *)
Definition pad (msg : list N) : list N :=
  let len := N.of_nat (length msg) in
  let zeros := (64 - ((len + 9) mod 64)) mod 64 in
  msg ++ [0x80] ++ repeat 0 (N.to_nat zeros) ++ be_bytes 8 (8 * len).

Fixpoint words_of_bytes (bs : list N) : list N :=
  match bs with
  | b0 :: b1 :: b2 :: b3 :: rest =>
      (N.shiftl b0 24 + N.shiftl b1 16 + N.shiftl b2 8 + b3) :: words_of_bytes rest
  | _ => []
  end.

Fixpoint chunks16 (fuel : nat) (ws : list N) : list (list N) :=
  match fuel, ws with
  | S fuel', _ :: _ => firstn 16 ws :: chunks16 fuel' (skipn 16 ws)
  | _, _ => []
  end.

Definition wd (ws : list N) (i : nat) : N := nth i ws 0.

(** Message schedule: extends the 16 block words to 64. *)
Fixpoint extend (k : nat) (ws : list N) : list N :=
  match k with
  | O => ws
  | S k' =>
      let t := length ws in
      let w := add32 (add32 (ssig1 (wd ws (t - 2))) (wd ws (t - 7)))
                     (add32 (ssig0 (wd ws (t - 15))) (wd ws (t - 16))) in
      extend k' (ws ++ [w])
  end.

Record regs : Type :=
  Regs { ra : N; rb : N; rc : N; rd : N; re : N; rf : N; rg : N; rh : N }.

Definition step (r : regs) (kw : N * N) : regs :=
  let t1 := add32 (add32 (add32 (add32 (rh r) (bsig1 (re r)))
                                (Ch (re r) (rf r) (rg r))) (fst kw)) (snd kw) in
  let t2 := add32 (bsig0 (ra r)) (Maj (ra r) (rb r) (rc r)) in
  Regs (add32 t1 t2) (ra r) (rb r) (rc r) (add32 (rd r) t1) (re r) (rf r) (rg r).

Definition regs_of (h : list N) : regs :=
  Regs (wd h 0) (wd h 1) (wd h 2) (wd h 3) (wd h 4) (wd h 5) (wd h 6) (wd h 7).

Definition compress (h : list N) (block : list N) : list N :=
  let r := fold_left step (combine round_constants (extend 48 block)) (regs_of h) in
  [ add32 (wd h 0) (ra r); add32 (wd h 1) (rb r);
    add32 (wd h 2) (rc r); add32 (wd h 3) (rd r);
    add32 (wd h 4) (re r); add32 (wd h 5) (rf r);
    add32 (wd h 6) (rg r); add32 (wd h 7) (rh r) ].

Definition digest (msg : list N) : list N :=
  let ws := words_of_bytes (pad msg) in
  let h := fold_left compress (chunks16 (length ws) ws) initial_hash in
  flat_map (be_bytes 4) h.
End SHA256.

(** ** Strings as byte sequences *)

Definition bytes_of_str (s : string) : list N :=
  map N_of_ascii (list_ascii_of_string s).

Definition str_of_bytes (bs : list N) : string :=
  string_of_list_ascii (map ascii_of_N bs).

Definition is_ascii (s : string) : bool :=
  forallb (fun b => (b <? 128)%N) (bytes_of_str s).

(** [s.encode("ascii")] *)
Definition encode_ascii (s : string) : result (list N) :=
  if is_ascii s then Ok (bytes_of_str s) else Raise UnicodeEncodeError.

(** [secrets.compare_digest(a, b)] on two [str]: equality, defined on ASCII
    strings only; a non-ASCII argument raises [TypeError]. *)
Definition compare_digest (a b : string) : result bool :=
  if is_ascii a && is_ascii b then Ok (String.eqb a b) else Raise TypeError.

(** ** base64.urlsafe_b64encode *)

Module Base64.
Local Open Scope N_scope.

Definition alphabet : string :=
  "ABCDEFGHIJKLMNOPQRSTUVWXYZabcdefghijklmnopqrstuvwxyz0123456789-_".

Definition sextet (i : N) : ascii :=
  match String.get (N.to_nat i) alphabet with
  | Some c => c
  | None => "="%char
  end.

Fixpoint encode (bs : list N) : list ascii :=
  match bs with
  | [] => []
  | [b0] =>
      [ sextet (N.shiftr b0 2); sextet (N.shiftl (N.land b0 3) 4);
        "="%char; "="%char ]
  | [b0; b1] =>
      [ sextet (N.shiftr b0 2);
        sextet (N.lor (N.shiftl (N.land b0 3) 4) (N.shiftr b1 4));
        sextet (N.shiftl (N.land b1 15) 2); "="%char ]
  | b0 :: b1 :: b2 :: rest =>
      sextet (N.shiftr b0 2)
        :: sextet (N.lor (N.shiftl (N.land b0 3) 4) (N.shiftr b1 4))
        :: sextet (N.lor (N.shiftl (N.land b1 15) 2) (N.shiftr b2 6))
        :: sextet (N.land b2 63) :: encode rest
  end.

(** Trailing ["="] characters removed from a list of characters. *)
Definition rstrip_eq (cs : list ascii) : list ascii :=
  fold_right (fun c acc =>
                match acc with
                | [] => if Ascii.eqb c "="%char then [] else [c]
                | _ :: _ => c :: acc
                end) [] cs.

(** [base64.urlsafe_b64encode(bs)] *)
Definition urlsafe_b64encode (bs : list N) : string :=
  string_of_list_ascii (encode bs).

(** [s.rstrip(b"=")] *)
Definition rstrip_pad (s : string) : string :=
  string_of_list_ascii (rstrip_eq (list_ascii_of_string s)).

(** [base64.urlsafe_b64encode(bs).rstrip(b"=")]: the unpadded encoding. *)
Definition urlsafe_nopad (bs : list N) : string :=
  rstrip_pad (urlsafe_b64encode bs).

End Base64.

(** ** oauth/provider.py: verify_pkce *)

Definition verify_pkce (code_verifier code_challenge code_challenge_method : string)
  : result bool :=
  if String.eqb code_challenge_method "plain" then
    compare_digest code_verifier code_challenge
  else if String.eqb code_challenge_method "S256" then
    match encode_ascii code_verifier with
    | Raise e => Raise e
    | Ok bs =>
        let computed := SHA256.digest bs in
        let computed_b64 := Base64.rstrip_pad (Base64.urlsafe_b64encode computed) in
        compare_digest computed_b64 code_challenge
    end
  else Ok false.


(** ** JSON values (the [dict] payloads of responses, claims and extra_data) *)

#[local] Set Warnings "-register-all".

Inductive jvalue : Type :=
| JNull
| JBool (b : bool)
| JInt (z : Z)
| JStr (s : string)
| JList (l : list jvalue)
| JDict (d : gmap string jvalue).

Abbreviation pydict := (gmap string jvalue).

(** Python truthiness, as used by [x or y], [if x] and [not x]. *)
Definition truthy (v : jvalue) : bool :=
  match v with
  | JNull => false
  | JBool b => b
  | JInt z => negb (Z.eqb z 0)
  | JStr s => negb (String.eqb s "")
  | JList l => match l with [] => false | _ :: _ => true end
  | JDict d => match map_to_list d with [] => false | _ :: _ => true end
  end.

(** Truthiness of an [Optional[str]]: [None] and the empty string are falsy. *)
Definition truthy_str (o : option string) : bool :=
  match o with
  | None => false
  | Some s => negb (String.eqb s "")
  end.

Definition jstr_opt (o : option string) : jvalue :=
  match o with None => JNull | Some s => JStr s end.

(** [a or b] on an optional string and a string. *)
Definition or_str (o : option string) (d : string) : string :=
  match o with
  | Some s => if String.eqb s "" then d else s
  | None => d
  end.

(** [str(n)] for an [int]. *)
Definition str_of_int (n : Z) : string :=
  DecimalString.NilZero.string_of_int (Z.to_int n).

(** ** Primitives of the Python runtime and of third-party libraries

    Unicode case mapping, whitespace splitting, URL parsing, Base64 decoding
    and JWT signing are not code of this repository; the development is
    parametric in them. *)

Class PyRuntime : Type := {
  (** [s.lower()] *)
  str_lower : string -> string;
  (** [s.upper()] *)
  str_upper : string -> string;
  (** [s.split()] *)
  str_split : string -> list string;
  (** [base64.b64decode(s).decode("utf-8")]; [None] when it raises *)
  b64decode_utf8 : string -> option string;
  (** [urlparse(u)] as (scheme, netloc, path) *)
  urlparse : string -> string * string * string;
  (** [jwt.encode(payload, key, algorithm="HS256")] *)
  jwt_encode : pydict -> string -> string;
  (** [str(v)] *)
  py_str : jvalue -> string
}.

(** ** config.py *)

Module OAuthClient.
Record t : Type := {
  client_id : string;
  client_secret : string;
  name : string;
  redirect_uris : list string;
  allowed_scopes : list string
}.
End OAuthClient.

Module OAuthProviderConfig.
Record t : Type := {
  issuer : string;
  access_token_expire : Z;
  refresh_token_expire : Z;
  verification_code_expire : Z
}.
End OAuthProviderConfig.

Module Config.
Record t : Type := {
  secret_key : string;           (* server.secret_key *)
  command_prefix : string;       (* bot.command_prefix *)
  oauth_provider : OAuthProviderConfig.t;
  oauth_clients : list OAuthClient.t;
  stored_fields : list string    (* binding.stored_fields *)
}.
End Config.

(** ** database/models.py *)

Definition datetime := Z.

Definition timedelta_seconds (n : Z) : Z := n * 1000000.

Module BindUser.
Record t : Type := {
  id : Z;
  uin : Z;
  sub : string;
  email : option string;
  preferred_username : option string;
  extra_data : option pydict;
  bind_time : datetime;
  is_active : bool
}.
End BindUser.

Module PendingBind.
Record t : Type := {
  id : Z;
  state : string;
  uin : Z;
  username : string;
  created_at : datetime;
  expires_at : datetime;
  is_used : bool;
  source_type : string;
  source_id : Z
}.
End PendingBind.

Module PendingAuth.
Record t : Type := {
  id : Z;
  verification_code : string;
  auth_code : string;
  client_id : string;
  redirect_uri : string;
  scope : string;
  state : option string;
  code_challenge : option string;
  code_challenge_method : option string;
  bind_user_id : Z;
  uin : Z;
  created_at : datetime;
  expires_at : datetime;
  is_approved : bool;
  is_used : bool;
  client_ip : option string;
  user_agent : option string
}.
End PendingAuth.

Module PendingUnbind.
Record t : Type := {
  id : Z;
  uin : Z;
  username : string;
  bind_user_id : Z;
  created_at : datetime;
  expires_at : datetime;
  is_processed : bool;
  source_type : string;
  source_id : Z
}.
End PendingUnbind.

Module OAuthToken.
Record t : Type := {
  id : Z;
  access_token : string;
  refresh_token : option string;
  token_type : string;
  client_id : string;
  bind_user_id : Z;
  uin : Z;
  scope : string;
  created_at : datetime;
  access_token_expires_at : datetime;
  refresh_token_expires_at : option datetime;
  is_revoked : bool
}.
End OAuthToken.

Module AuthorizationLog.
Record t : Type := {
  id : Z;
  uin : Z;
  client_id : string;
  address : string;
  scope : string;
  authorization_time : datetime;
  is_success : bool;
  client_ip : option string;
  user_agent : option string
}.
End AuthorizationLog.

Module UnbindLog.
Record t : Type := {
  id : Z;
  uin : Z;
  unbind_user : string;
  sub : string;
  bind_time : datetime;
  unbind_request_time : datetime;
  unbind_time : option datetime;
  is_unbind : bool;
  reason : option string
}.
End UnbindLog.

(** The database: one list of rows per table, in insertion order. *)
Record Store : Type := {
  bind_user : list BindUser.t;
  pending_bind : list PendingBind.t;
  pending_auth : list PendingAuth.t;
  pending_unbind : list PendingUnbind.t;
  oauth_token : list OAuthToken.t;
  authorization_log : list AuthorizationLog.t;
  unbind_log : list UnbindLog.t
}.

(** Primary keys are assigned by autoincrement: one more than the largest. *)
Definition next_id (ids : list Z) : Z := 1 + fold_right Z.max 0 ids.

(** [Result.scalar_one_or_none()] *)
Definition scalar_one_or_none {A} (rows : list A) : result (option A) :=
  match rows with
  | [] => Ok None
  | [r] => Ok (Some r)
  | _ :: _ :: _ => Raise MultipleResultsFound
  end.

(** Membership of a value in a unique column; [NULL]s never collide. *)
Definition taken {K} `{EqDecision K} (k : K) (col : list K) : bool :=
  bool_decide (k ∈ col).

Definition non_null {A} (col : list (option A)) : list A := omap (fun x => x) col.

(** The uniqueness constraints declared in models.py ([primary_key=True],
    [unique=True]). *)
Definition store_wf (st : Store) : Prop :=
  NoDup (map BindUser.id (bind_user st)) ∧
  NoDup (map BindUser.uin (bind_user st)) ∧
  NoDup (map BindUser.sub (bind_user st)) ∧
  NoDup (map PendingBind.id (pending_bind st)) ∧
  NoDup (map PendingBind.state (pending_bind st)) ∧
  NoDup (map PendingAuth.id (pending_auth st)) ∧
  NoDup (map PendingAuth.verification_code (pending_auth st)) ∧
  NoDup (map PendingAuth.auth_code (pending_auth st)) ∧
  NoDup (map PendingUnbind.id (pending_unbind st)) ∧
  NoDup (map OAuthToken.id (oauth_token st)) ∧
  NoDup (map OAuthToken.access_token (oauth_token st)) ∧
  NoDup (non_null (map OAuthToken.refresh_token (oauth_token st))).

#[global] Instance store_wf_dec st : Decision (store_wf st).
Proof. unfold store_wf. apply _. Defined.

(** ** The session monad: a store threaded through fallible operations *)

Definition M (A : Type) : Type := Store -> result (A * Store).

Definition ret {A} (a : A) : M A := fun st => Ok (a, st).

Definition bind {A B} (m : M A) (k : A -> M B) : M B :=
  fun st =>
    match m st with
    | Ok (a, st') => k a st'
    | Raise e => Raise e
    end.

Definition lift {A} (r : result A) : M A :=
  fun st => match r with Ok a => Ok (a, st) | Raise e => Raise e end.

Notation "'let*' x ':=' m 'in' k" := (bind m (fun x => k))
  (at level 10, x pattern, m at level 100, k at level 200).

(** Table setters. *)
Definition with_bind_user (st : Store) (rows : list BindUser.t) : Store :=
  {| bind_user := rows; pending_bind := pending_bind st;
     pending_auth := pending_auth st; pending_unbind := pending_unbind st;
     oauth_token := oauth_token st; authorization_log := authorization_log st;
     unbind_log := unbind_log st |}.

Definition with_pending_bind (st : Store) (rows : list PendingBind.t) : Store :=
  {| bind_user := bind_user st; pending_bind := rows;
     pending_auth := pending_auth st; pending_unbind := pending_unbind st;
     oauth_token := oauth_token st; authorization_log := authorization_log st;
     unbind_log := unbind_log st |}.

Definition with_pending_auth (st : Store) (rows : list PendingAuth.t) : Store :=
  {| bind_user := bind_user st; pending_bind := pending_bind st;
     pending_auth := rows; pending_unbind := pending_unbind st;
     oauth_token := oauth_token st; authorization_log := authorization_log st;
     unbind_log := unbind_log st |}.

Definition with_pending_unbind (st : Store) (rows : list PendingUnbind.t) : Store :=
  {| bind_user := bind_user st; pending_bind := pending_bind st;
     pending_auth := pending_auth st; pending_unbind := rows;
     oauth_token := oauth_token st; authorization_log := authorization_log st;
     unbind_log := unbind_log st |}.

Definition with_oauth_token (st : Store) (rows : list OAuthToken.t) : Store :=
  {| bind_user := bind_user st; pending_bind := pending_bind st;
     pending_auth := pending_auth st; pending_unbind := pending_unbind st;
     oauth_token := rows; authorization_log := authorization_log st;
     unbind_log := unbind_log st |}.

Definition with_authorization_log (st : Store) (rows : list AuthorizationLog.t) : Store :=
  {| bind_user := bind_user st; pending_bind := pending_bind st;
     pending_auth := pending_auth st; pending_unbind := pending_unbind st;
     oauth_token := oauth_token st; authorization_log := rows;
     unbind_log := unbind_log st |}.

Definition with_unbind_log (st : Store) (rows : list UnbindLog.t) : Store :=
  {| bind_user := bind_user st; pending_bind := pending_bind st;
     pending_auth := pending_auth st; pending_unbind := pending_unbind st;
     oauth_token := oauth_token st; authorization_log := authorization_log st;
     unbind_log := rows |}.

(** [UPDATE t SET ... WHERE p]: the new rows and [rowcount]. *)
Definition update_where {A} (p : A -> bool) (f : A -> A) (rows : list A)
  : list A * Z :=
  (map (fun r => if p r then f r else r) rows,
   Z.of_nat (length (List.filter p rows))).

(** Column setters used by the UPDATE statements. *)
Definition set_is_active (v : bool) (r : BindUser.t) : BindUser.t :=
  {| BindUser.id := BindUser.id r; BindUser.uin := BindUser.uin r;
     BindUser.sub := BindUser.sub r; BindUser.email := BindUser.email r;
     BindUser.preferred_username := BindUser.preferred_username r;
     BindUser.extra_data := BindUser.extra_data r;
     BindUser.bind_time := BindUser.bind_time r; BindUser.is_active := v |}.

Definition set_bind_is_used (v : bool) (r : PendingBind.t) : PendingBind.t :=
  {| PendingBind.id := PendingBind.id r; PendingBind.state := PendingBind.state r;
     PendingBind.uin := PendingBind.uin r;
     PendingBind.username := PendingBind.username r;
     PendingBind.created_at := PendingBind.created_at r;
     PendingBind.expires_at := PendingBind.expires_at r;
     PendingBind.is_used := v;
     PendingBind.source_type := PendingBind.source_type r;
     PendingBind.source_id := PendingBind.source_id r |}.

Definition set_auth_flags (approved used : bool) (bid u : Z) (r : PendingAuth.t)
  : PendingAuth.t :=
  {| PendingAuth.id := PendingAuth.id r;
     PendingAuth.verification_code := PendingAuth.verification_code r;
     PendingAuth.auth_code := PendingAuth.auth_code r;
     PendingAuth.client_id := PendingAuth.client_id r;
     PendingAuth.redirect_uri := PendingAuth.redirect_uri r;
     PendingAuth.scope := PendingAuth.scope r;
     PendingAuth.state := PendingAuth.state r;
     PendingAuth.code_challenge := PendingAuth.code_challenge r;
     PendingAuth.code_challenge_method := PendingAuth.code_challenge_method r;
     PendingAuth.bind_user_id := bid;
     PendingAuth.uin := u;
     PendingAuth.created_at := PendingAuth.created_at r;
     PendingAuth.expires_at := PendingAuth.expires_at r;
     PendingAuth.is_approved := approved;
     PendingAuth.is_used := used;
     PendingAuth.client_ip := PendingAuth.client_ip r;
     PendingAuth.user_agent := PendingAuth.user_agent r |}.

Definition set_is_approved (v : bool) (r : PendingAuth.t) : PendingAuth.t :=
  set_auth_flags v (PendingAuth.is_used r) (PendingAuth.bind_user_id r)
                 (PendingAuth.uin r) r.

Definition set_is_used (v : bool) (r : PendingAuth.t) : PendingAuth.t :=
  set_auth_flags (PendingAuth.is_approved r) v (PendingAuth.bind_user_id r)
                 (PendingAuth.uin r) r.

Definition set_claimant (u bid : Z) (r : PendingAuth.t) : PendingAuth.t :=
  set_auth_flags (PendingAuth.is_approved r) (PendingAuth.is_used r) bid u r.

Definition set_is_processed (v : bool) (r : PendingUnbind.t) : PendingUnbind.t :=
  {| PendingUnbind.id := PendingUnbind.id r; PendingUnbind.uin := PendingUnbind.uin r;
     PendingUnbind.username := PendingUnbind.username r;
     PendingUnbind.bind_user_id := PendingUnbind.bind_user_id r;
     PendingUnbind.created_at := PendingUnbind.created_at r;
     PendingUnbind.expires_at := PendingUnbind.expires_at r;
     PendingUnbind.is_processed := v;
     PendingUnbind.source_type := PendingUnbind.source_type r;
     PendingUnbind.source_id := PendingUnbind.source_id r |}.

Definition set_is_revoked (v : bool) (r : OAuthToken.t) : OAuthToken.t :=
  {| OAuthToken.id := OAuthToken.id r;
     OAuthToken.access_token := OAuthToken.access_token r;
     OAuthToken.refresh_token := OAuthToken.refresh_token r;
     OAuthToken.token_type := OAuthToken.token_type r;
     OAuthToken.client_id := OAuthToken.client_id r;
     OAuthToken.bind_user_id := OAuthToken.bind_user_id r;
     OAuthToken.uin := OAuthToken.uin r;
     OAuthToken.scope := OAuthToken.scope r;
     OAuthToken.created_at := OAuthToken.created_at r;
     OAuthToken.access_token_expires_at := OAuthToken.access_token_expires_at r;
     OAuthToken.refresh_token_expires_at := OAuthToken.refresh_token_expires_at r;
     OAuthToken.is_revoked := v |}.

(** ** database/crud.py *)

Module crud.

(* ---- bind_user ---- *)

Definition get_bind_user_by_uin (uin : Z) (active_only : bool)
  : M (option BindUser.t) :=
  fun st =>
    let q := List.filter (fun r => Z.eqb (BindUser.uin r) uin) (bind_user st) in
    let q := if active_only then List.filter BindUser.is_active q else q in
    lift (scalar_one_or_none q) st.

Definition get_bind_user_by_sub (sub : string) (active_only : bool)
  : M (option BindUser.t) :=
  fun st =>
    let q := List.filter (fun r => String.eqb (BindUser.sub r) sub) (bind_user st) in
    let q := if active_only then List.filter BindUser.is_active q else q in
    lift (scalar_one_or_none q) st.

(** The INSERT is flushed at once; a value already present in a unique
    column ([uin], [sub]) makes it fail. *)
Definition create_bind_user (now : datetime) (uin : Z) (sub : string)
    (email preferred_username : option string) (extra_data : option pydict)
  : M BindUser.t :=
  fun st =>
    let row :=
      {| BindUser.id := next_id (map BindUser.id (bind_user st));
         BindUser.uin := uin; BindUser.sub := sub; BindUser.email := email;
         BindUser.preferred_username := preferred_username;
         BindUser.extra_data := extra_data;
         BindUser.bind_time := now; BindUser.is_active := true |} in
    if taken uin (map BindUser.uin (bind_user st))
       || taken sub (map BindUser.sub (bind_user st))
    then Raise IntegrityError
    else Ok (row, with_bind_user st (bind_user st ++ [row])).

Definition deactivate_bind_user (bind_user_id : Z) : M bool :=
  fun st =>
    let '(rows, rowcount) :=
      update_where (fun r => Z.eqb (BindUser.id r) bind_user_id)
                   (set_is_active false) (bind_user st) in
    Ok (0 <? rowcount, with_bind_user st rows).

(* ---- pending_bind ---- *)

Definition create_pending_bind (now1 now2 : datetime) (state : string)
    (uin : Z) (username source_type : string) (source_id expires_in : Z)
  : M PendingBind.t :=
  fun st =>
    let row :=
      {| PendingBind.id := next_id (map PendingBind.id (pending_bind st));
         PendingBind.state := state; PendingBind.uin := uin;
         PendingBind.username := username;
         PendingBind.created_at := now1;
         PendingBind.expires_at := now2 + timedelta_seconds expires_in;
         PendingBind.is_used := false;
         PendingBind.source_type := source_type;
         PendingBind.source_id := source_id |} in
    if taken state (map PendingBind.state (pending_bind st))
    then Raise IntegrityError
    else Ok (row, with_pending_bind st (pending_bind st ++ [row])).

Definition get_pending_bind_by_state (now : datetime) (state : string)
    (valid_only : bool) : M (option PendingBind.t) :=
  fun st =>
    let q := List.filter (fun r => String.eqb (PendingBind.state r) state)
                         (pending_bind st) in
    let q := if valid_only
             then List.filter (fun r => negb (PendingBind.is_used r)
                                        && (now <? PendingBind.expires_at r)) q
             else q in
    lift (scalar_one_or_none q) st.

Definition mark_pending_bind_used (pending_id : Z) : M bool :=
  fun st =>
    let '(rows, rowcount) :=
      update_where (fun r => Z.eqb (PendingBind.id r) pending_id)
                   (set_bind_is_used true) (pending_bind st) in
    Ok (0 <? rowcount, with_pending_bind st rows).

(* ---- pending_auth ---- *)

Definition create_pending_auth (now1 now2 : datetime)
    (verification_code auth_code client_id redirect_uri scope : string)
    (bind_user_id uin : Z)
    (state code_challenge code_challenge_method client_ip user_agent : option string)
    (expires_in : Z) : M PendingAuth.t :=
  fun st =>
    let row :=
      {| PendingAuth.id := next_id (map PendingAuth.id (pending_auth st));
         PendingAuth.verification_code := verification_code;
         PendingAuth.auth_code := auth_code;
         PendingAuth.client_id := client_id;
         PendingAuth.redirect_uri := redirect_uri;
         PendingAuth.scope := scope;
         PendingAuth.state := state;
         PendingAuth.code_challenge := code_challenge;
         PendingAuth.code_challenge_method := code_challenge_method;
         PendingAuth.bind_user_id := bind_user_id;
         PendingAuth.uin := uin;
         PendingAuth.created_at := now1;
         PendingAuth.expires_at := now2 + timedelta_seconds expires_in;
         PendingAuth.is_approved := false;
         PendingAuth.is_used := false;
         PendingAuth.client_ip := client_ip;
         PendingAuth.user_agent := user_agent |} in
    if taken verification_code
             (map PendingAuth.verification_code (pending_auth st))
       || taken auth_code (map PendingAuth.auth_code (pending_auth st))
    then Raise IntegrityError
    else Ok (row, with_pending_auth st (pending_auth st ++ [row])).

(** The validity predicate of a verification code. *)
Definition code_valid (now : datetime) (r : PendingAuth.t) : bool :=
  negb (PendingAuth.is_used r) && negb (PendingAuth.is_approved r)
  && (now <? PendingAuth.expires_at r).

Definition get_pending_auth_by_code (now : datetime)
    (verification_code : string) (valid_only : bool)
  : M (option PendingAuth.t) :=
  fun st =>
    let q := List.filter
               (fun r => String.eqb (PendingAuth.verification_code r)
                                    verification_code) (pending_auth st) in
    let q := if valid_only then List.filter (code_valid now) q else q in
    lift (scalar_one_or_none q) st.

(** The validity predicate of an authorization code. *)
Definition auth_code_valid (now : datetime) (r : PendingAuth.t) : bool :=
  PendingAuth.is_approved r && negb (PendingAuth.is_used r)
  && (now <? PendingAuth.expires_at r).

Definition get_pending_auth_by_auth_code (now : datetime)
    (auth_code : string) (valid_only : bool) : M (option PendingAuth.t) :=
  fun st =>
    let q := List.filter
               (fun r => String.eqb (PendingAuth.auth_code r) auth_code)
               (pending_auth st) in
    let q := if valid_only then List.filter (auth_code_valid now) q else q in
    lift (scalar_one_or_none q) st.

Definition approve_pending_auth (pending_id : Z) : M bool :=
  fun st =>
    let '(rows, rowcount) :=
      update_where (fun r => Z.eqb (PendingAuth.id r) pending_id)
                   (set_is_approved true) (pending_auth st) in
    Ok (0 <? rowcount, with_pending_auth st rows).

Definition mark_pending_auth_used (pending_id : Z) : M bool :=
  fun st =>
    let '(rows, rowcount) :=
      update_where (fun r => Z.eqb (PendingAuth.id r) pending_id)
                   (set_is_used true) (pending_auth st) in
    Ok (0 <? rowcount, with_pending_auth st rows).

(* ---- pending_unbind ---- *)

Definition create_pending_unbind (now1 now2 : datetime) (uin : Z)
    (username : string) (bind_user_id : Z) (source_type : string)
    (source_id expires_in : Z) : M PendingUnbind.t :=
  fun st =>
    let row :=
      {| PendingUnbind.id := next_id (map PendingUnbind.id (pending_unbind st));
         PendingUnbind.uin := uin; PendingUnbind.username := username;
         PendingUnbind.bind_user_id := bind_user_id;
         PendingUnbind.created_at := now1;
         PendingUnbind.expires_at := now2 + timedelta_seconds expires_in;
         PendingUnbind.is_processed := false;
         PendingUnbind.source_type := source_type;
         PendingUnbind.source_id := source_id |} in
    Ok (row, with_pending_unbind st (pending_unbind st ++ [row])).

Definition unbind_valid (now : datetime) (r : PendingUnbind.t) : bool :=
  negb (PendingUnbind.is_processed r) && (now <? PendingUnbind.expires_at r).

Definition get_pending_unbind_by_uin (now : datetime) (uin : Z)
    (valid_only : bool) : M (option PendingUnbind.t) :=
  fun st =>
    let q := List.filter (fun r => Z.eqb (PendingUnbind.uin r) uin)
                         (pending_unbind st) in
    let q := if valid_only then List.filter (unbind_valid now) q else q in
    lift (scalar_one_or_none q) st.

Definition mark_pending_unbind_processed (pending_id : Z) : M bool :=
  fun st =>
    let '(rows, rowcount) :=
      update_where (fun r => Z.eqb (PendingUnbind.id r) pending_id)
                   (set_is_processed true) (pending_unbind st) in
    Ok (0 <? rowcount, with_pending_unbind st rows).

(* ---- logs ---- *)

Definition create_authorization_log (now : datetime) (uin : Z)
    (client_id address scope : string) (is_success : bool)
    (client_ip user_agent : option string) : M AuthorizationLog.t :=
  fun st =>
    let row :=
      {| AuthorizationLog.id :=
           next_id (map AuthorizationLog.id (authorization_log st));
         AuthorizationLog.uin := uin;
         AuthorizationLog.client_id := client_id;
         AuthorizationLog.address := address;
         AuthorizationLog.scope := scope;
         AuthorizationLog.authorization_time := now;
         AuthorizationLog.is_success := is_success;
         AuthorizationLog.client_ip := client_ip;
         AuthorizationLog.user_agent := user_agent |} in
    Ok (row, with_authorization_log st (authorization_log st ++ [row])).

Definition create_unbind_log (now1 now2 : datetime) (uin : Z)
    (unbind_user sub : string) (bind_time : datetime) (is_unbind : bool)
    (reason : string) : M UnbindLog.t :=
  fun st =>
    let row :=
      {| UnbindLog.id := next_id (map UnbindLog.id (unbind_log st));
         UnbindLog.uin := uin; UnbindLog.unbind_user := unbind_user;
         UnbindLog.sub := sub; UnbindLog.bind_time := bind_time;
         UnbindLog.unbind_request_time := now1;
         UnbindLog.unbind_time := if is_unbind then Some now2 else None;
         UnbindLog.is_unbind := is_unbind;
         UnbindLog.reason := Some reason |} in
    Ok (row, with_unbind_log st (unbind_log st ++ [row])).

(* ---- oauth_token ---- *)

Definition create_oauth_token (now : datetime)
    (access_token client_id : string) (bind_user_id uin : Z) (scope : string)
    (access_token_expires_in : Z) (refresh_token : option string)
    (refresh_token_expires_in : option Z) : M OAuthToken.t :=
  fun st =>
    let row :=
      {| OAuthToken.id := next_id (map OAuthToken.id (oauth_token st));
         OAuthToken.access_token := access_token;
         OAuthToken.refresh_token := refresh_token;
         OAuthToken.token_type := "Bearer";
         OAuthToken.client_id := client_id;
         OAuthToken.bind_user_id := bind_user_id;
         OAuthToken.uin := uin;
         OAuthToken.scope := scope;
         OAuthToken.created_at := now;
         OAuthToken.access_token_expires_at :=
           now + timedelta_seconds access_token_expires_in;
         OAuthToken.refresh_token_expires_at :=
           match refresh_token_expires_in with
           | Some n => if Z.eqb n 0 then None
                       else Some (now + timedelta_seconds n)
           | None => None
           end;
         OAuthToken.is_revoked := false |} in
    if taken access_token (map OAuthToken.access_token (oauth_token st))
       || match refresh_token with
          | Some r => taken r (non_null (map OAuthToken.refresh_token
                                             (oauth_token st)))
          | None => false
          end
    then Raise IntegrityError
    else Ok (row, with_oauth_token st (oauth_token st ++ [row])).

Definition access_valid (now : datetime) (r : OAuthToken.t) : bool :=
  negb (OAuthToken.is_revoked r) && (now <? OAuthToken.access_token_expires_at r).

Definition get_token_by_access_token (now : datetime) (access_token : string)
    (valid_only : bool) : M (option OAuthToken.t) :=
  fun st =>
    let q := List.filter
               (fun r => String.eqb (OAuthToken.access_token r) access_token)
               (oauth_token st) in
    let q := if valid_only then List.filter (access_valid now) q else q in
    lift (scalar_one_or_none q) st.

(** A [NULL] expiry never compares greater than [now]. *)
Definition refresh_valid (now : datetime) (r : OAuthToken.t) : bool :=
  negb (OAuthToken.is_revoked r)
  && match OAuthToken.refresh_token_expires_at r with
     | Some e => now <? e
     | None => false
     end.

Definition get_token_by_refresh_token (now : datetime) (refresh_token : string)
    (valid_only : bool) : M (option OAuthToken.t) :=
  fun st =>
    let q := List.filter
               (fun r => match OAuthToken.refresh_token r with
                         | Some t => String.eqb t refresh_token
                         | None => false
                         end) (oauth_token st) in
    let q := if valid_only then List.filter (refresh_valid now) q else q in
    lift (scalar_one_or_none q) st.

Definition revoke_token (token_id : Z) : M bool :=
  fun st =>
    let '(rows, rowcount) :=
      update_where (fun r => Z.eqb (OAuthToken.id r) token_id)
                   (set_is_revoked true) (oauth_token st) in
    Ok (0 <? rowcount, with_oauth_token st rows).

Definition revoke_all_user_tokens (uin : Z) (client_id : option string)
  : M Z :=
  fun st =>
    let p r :=
      Z.eqb (OAuthToken.uin r) uin
      && (if truthy_str client_id
          then String.eqb (OAuthToken.client_id r) (or_str client_id "")
          else true) in
    let '(rows, rowcount) := update_where p (set_is_revoked true) (oauth_token st) in
    Ok (rowcount, with_oauth_token st rows).

End crud.

(** ** String helpers for the standard [str] operations used by the handlers *)

(** [s[n:]] for a prefix of [n] ASCII characters. *)
Fixpoint str_drop (n : nat) (s : string) : string :=
  match n, s with
  | O, _ => s
  | S n', String _ s' => str_drop n' s'
  | S _, EmptyString => EmptyString
  end.

(** [s.split(":", 1)] when [":" in s]: the text before and after the first
    colon. *)
Fixpoint split_colon (s : string) : option (string * string) :=
  match s with
  | EmptyString => None
  | String c s' =>
      if Ascii.eqb c ":"%char then Some (EmptyString, s')
      else match split_colon s' with
           | Some (u, p) => Some (String c u, p)
           | None => None
           end
  end.

(** The double-quote character. *)
Definition dquote : string := String (Ascii.ascii_of_nat 34) EmptyString.

(** [needle in haystack] on two [str]. *)
Definition str_contains (needle haystack : string) : bool :=
  match String.index 0 needle haystack with
  | Some _ => true
  | None => false
  end.

Definition str_in (s : string) (l : list string) : bool :=
  existsb (String.eqb s) l.

(** ** oauth/provider.py *)

Module TokenResponse.
Record t : Type := {
  access_token : string;
  token_type : string;
  expires_in : Z;
  refresh_token : option string;
  scope : string;
  id_token : option string
}.

(** [model_dump(exclude_none=True)] *)
Definition model_dump (r : t) : pydict :=
  let d : pydict :=
    {[ "access_token" := JStr (access_token r);
       "token_type" := JStr (token_type r);
       "expires_in" := JInt (expires_in r);
       "scope" := JStr (scope r) ]} in
  let d := match refresh_token r with
           | Some x => <[ "refresh_token" := JStr x ]> d
           | None => d
           end in
  match id_token r with
  | Some x => <[ "id_token" := JStr x ]> d
  | None => d
  end.
End TokenResponse.

Section Provider.
Context {rt : PyRuntime}.
Variable config : Config.t.

Definition find_client (client_id : string) : option OAuthClient.t :=
  List.find (fun c => String.eqb (OAuthClient.client_id c) client_id)
            (Config.oauth_clients config).

Definition _validate_redirect_uri (uri : string) (allowed_uris : list string)
  : bool :=
  match allowed_uris with
  | [] => false
  | _ :: _ =>
      if str_in uri allowed_uris then true
      else
        let parsed := urlparse uri in
        existsb (fun allowed =>
                   let '(scheme_a, netloc_a, path_a) := urlparse allowed in
                   let '(scheme, netloc, path) := parsed in
                   String.eqb scheme scheme_a && String.eqb netloc netloc_a
                   && String.eqb path path_a) allowed_uris
  end.

(** Returns (valid, client, error). The secret is compared only when one
    is passed; likewise the redirect URI. *)
Definition validate_client (client_id : string)
    (client_secret redirect_uri : option string)
  : result (bool * option OAuthClient.t * option string) :=
  match find_client client_id with
  | None => Ok (false, None, Some "invalid_client")
  | Some client =>
      let secret_ok :=
        match client_secret with
        | Some s => compare_digest s (OAuthClient.client_secret client)
        | None => Ok true
        end in
      match secret_ok with
      | Raise e => Raise e
      | Ok false => Ok (false, None, Some "invalid_client")
      | Ok true =>
          match redirect_uri with
          | Some uri =>
              if _validate_redirect_uri uri (OAuthClient.redirect_uris client)
              then Ok (true, Some client, None)
              else Ok (false, None, Some "invalid_redirect_uri")
          | None => Ok (true, Some client, None)
          end
      end
  end.

(** [d.get(k)] *)
Definition dict_get (d : pydict) (k : string) : jvalue :=
  default JNull (d !! k).

Definition dict_has (d : pydict) (k : string) : bool :=
  bool_decide (is_Some (d !! k)).

(** [time_time] is [int(time.time())]. *)
Definition generate_id_token (time_time : Z) (uin : Z)
    (client_id scope : string) (user_data : pydict) (nonce : option string)
  : string :=
  let now := time_time in
  let payload : pydict :=
    {[ "iss" := JStr (OAuthProviderConfig.issuer (Config.oauth_provider config));
       "sub" := default (JStr (str_of_int uin)) (user_data !! "sub");
       "aud" := JStr client_id;
       "iat" := JInt now;
       "exp" := JInt (now + OAuthProviderConfig.access_token_expire
                              (Config.oauth_provider config));
       "uin" := JInt uin ]} in
  let scopes := str_split scope in
  let payload :=
    if str_in "email" scopes && dict_has user_data "email"
    then <[ "email_verified" :=
              default (JBool false) (user_data !! "email_verified") ]>
           (<[ "email" := dict_get user_data "email" ]> payload)
    else payload in
  let payload :=
    if str_in "profile" scopes then
      let payload :=
        if dict_has user_data "preferred_username"
        then <[ "preferred_username" := dict_get user_data "preferred_username" ]> payload
        else payload in
      let payload :=
        if dict_has user_data "nickname"
        then <[ "nickname" := dict_get user_data "nickname" ]> payload
        else payload in
      if dict_has user_data "name"
      then <[ "name" := dict_get user_data "name" ]> payload
      else payload
    else payload in
  let payload :=
    if str_in "preferred_username" scopes
       && dict_has user_data "preferred_username"
    then <[ "preferred_username" := dict_get user_data "preferred_username" ]> payload
    else payload in
  let payload :=
    if truthy_str nonce then <[ "nonce" := jstr_opt nonce ]> payload
    else payload in
  jwt_encode payload (Config.secret_key config).

(** [access_token] and [refresh_token] are the two successive draws of
    [secrets.token_urlsafe(48)]. *)
Definition create_token_response (time_time : Z)
    (access_token refresh_token : string) (uin : Z)
    (client_id scope : string) (user_data : pydict)
    (include_refresh_token : bool) (nonce : option string)
  : TokenResponse.t :=
  {| TokenResponse.access_token := access_token;
     TokenResponse.token_type := "Bearer";
     TokenResponse.expires_in :=
       OAuthProviderConfig.access_token_expire (Config.oauth_provider config);
     TokenResponse.refresh_token :=
       if include_refresh_token then Some refresh_token else None;
     TokenResponse.scope := scope;
     TokenResponse.id_token :=
       if str_in "openid" (str_split scope)
       then Some (generate_id_token time_time uin client_id scope user_data nonce)
       else None |}.

(** One iteration of the loop over the scopes that copies entries of
    [extra_data] into the claims. [extra] is the value of
    [bind_user_data.get("extra_data") or {}]. *)
Definition copy_extra (extra : jvalue) (acc : result pydict) (scope : string)
  : result pydict :=
  match acc with
  | Raise e => Raise e
  | Ok claims =>
      match extra with
      | JDict d =>
          match d !! scope, claims !! scope with
          | Some v, None => Ok (<[ scope := v ]> claims)
          | _, _ => Ok claims
          end
      | JStr s =>
          if str_contains scope s && negb (dict_has claims scope)
          then Raise TypeError else Ok claims
      | JList l =>
          if existsb (fun v => match v with
                               | JStr t => String.eqb t scope
                               | _ => false
                               end) l
             && negb (dict_has claims scope)
          then Raise TypeError else Ok claims
      | _ => Raise TypeError
      end
  end.

Definition get_user_claims (scope : string) (bind_user_data : pydict)
  : result pydict :=
  let scopes := str_split scope in
  let claims : pydict := ∅ in
  let claims :=
    if str_in "uin" scopes
    then <[ "uin" := dict_get bind_user_data "uin" ]> claims else claims in
  let claims :=
    if str_in "openid" scopes
    then <[ "sub" :=
              if truthy (dict_get bind_user_data "sub")
              then dict_get bind_user_data "sub"
              else JStr (py_str (dict_get bind_user_data "uin")) ]> claims
    else claims in
  let claims :=
    if str_in "email" scopes && dict_has bind_user_data "email"
    then <[ "email" := dict_get bind_user_data "email" ]> claims
    else claims in
  let claims :=
    if (str_in "profile" scopes || str_in "preferred_username" scopes)
       && dict_has bind_user_data "preferred_username"
    then <[ "preferred_username" :=
              dict_get bind_user_data "preferred_username" ]> claims
    else claims in
  let extra_data :=
    if truthy (dict_get bind_user_data "extra_data")
    then dict_get bind_user_data "extra_data" else JDict ∅ in
  fold_left (copy_extra extra_data) scopes (Ok claims).

End Provider.

(** ** page/oauth_routes.py *)

Module JSONResponse.
Record t : Type := {
  status_code : Z;
  content : pydict;
  headers : list (string * string)
}.
End JSONResponse.

Definition json_response (content : pydict) : JSONResponse.t :=
  {| JSONResponse.status_code := 200; JSONResponse.content := content;
     JSONResponse.headers := [] |}.

Definition error_response (status : Z) (error description : string)
    (headers : list (string * string)) : JSONResponse.t :=
  {| JSONResponse.status_code := status;
     JSONResponse.content :=
       {[ "error" := JStr error; "error_description" := JStr description ]};
     JSONResponse.headers := headers |}.

(** What the framework answers when the handler raises. *)
Definition internal_server_error : JSONResponse.t :=
  {| JSONResponse.status_code := 500; JSONResponse.content := ∅;
     JSONResponse.headers := [] |}.

(** [database/session.py: get_db]: commit when the handler returns, roll back
    when it raises. *)
Definition get_db (handler : M JSONResponse.t) (st : Store)
  : JSONResponse.t * Store :=
  match handler st with
  | Ok (resp, st') => (resp, st')
  | Raise _ => (internal_server_error, st)
  end.

(** The form fields and the header of [POST /token]. *)
Module TokenForm.
Record t : Type := {
  grant_type : string;
  code : option string;
  redirect_uri : option string;
  client_id : option string;
  client_secret : option string;
  code_verifier : option string;
  refresh_token : option string;
  authorization : option string
}.
End TokenForm.

Section Endpoints.
Context {rt : PyRuntime}.
Variable config : Config.t.

(** Client credentials after the optional [Authorization: Basic] header
    has been taken into account. *)
Definition basic_credentials (authorization client_id client_secret : option string)
  : option string * option string :=
  match authorization with
  | Some a =>
      if truthy_str authorization && String.prefix "Basic " a then
        match b64decode_utf8 (str_drop 6 a) with
        | Some decoded =>
            match split_colon decoded with
            | Some (u, p) => (Some u, Some p)
            | None => (client_id, client_secret)
            end
        | None => (client_id, client_secret)
        end
      else (client_id, client_secret)
  | None => (client_id, client_secret)
  end.

(** The [user_data] dictionary built from a binding. *)
Definition build_user_data (bind_user : BindUser.t) : pydict :=
  let user_data : pydict :=
    {[ "uin" := JInt (BindUser.uin bind_user);
       "email" := jstr_opt (BindUser.email bind_user);
       "preferred_username" := jstr_opt (BindUser.preferred_username bind_user);
       "sub" := JStr (BindUser.sub bind_user) ]} in
  match BindUser.extra_data bind_user with
  | Some extra => if truthy (JDict extra) then extra ∪ user_data else user_data
  | None => user_data
  end.

(** Mints the token response and persists the token row (the common tail
    of both grants). [now] is the clock reading of [create_oauth_token]. *)
Definition issue_tokens (time_time : Z) (now : datetime)
    (token_urlsafe : nat -> string) (client_id scope : string)
    (bind_user : BindUser.t) : M JSONResponse.t :=
  let user_data := build_user_data bind_user in
  let token_response :=
    create_token_response config time_time (token_urlsafe 0%nat)
      (token_urlsafe 1%nat) (BindUser.uin bind_user) client_id scope
      user_data true None in
  let* _ := crud.create_oauth_token now
              (TokenResponse.access_token token_response) client_id
              (BindUser.id bind_user) (BindUser.uin bind_user) scope
              (OAuthProviderConfig.access_token_expire
                 (Config.oauth_provider config))
              (TokenResponse.refresh_token token_response)
              (if truthy_str (TokenResponse.refresh_token token_response)
               then Some (OAuthProviderConfig.refresh_token_expire
                            (Config.oauth_provider config))
               else None) in
  ret (json_response (TokenResponse.model_dump token_response)).

(** authorization_code grant, first part: every check made before the
    code is consumed. Ends the request with a response, or hands over the
    rows it loaded. *)
Definition authorization_code_checks (now : datetime) (form : TokenForm.t)
  : M (JSONResponse.t + PendingAuth.t * BindUser.t) :=
  match TokenForm.code form with
  | Some code =>
      if String.eqb code "" then
        ret (inl (error_response 400 "invalid_request" "code is required" []))
      else
        let* pending := crud.get_pending_auth_by_auth_code now code true in
        match pending with
        | None =>
            ret (inl (error_response 400 "invalid_grant"
                        "Invalid or expired authorization code" []))
        | Some pending =>
            if truthy_str (TokenForm.redirect_uri form)
               && negb (String.eqb (or_str (TokenForm.redirect_uri form) "")
                                   (PendingAuth.redirect_uri pending))
            then ret (inl (error_response 400 "invalid_grant"
                             "redirect_uri mismatch" []))
            else
              let* pkce :=
                if truthy_str (PendingAuth.code_challenge pending) then
                  if negb (truthy_str (TokenForm.code_verifier form)) then
                    ret (Some (error_response 400 "invalid_request"
                                 "code_verifier is required" []))
                  else
                    let* ok :=
                      lift (verify_pkce
                              (or_str (TokenForm.code_verifier form) "")
                              (or_str (PendingAuth.code_challenge pending) "")
                              (or_str (PendingAuth.code_challenge_method pending)
                                      "plain")) in
                    if ok then ret None
                    else ret (Some (error_response 400 "invalid_grant"
                                      "Invalid code_verifier" []))
                else ret None in
              match pkce with
              | Some resp => ret (inl resp)
              | None =>
                  let* bind_user :=
                    crud.get_bind_user_by_uin (PendingAuth.uin pending) true in
                  match bind_user with
                  | None => ret (inl (error_response 400 "invalid_grant"
                                        "User not found" []))
                  | Some bind_user => ret (inr (pending, bind_user))
                  end
              end
        end
  | None =>
      ret (inl (error_response 400 "invalid_request" "code is required" []))
  end.

(** authorization_code grant, second part: the code is marked used (the
    outcome of the UPDATE is dropped), the tokens are minted and stored. *)
Definition authorization_code_redeem (time_time : Z) (now : datetime)
    (token_urlsafe : nat -> string) (client_id : string)
    (pending : PendingAuth.t) (bind_user : BindUser.t) : M JSONResponse.t :=
  let* _ := crud.mark_pending_auth_used (PendingAuth.id pending) in
  issue_tokens time_time now token_urlsafe client_id
               (PendingAuth.scope pending) bind_user.

Definition grant_authorization_code (time_time : Z) (utcnow : nat -> datetime)
    (token_urlsafe : nat -> string) (client_id : string) (form : TokenForm.t)
  : M JSONResponse.t :=
  let* checked := authorization_code_checks (utcnow 0%nat) form in
  match checked with
  | inl resp => ret resp
  | inr (pending, bind_user) =>
      authorization_code_redeem time_time (utcnow 1%nat) token_urlsafe
                                client_id pending bind_user
  end.

Definition grant_refresh_token (time_time : Z) (utcnow : nat -> datetime)
    (token_urlsafe : nat -> string) (client_id : string) (form : TokenForm.t)
  : M JSONResponse.t :=
  if negb (truthy_str (TokenForm.refresh_token form)) then
    ret (error_response 400 "invalid_request" "refresh_token is required" [])
  else
    let* token_record :=
      crud.get_token_by_refresh_token (utcnow 0%nat)
        (or_str (TokenForm.refresh_token form) "") true in
    match token_record with
    | None => ret (error_response 400 "invalid_grant"
                     "Invalid or expired refresh token" [])
    | Some token_record =>
        if negb (String.eqb (OAuthToken.client_id token_record) client_id)
        then ret (error_response 400 "invalid_grant" "Client mismatch" [])
        else
          let* _ := crud.revoke_token (OAuthToken.id token_record) in
          let* bind_user :=
            crud.get_bind_user_by_uin (OAuthToken.uin token_record) true in
          match bind_user with
          | None => ret (error_response 400 "invalid_grant" "User not found" [])
          | Some bind_user =>
              issue_tokens time_time (utcnow 1%nat) token_urlsafe client_id
                           (OAuthToken.scope token_record) bind_user
          end
    end.

(** [POST /token]. [limiter_check] is the answer of the rate limiter for
    this request, [utcnow n] the n-th clock reading, [token_urlsafe n] the
    n-th random token. *)
Definition token (limiter_check : bool * option Z) (time_time : Z)
    (utcnow : nat -> datetime) (token_urlsafe : nat -> string)
    (form : TokenForm.t) : M JSONResponse.t :=
  let '(allowed, retry_after) := limiter_check in
  if negb allowed then
    ret (error_response 429 "rate_limit_exceeded" "Too many requests"
           [("Retry-After",
             match retry_after with
             | Some n => str_of_int n
             | None => "None"
             end)])
  else
    let '(client_id, client_secret) :=
      basic_credentials (TokenForm.authorization form)
                        (TokenForm.client_id form)
                        (TokenForm.client_secret form) in
    if negb (truthy_str client_id) then
      ret (error_response 400 "invalid_request" "client_id is required" [])
    else
      let client_id := or_str client_id "" in
      let* validated :=
        lift (validate_client config client_id client_secret None) in
      let '(valid, client, error) := validated in
      if negb valid then
        ret (error_response 401 "invalid_client"
               "Client authentication failed" [])
      else if String.eqb (TokenForm.grant_type form) "authorization_code" then
        grant_authorization_code time_time utcnow token_urlsafe client_id form
      else if String.eqb (TokenForm.grant_type form) "refresh_token" then
        grant_refresh_token time_time utcnow token_urlsafe client_id form
      else
        ret (error_response 400 "unsupported_grant_type"
               ("Grant type '" +:+ TokenForm.grant_type form
                +:+ "' is not supported") []).

(** [GET /userinfo] *)
Definition userinfo (utcnow : nat -> datetime) (authorization : option string)
  : M JSONResponse.t :=
  let access_token :=
    match authorization with
    | Some a =>
        if truthy_str authorization && String.prefix "Bearer " a
        then Some (str_drop 7 a) else None
    | None => None
    end in
  if negb (truthy_str access_token) then
    ret (error_response 401 "invalid_request" "Access token is required"
           [("WWW-Authenticate", "Bearer")])
  else
    let* token_record :=
      crud.get_token_by_access_token (utcnow 0%nat) (or_str access_token "")
                                     true in
    match token_record with
    | None =>
        ret (error_response 401 "invalid_token"
               "Invalid or expired access token"
               [("WWW-Authenticate",
                 "Bearer error=" +:+ dquote +:+ "invalid_token" +:+ dquote)])
    | Some token_record =>
        let* bind_user :=
          crud.get_bind_user_by_uin (OAuthToken.uin token_record) true in
        match bind_user with
        | None => ret (error_response 401 "invalid_token" "User not found" [])
        | Some bind_user =>
            let user_data := build_user_data bind_user in
            let* claims :=
              lift (get_user_claims (OAuthToken.scope token_record) user_data) in
            ret (json_response claims)
        end
    end.

End Endpoints.

(** ** bot/handlers.py *)

Definition nl : string := String (Ascii.ascii_of_nat 10) EmptyString.

(** The texts sent back to the chat. *)
Module Reply.
Definition auth_usage (prefix : string) : string :=
  "请提供验证码" +:+ nl +:+ "用法: " +:+ prefix +:+ " auth <验证码>".
Definition not_bound_sso (prefix : string) : string :=
  "你尚未绑定 SSO 账号，请先绑定: " +:+ prefix +:+ " bind <用户名>".
Definition invalid_or_expired : string := "无效或已过期的验证码".
Definition not_yours : string := "此验证码不属于你".
Definition approved (client_name scope : string) : string :=
  "已批准授权请求" +:+ nl +:+ "应用: " +:+ client_name +:+ nl
  +:+ "权限: " +:+ scope.
Definition unknown_app : string := "未知应用".
Definition failure : string := "命令处理时发生错误，请稍后再试".

Definition unbind_usage (prefix : string) : string :=
  "请提供用户名或使用 confirm 确认解绑" +:+ nl +:+ "用法: " +:+ prefix
  +:+ " unbind <用户名>".
Definition no_pending_unbind : string := "没有待确认的解绑请求".
Definition not_bound : string := "你尚未绑定任何账号".
Definition unbound (username : string) : string :=
  "已成功解绑账号: " +:+ username.
Definition username_mismatch (bound_username : string) : string :=
  "用户名不匹配，你绑定的账号是: " +:+ bound_username.
Definition unbind_prompt (prefix username : string) : string :=
  "你正在解绑账号: " +:+ username +:+ nl
  +:+ "请在 5 分钟内发送 " +:+ prefix +:+ " unbind confirm 确认解绑" +:+ nl
  +:+ "或发送 " +:+ prefix +:+ " cancel 取消".
End Reply.

(** [get_async_session] around a command, inside the [try] of
    [handle_message]: commit when the handler returns, roll back and answer
    with the generic failure text when it raises. *)
Definition run_command (handler : M string) (st : Store) : string * Store :=
  match handler st with
  | Ok (msg, st') => (msg, st')
  | Raise _ => (Reply.failure, st)
  end.

Section Handlers.
Context {rt : PyRuntime}.
Variable config : Config.t.

Definition client_display_name (client_id : string) : string :=
  match List.find (fun c => String.eqb (OAuthClient.client_id c) client_id)
                  (Config.oauth_clients config) with
  | Some c => OAuthClient.name c
  | None => Reply.unknown_app
  end.

(** The claim: [UPDATE pending_auth SET uin, bind_user_id WHERE id = ...]. *)
Definition claim_pending_auth (pending_id user_id bind_user_id : Z) : M Z :=
  fun st =>
    let '(rows, rowcount) :=
      update_where (fun r => Z.eqb (PendingAuth.id r) pending_id)
                   (set_claimant user_id bind_user_id) (pending_auth st) in
    Ok (rowcount, with_pending_auth st rows).

(** [auth], first part: the binding of the caller and the pending request
    are loaded. Ends with a reply, or hands over the two rows. *)
Definition handle_auth_lookup (now : datetime) (code : string) (user_id : Z)
  : M (string + BindUser.t * PendingAuth.t) :=
  let verification_code := str_upper code in
  let* bind_user := crud.get_bind_user_by_uin user_id true in
  match bind_user with
  | None => ret (inl (Reply.not_bound_sso (Config.command_prefix config)))
  | Some bind_user =>
      let* pending := crud.get_pending_auth_by_code now verification_code true in
      match pending with
      | None => ret (inl Reply.invalid_or_expired)
      | Some pending => ret (inr (bind_user, pending))
      end
  end.

(** [auth], second part: claim when unclaimed, reject when claimed by
    somebody else, then approve and log. *)
Definition handle_auth_approve (now : datetime) (user_id : Z)
    (bind_user : BindUser.t) (pending : PendingAuth.t) : M string :=
  let approve :=
    let* _ := crud.approve_pending_auth (PendingAuth.id pending) in
    let client_name := client_display_name (PendingAuth.client_id pending) in
    let* _ := crud.create_authorization_log now user_id
                (PendingAuth.client_id pending)
                (PendingAuth.redirect_uri pending) (PendingAuth.scope pending)
                true (PendingAuth.client_ip pending)
                (PendingAuth.user_agent pending) in
    ret (Reply.approved client_name (PendingAuth.scope pending)) in
  if Z.eqb (PendingAuth.uin pending) 0 then
    let* _ := claim_pending_auth (PendingAuth.id pending) user_id
                                 (BindUser.id bind_user) in
    approve
  else if negb (Z.eqb (PendingAuth.uin pending) user_id) then
    ret Reply.not_yours
  else approve.

Definition handle_auth (utcnow : nat -> datetime) (args : list string)
    (user_id : Z) : M string :=
  match args with
  | [] => ret (Reply.auth_usage (Config.command_prefix config))
  | code :: _ =>
      let* loaded := handle_auth_lookup (utcnow 0%nat) code user_id in
      match loaded with
      | inl msg => ret msg
      | inr (bind_user, pending) =>
          handle_auth_approve (utcnow 1%nat) user_id bind_user pending
      end
  end.

(** [preferred_username or email or sub] *)
Definition bound_username (bind_user : BindUser.t) : string :=
  or_str (BindUser.preferred_username bind_user)
         (or_str (BindUser.email bind_user) (BindUser.sub bind_user)).

Definition handle_unbind (utcnow : nat -> datetime) (args : list string)
    (user_id : Z) (message_type : string) (source_id : Z) : M string :=
  match args with
  | [] => ret (Reply.unbind_usage (Config.command_prefix config))
  | arg0 :: _ =>
      let* pending := crud.get_pending_unbind_by_uin (utcnow 0%nat) user_id true in
      if String.eqb (str_lower arg0) "confirm" then
        match pending with
        | None => ret Reply.no_pending_unbind
        | Some pending =>
            let* bind_user := crud.get_bind_user_by_uin user_id true in
            match bind_user with
            | None =>
                let* _ := crud.mark_pending_unbind_processed
                            (PendingUnbind.id pending) in
                ret Reply.not_bound
            | Some bind_user =>
                let* _ := crud.deactivate_bind_user (BindUser.id bind_user) in
                let* _ := crud.create_unbind_log (utcnow 1%nat) (utcnow 2%nat)
                            user_id (PendingUnbind.username pending)
                            (BindUser.sub bind_user)
                            (BindUser.bind_time bind_user) true "confirm" in
                let* _ := crud.mark_pending_unbind_processed
                            (PendingUnbind.id pending) in
                ret (Reply.unbound (PendingUnbind.username pending))
            end
        end
      else
        let username := arg0 in
        let* bind_user := crud.get_bind_user_by_uin user_id true in
        match bind_user with
        | None => ret Reply.not_bound
        | Some bind_user =>
            let bound := bound_username bind_user in
            if negb (String.eqb (str_lower username) (str_lower bound))
               && negb (String.eqb username (BindUser.sub bind_user))
            then ret (Reply.username_mismatch bound)
            else
              let* _ :=
                match pending with
                | Some pending =>
                    crud.mark_pending_unbind_processed (PendingUnbind.id pending)
                | None => ret false
                end in
              let* _ := crud.create_pending_unbind (utcnow 1%nat) (utcnow 2%nat)
                          user_id username (BindUser.id bind_user)
                          message_type source_id 300 in
              ret (Reply.unbind_prompt (Config.command_prefix config) username)
        end
  end.

End Handlers.

(** ** page/routes.py *)

(** oauth/client.py: the part of [UserInfo] that the callback reads. *)
Module UserInfo.
Record t : Type := {
  sub : string;
  email : option string;
  preferred_username : option string;
  raw_data : option pydict
}.
End UserInfo.

(** An HTML page, reduced to its status code and its title. *)
Module HTMLResponse.
Record t : Type := { status_code : Z; title : string }.
End HTMLResponse.

Definition html (status : Z) (title : string) : HTMLResponse.t :=
  {| HTMLResponse.status_code := status; HTMLResponse.title := title |}.

Section Pages.
Variable config : Config.t.

(** The entries of [raw_data] named by [stored_fields], the three columns
    of their own excepted. *)
Definition build_extra_data (raw_data : pydict) : pydict :=
  fold_left
    (fun extra_data field =>
       if negb (str_in field ["sub"; "email"; "preferred_username"])
       then match raw_data !! field with
            | Some v => <[ field := v ]> extra_data
            | None => extra_data
            end
       else extra_data)
    (Config.stored_fields config) ∅.

(** [GET /callback]. [oauth_client] is the configured upstream client, as
    the function from an authorization code to the user it resolves to
    ([exchange_and_get_userinfo]). *)
Definition oauth_callback (utcnow : nat -> datetime)
    (oauth_client : option (string -> option UserInfo.t))
    (code state error error_description : option string)
  : M HTMLResponse.t :=
  if truthy_str error then ret (html 200 "授权失败")
  else if negb (truthy_str code) || negb (truthy_str state) then
    ret (html 400 "参数错误")
  else
    let* pending :=
      crud.get_pending_bind_by_state (utcnow 0%nat) (or_str state "") true in
    match pending with
    | None => ret (html 400 "链接已失效")
    | Some pending =>
        let* existing := crud.get_bind_user_by_uin (PendingBind.uin pending) true in
        match existing with
        | Some _ =>
            let* _ := crud.mark_pending_bind_used (PendingBind.id pending) in
            ret (html 200 "已存在绑定")
        | None =>
            match oauth_client with
            | None => ret (html 500 "配置错误")
            | Some exchange_and_get_userinfo =>
                match exchange_and_get_userinfo (or_str code "") with
                | None => ret (html 200 "获取信息失败")
                | Some userinfo =>
                    let* existing_sub :=
                      crud.get_bind_user_by_sub (UserInfo.sub userinfo) true in
                    match existing_sub with
                    | Some _ =>
                        let* _ := crud.mark_pending_bind_used
                                    (PendingBind.id pending) in
                        ret (html 200 "账号已被绑定")
                    | None =>
                        let extra_data :=
                          build_extra_data
                            (default ∅ (UserInfo.raw_data userinfo)) in
                        let* _ :=
                          crud.create_bind_user (utcnow 1%nat)
                            (PendingBind.uin pending) (UserInfo.sub userinfo)
                            (UserInfo.email userinfo)
                            (UserInfo.preferred_username userinfo)
                            (if truthy (JDict extra_data)
                             then Some extra_data else None) in
                        let* _ := crud.mark_pending_bind_used
                                    (PendingBind.id pending) in
                        ret (html 200 "绑定成功")
                    end
                end
            end
        end
    end.

End Pages.

(** What the framework answers for a page handler: commit on return, roll
    back and answer 500 when it raises. *)
Definition get_db_page (handler : M HTMLResponse.t) (st : Store)
  : HTMLResponse.t * Store :=
  match handler st with
  | Ok (resp, st') => (resp, st')
  | Raise _ => (html 500 "Internal Server Error", st)
  end.

(** ** Mutations of the store

    Every write of the backend is one of the statements below: the
    mutating functions of crud.py and the claim UPDATE of [handle_auth]. *)

Inductive mutation : Type :=
| MCreateBindUser (now : datetime) (uin : Z) (sub : string)
    (email preferred_username : option string) (extra_data : option pydict)
| MDeactivateBindUser (bind_user_id : Z)
| MCreatePendingBind (now1 now2 : datetime) (state : string) (uin : Z)
    (username source_type : string) (source_id expires_in : Z)
| MMarkPendingBindUsed (pending_id : Z)
| MCreatePendingAuth (now1 now2 : datetime)
    (verification_code auth_code client_id redirect_uri scope : string)
    (bind_user_id uin : Z)
    (state code_challenge code_challenge_method client_ip user_agent : option string)
    (expires_in : Z)
| MClaimPendingAuth (pending_id user_id bind_user_id : Z)
| MApprovePendingAuth (pending_id : Z)
| MMarkPendingAuthUsed (pending_id : Z)
| MCreatePendingUnbind (now1 now2 : datetime) (uin : Z) (username : string)
    (bind_user_id : Z) (source_type : string) (source_id expires_in : Z)
| MMarkPendingUnbindProcessed (pending_id : Z)
| MCreateAuthorizationLog (now : datetime) (uin : Z)
    (client_id address scope : string) (is_success : bool)
    (client_ip user_agent : option string)
| MCreateUnbindLog (now1 now2 : datetime) (uin : Z) (unbind_user sub : string)
    (bind_time : datetime) (is_unbind : bool) (reason : string)
| MCreateOAuthToken (now : datetime) (access_token client_id : string)
    (bind_user_id uin : Z) (scope : string) (access_token_expires_in : Z)
    (refresh_token : option string) (refresh_token_expires_in : option Z)
| MRevokeToken (token_id : Z)
| MRevokeAllUserTokens (uin : Z) (client_id : option string).

Definition forget {A} (m : M A) : Store -> result Store :=
  fun st => match m st with Ok (_, st') => Ok st' | Raise e => Raise e end.

Definition apply_mutation (m : mutation) : Store -> result Store :=
  match m with
  | MCreateBindUser now uin sub email pu extra =>
      forget (crud.create_bind_user now uin sub email pu extra)
  | MDeactivateBindUser i => forget (crud.deactivate_bind_user i)
  | MCreatePendingBind n1 n2 state uin username sty sid exp =>
      forget (crud.create_pending_bind n1 n2 state uin username sty sid exp)
  | MMarkPendingBindUsed i => forget (crud.mark_pending_bind_used i)
  | MCreatePendingAuth n1 n2 vc ac cid ruri scope bid uin state cc ccm ip ua exp =>
      forget (crud.create_pending_auth n1 n2 vc ac cid ruri scope bid uin
                                       state cc ccm ip ua exp)
  | MClaimPendingAuth i u b => forget (claim_pending_auth i u b)
  | MApprovePendingAuth i => forget (crud.approve_pending_auth i)
  | MMarkPendingAuthUsed i => forget (crud.mark_pending_auth_used i)
  | MCreatePendingUnbind n1 n2 uin username bid sty sid exp =>
      forget (crud.create_pending_unbind n1 n2 uin username bid sty sid exp)
  | MMarkPendingUnbindProcessed i => forget (crud.mark_pending_unbind_processed i)
  | MCreateAuthorizationLog now uin cid addr scope ok ip ua =>
      forget (crud.create_authorization_log now uin cid addr scope ok ip ua)
  | MCreateUnbindLog n1 n2 uin user sub bt isu reason =>
      forget (crud.create_unbind_log n1 n2 uin user sub bt isu reason)
  | MCreateOAuthToken now atok cid bid uin scope exp rtok rexp =>
      forget (crud.create_oauth_token now atok cid bid uin scope exp rtok rexp)
  | MRevokeToken i => forget (crud.revoke_token i)
  | MRevokeAllUserTokens uin cid => forget (crud.revoke_all_user_tokens uin cid)
  end.

(** The stores that can follow [st]: any number of successful mutations
    (a failed statement rolls its transaction back to an earlier store). *)
Inductive follows (st : Store) : Store -> Prop :=
| follows_refl : follows st st
| follows_step st1 st2 m :
    follows st st1 -> apply_mutation m st1 = Ok st2 -> follows st st2.

(** ** A runtime for evaluation

    The primitives restricted to what the examples below exercise: case
    mapping and whitespace splitting of ASCII text, [str] of scalars,
    Base64 decoding of padded canonical input, URLs of the form
    [scheme://netloc/path]. Token signing is kept opaque. *)

Module AsciiRuntime.

Definition map_string (f : ascii -> ascii) (s : string) : string :=
  string_of_list_ascii (map f (list_ascii_of_string s)).

Definition lower_char (c : ascii) : ascii :=
  let n := N_of_ascii c in
  if ((65 <=? n) && (n <=? 90))%N then ascii_of_N (n + 32) else c.

Definition upper_char (c : ascii) : ascii :=
  let n := N_of_ascii c in
  if ((97 <=? n) && (n <=? 122))%N then ascii_of_N (n - 32) else c.

Definition is_space (c : ascii) : bool :=
  let n := N_of_ascii c in
  (((9 <=? n) && (n <=? 13)) || ((28 <=? n) && (n <=? 32)))%N.

(** [cur] is the word being read, reversed. *)
Fixpoint split_words (cur : list ascii) (s : string) : list string :=
  let flush := match cur with
               | [] => []
               | _ :: _ => [string_of_list_ascii (rev cur)]
               end in
  match s with
  | EmptyString => flush
  | String c s' =>
      if is_space c then flush ++ split_words [] s'
      else split_words (c :: cur) s'
  end.

Definition sextet_value (c : ascii) : option N :=
  let n := N_of_ascii c in
  if ((65 <=? n) && (n <=? 90))%N then Some (n - 65)%N
  else if ((97 <=? n) && (n <=? 122))%N then Some (n - 71)%N
  else if ((48 <=? n) && (n <=? 57))%N then Some (n + 4)%N
  else if (n =? 43)%N then Some 62%N
  else if (n =? 47)%N then Some 63%N
  else None.

Fixpoint b64decode (cs : list ascii) : option (list N) :=
  match cs with
  | [] => Some []
  | c0 :: c1 :: c2 :: c3 :: rest =>
      match sextet_value c0, sextet_value c1 with
      | Some v0, Some v1 =>
          let b0 := (N.lor (N.shiftl v0 2) (N.shiftr v1 4))%N in
          match sextet_value c2, sextet_value c3, rest with
          | Some v2, Some v3, _ =>
              let b1 := (N.lor (N.shiftl (N.land v1 15) 4) (N.shiftr v2 2))%N in
              let b2 := (N.lor (N.shiftl (N.land v2 3) 6) v3)%N in
              match b64decode rest with
              | Some bs => Some (b0 :: b1 :: b2 :: bs)
              | None => None
              end
          | Some v2, None, [] =>
              if Ascii.eqb c3 "="%char
              then Some [b0; (N.lor (N.shiftl (N.land v1 15) 4) (N.shiftr v2 2))%N]
              else None
          | None, None, [] =>
              if Ascii.eqb c2 "="%char && Ascii.eqb c3 "="%char
              then Some [b0] else None
          | _, _, _ => None
          end
      | _, _ => None
      end
  | _ => None
  end.

Definition decode (s : string) : option string :=
  match b64decode (list_ascii_of_string s) with
  | Some bs => Some (str_of_bytes bs)
  | None => None
  end.

(** Splits [s] at the first character satisfying [stop]. *)
Fixpoint break_at (stop : ascii -> bool) (s : string) : string * string :=
  match s with
  | EmptyString => (EmptyString, EmptyString)
  | String c s' =>
      if stop c then (EmptyString, s)
      else let '(a, b) := break_at stop s' in (String c a, b)
  end.

Definition parse_url (u : string) : string * string * string :=
  match String.index 0 "://" u with
  | Some i =>
      let scheme := String.substring 0 i u in
      let rest := str_drop (i + 3) u in
      let '(netloc, tail) :=
        break_at (fun c => Ascii.eqb c "/"%char || Ascii.eqb c "?"%char
                           || Ascii.eqb c "#"%char) rest in
      let '(path, _) :=
        break_at (fun c => Ascii.eqb c "?"%char || Ascii.eqb c "#"%char) tail in
      (scheme, netloc, path)
  | None => (EmptyString, EmptyString, u)
  end.

Definition scalar_str (v : jvalue) : string :=
  match v with
  | JNull => "None"
  | JBool true => "True"
  | JBool false => "False"
  | JInt z => str_of_int z
  | JStr s => s
  | JList _ => "[...]"
  | JDict _ => "{...}"
  end.

#[global] Instance runtime : PyRuntime := {|
  str_lower := map_string lower_char;
  str_upper := map_string upper_char;
  str_split := split_words [];
  b64decode_utf8 := decode;
  urlparse := parse_url;
  jwt_encode := fun _ _ => "<id_token>";
  py_str := scalar_str
|}.

End AsciiRuntime.

(** ** Two handlers interleaved at their database calls

    Each handler runs in a session of its own; its reads see what was
    committed before them. In the schedules below both handlers read before
    either writes, and the second writes after the first has committed. *)

Section Races.
Context {rt : PyRuntime}.
Variable config : Config.t.

(** Two [POST /token] requests with the authorization_code grant: the
    checks of both, then the redemption of the first, then of the second.
    Returns both responses, the store between the two redemptions and the
    final store; [None] when a request ends in its checks or raises. *)
Definition race_redeem (tt : Z) (utcnow1 utcnow2 : nat -> datetime)
    (rnd1 rnd2 : nat -> string) (cid1 cid2 : string)
    (form1 form2 : TokenForm.t) (st : Store)
  : option (JSONResponse.t * JSONResponse.t * Store * Store) :=
  match authorization_code_checks (utcnow1 0%nat) form1 st,
        authorization_code_checks (utcnow2 0%nat) form2 st with
  | Ok (inr (p1, b1), _), Ok (inr (p2, b2), _) =>
      match authorization_code_redeem config tt (utcnow1 1%nat) rnd1 cid1 p1 b1 st with
      | Ok (resp1, st1) =>
          match authorization_code_redeem config tt (utcnow2 1%nat) rnd2 cid2
                  p2 b2 st1 with
          | Ok (resp2, st2) => Some (resp1, resp2, st1, st2)
          | Raise _ => None
          end
      | Raise _ => None
      end
  | _, _ => None
  end.

(** Two [auth] commands for one code: the lookups of both callers, then
    the approval by the first, then by the second. Returns both replies
    and the final store; [None] when a command ends in its lookup or
    raises. *)
Definition race_auth (utcnow1 utcnow2 : nat -> datetime) (code : string)
    (user1 user2 : Z) (st : Store) : option (string * string * Store) :=
  match handle_auth_lookup config (utcnow1 0%nat) code user1 st,
        handle_auth_lookup config (utcnow2 0%nat) code user2 st with
  | Ok (inr (b1, p1), _), Ok (inr (b2, p2), _) =>
      match handle_auth_approve config (utcnow1 1%nat) user1 b1 p1 st with
      | Ok (msg1, st1) =>
          match handle_auth_approve config (utcnow2 1%nat) user2 b2 p2 st1 with
          | Ok (msg2, st2) => Some (msg1, msg2, st2)
          | Raise _ => None
          end
      | Raise _ => None
      end
  | _, _ => None
  end.

End Races.

(** ** Predicates and tables used to state the properties *)

Definition ascii7 (c : ascii) : bool := (N_of_ascii c <? 128)%N.

Section Predicates.
Context {rt : PyRuntime}.
Variable config : Config.t.

(** The request carries credentials that authenticate the client
    [client_id]: it passes the credential checks of [token]. *)
Definition authenticated (form : TokenForm.t) (client_id : string) : Prop :=
  exists secret client,
    basic_credentials (TokenForm.authorization form)
      (TokenForm.client_id form) (TokenForm.client_secret form)
    = (Some client_id, secret)
    /\ client_id <> ""
    /\ validate_client config client_id secret None
       = Ok (true, Some client, None).

(** No row of pending_auth makes [code] a usable authorization code. *)
Definition no_usable_auth_code (now : datetime) (st : Store)
    (code : option string) : Prop :=
  forall c r, code = Some c -> In r (pending_auth st) ->
              PendingAuth.auth_code r = c ->
              crud.auth_code_valid now r = false.

End Predicates.

(** The authorization code [c] has been issued, and every row that carries
    it is used. *)
Definition code_spent (c : string) (rows : list PendingAuth.t) : Prop :=
  (exists r, In r rows /\ PendingAuth.auth_code r = c)
  /\ (forall r, In r rows -> PendingAuth.auth_code r = c ->
                PendingAuth.is_used r = true).

(** The UIN [u] has been bound, and every row that carries it is
    deactivated. *)
Definition unbound (u : Z) (rows : list BindUser.t) : Prop :=
  (exists r, In r rows /\ BindUser.uin r = u)
  /\ (forall r, In r rows -> BindUser.uin r = u -> BindUser.is_active r = false).

(** The refresh token [k] has been issued, and every row that carries it is
    revoked. *)
Definition refresh_retired (k : string) (rows : list OAuthToken.t) : Prop :=
  (exists r, In r rows /\ OAuthToken.refresh_token r = Some k)
  /\ (forall r, In r rows -> OAuthToken.refresh_token r = Some k ->
                OAuthToken.is_revoked r = true).

(** The token table after [UPDATE oauth_token SET is_revoked WHERE id = i]. *)
Definition revoked_rows (i : Z) (rows : list OAuthToken.t) : list OAuthToken.t :=
  map (fun r => if Z.eqb (OAuthToken.id r) i then set_is_revoked true r else r) rows.

(** One mutation leaves the token table alone, appends a row whose tokens
    were free, or sets [is_revoked] on some rows. *)
Inductive tokens_step (rows : list OAuthToken.t) : list OAuthToken.t -> Prop :=
| tokens_same : tokens_step rows rows
| tokens_insert (row : OAuthToken.t) :
    taken (OAuthToken.access_token row) (map OAuthToken.access_token rows) = false ->
    (forall k, OAuthToken.refresh_token row = Some k ->
               taken k (non_null (map OAuthToken.refresh_token rows)) = false) ->
    tokens_step rows (rows ++ [row])
| tokens_revoke (p : OAuthToken.t -> bool) :
    tokens_step rows (map (fun r => if p r then set_is_revoked true r else r) rows).

(** The rows of pending_auth after a claim (when [claim] is set) and the
    approval of the row [i]. *)
Definition approved_rows (claim : bool) (i user_id bind_user_id : Z)
    (rows : list PendingAuth.t) : list PendingAuth.t :=
  map (fun r => if Z.eqb (PendingAuth.id r) i then set_is_approved true r else r)
      (if claim
       then map (fun r => if Z.eqb (PendingAuth.id r) i
                          then set_claimant user_id bind_user_id r else r) rows
       else rows).

Section ChatPredicates.
Context {rt : PyRuntime}.

(** Some row makes the verification code [k] usable at time [now]. *)
Definition acceptable (now : datetime) (k : string) (st : Store) : Prop :=
  exists r, In r (pending_auth st)
            /\ PendingAuth.verification_code r = k
            /\ PendingAuth.is_used r = false
            /\ PendingAuth.is_approved r = false
            /\ now < PendingAuth.expires_at r.

(** [username] matches the name the binding is known by, ignoring case, or
    its [sub] exactly. *)
Definition username_matches (username : string) (bind_user : BindUser.t) : Prop :=
  str_lower username = str_lower (bound_username bind_user)
  \/ username = BindUser.sub bind_user.

End ChatPredicates.

(** The pending unbind requests of [uin] that are valid at [now]. *)
Definition pending_unbinds (now : datetime) (uin : Z) (st : Store)
  : list PendingUnbind.t :=
  List.filter (crud.unbind_valid now)
    (List.filter (fun r => Z.eqb (PendingUnbind.uin r) uin) (pending_unbind st)).

(** The table pending_unbind after the request found by the lookup, if any,
    has been marked processed. *)
Definition superseded_rows (found : list PendingUnbind.t)
    (rows : list PendingUnbind.t) : list PendingUnbind.t :=
  match found with
  | p :: _ =>
      map (fun r => if Z.eqb (PendingUnbind.id r) (PendingUnbind.id p)
                    then set_is_processed true r else r) rows
  | [] => rows
  end.

(** The request that [unbind <username>] creates. *)
Definition new_unbind_request (now1 now2 : datetime) (user_id : Z)
    (username : string) (bind_user_id : Z) (message_type : string)
    (source_id : Z) (rows : list PendingUnbind.t) : PendingUnbind.t :=
  {| PendingUnbind.id := next_id (map PendingUnbind.id rows);
     PendingUnbind.uin := user_id;
     PendingUnbind.username := username;
     PendingUnbind.bind_user_id := bind_user_id;
     PendingUnbind.created_at := now1;
     PendingUnbind.expires_at := now2 + timedelta_seconds 300;
     PendingUnbind.is_processed := false;
     PendingUnbind.source_type := message_type;
     PendingUnbind.source_id := source_id |}.

(** ** Sample data: one relying party, two bound users, one request *)

Module Scenario.

Definition demo : OAuthClient.t :=
  {| OAuthClient.client_id := "demo";
     OAuthClient.client_secret := "s3cret";
     OAuthClient.name := "Demo";
     OAuthClient.redirect_uris := ["https://rp/cb"];
     OAuthClient.allowed_scopes := ["uin"; "openid"; "email"; "profile"] |}.

Definition config : Config.t :=
  {| Config.secret_key := "server-key";
     Config.command_prefix := "/sso";
     Config.oauth_provider :=
       {| OAuthProviderConfig.issuer := "http://localhost:8000";
          OAuthProviderConfig.access_token_expire := 3600;
          OAuthProviderConfig.refresh_token_expire := 2592000;
          OAuthProviderConfig.verification_code_expire := 300 |};
     Config.oauth_clients := [demo];
     Config.stored_fields := ["sub"; "email"; "preferred_username"; "nickname"] |}.

Definition user (id uin : Z) (sub email name : string) (active : bool)
  : BindUser.t :=
  {| BindUser.id := id; BindUser.uin := uin; BindUser.sub := sub;
     BindUser.email := Some email; BindUser.preferred_username := Some name;
     BindUser.extra_data := Some {[ "nickname" := JStr "Nick" ]};
     BindUser.bind_time := 0; BindUser.is_active := active |}.

Definition alice : BindUser.t := user 1 10001 "u-42" "a@x" "alice" true.
Definition bob : BindUser.t := user 2 10002 "u-43" "b@x" "bob" true.

(** The request of scenario S2: verification code K7M3Q2, authorization
    code AC, expiring at 300 s. *)
Definition request (scope : string) (uin bind_user_id : Z)
    (approved used : bool) : PendingAuth.t :=
  {| PendingAuth.id := 1;
     PendingAuth.verification_code := "K7M3Q2";
     PendingAuth.auth_code := "AC";
     PendingAuth.client_id := "demo";
     PendingAuth.redirect_uri := "https://rp/cb";
     PendingAuth.scope := scope;
     PendingAuth.state := Some "ST";
     PendingAuth.code_challenge := None;
     PendingAuth.code_challenge_method := None;
     PendingAuth.bind_user_id := bind_user_id;
     PendingAuth.uin := uin;
     PendingAuth.created_at := 0;
     PendingAuth.expires_at := timedelta_seconds 300;
     PendingAuth.is_approved := approved;
     PendingAuth.is_used := used;
     PendingAuth.client_ip := None;
     PendingAuth.user_agent := None |}.

Definition store_with (users : list BindUser.t) (reqs : list PendingAuth.t)
    (tokens : list OAuthToken.t) : Store :=
  {| bind_user := users; pending_bind := []; pending_auth := reqs;
     pending_unbind := []; oauth_token := tokens; authorization_log := [];
     unbind_log := [] |}.

(** The request as [/authorize] created it. *)
Definition store_created : Store :=
  store_with [alice; bob] [request "openid email" 0 0 false false] [].

(** The request approved by alice. *)
Definition store_approved : Store :=
  store_with [alice; bob] [request "openid email" 10001 1 true false] [].

(** The request after its code has been redeemed. *)
Definition store_used : Store :=
  store_with [alice; bob] [request "openid email" 10001 1 true true] [].

(** Clock readings: one second apart, starting at 10 s. *)
Definition utcnow (n : nat) : datetime := timedelta_seconds (10 + Z.of_nat n).

Definition draws (a r : string) (n : nat) : string :=
  match n with O => a | _ => r end.

Definition code_form (secret : option string) : TokenForm.t :=
  {| TokenForm.grant_type := "authorization_code";
     TokenForm.code := Some "AC";
     TokenForm.redirect_uri := Some "https://rp/cb";
     TokenForm.client_id := Some "demo";
     TokenForm.client_secret := secret;
     TokenForm.code_verifier := None;
     TokenForm.refresh_token := None;
     TokenForm.authorization := None |}.

Definition refresh_form (r : string) : TokenForm.t :=
  {| TokenForm.grant_type := "refresh_token";
     TokenForm.code := None;
     TokenForm.redirect_uri := None;
     TokenForm.client_id := Some "demo";
     TokenForm.client_secret := Some "s3cret";
     TokenForm.code_verifier := None;
     TokenForm.refresh_token := Some r;
     TokenForm.authorization := None |}.

(** A token row issued to alice for the client demo at time 0. *)
Definition token_row (id : Z) (a r scope : string) (revoked : bool)
  : OAuthToken.t :=
  {| OAuthToken.id := id; OAuthToken.access_token := a;
     OAuthToken.refresh_token := Some r; OAuthToken.token_type := "Bearer";
     OAuthToken.client_id := "demo"; OAuthToken.bind_user_id := 1;
     OAuthToken.uin := 10001; OAuthToken.scope := scope;
     OAuthToken.created_at := 0;
     OAuthToken.access_token_expires_at := timedelta_seconds 3600;
     OAuthToken.refresh_token_expires_at := Some (timedelta_seconds 2592000);
     OAuthToken.is_revoked := revoked |}.

End Scenario.

(** Stores with an issued token pair. *)
Module Scenario2.

(** alice holds one valid token pair for the client demo. *)
Definition store_token : Store :=
  Scenario.store_with [Scenario.alice; Scenario.bob] []
    [Scenario.token_row 1 "A1" "R1" "openid email" false].

(** The same token pair after alice has unbound. *)
Definition store_token_unbound : Store :=
  Scenario.store_with
    [Scenario.user 1 10001 "u-42" "a@x" "alice" false; Scenario.bob] []
    [Scenario.token_row 1 "A1" "R1" "openid email" false].

End Scenario2.

(** A store for the claims of [/userinfo]. *)
Module Scenario3.

(** alice holds a token with the scopes openid, email, profile and
    nickname; her binding stores the extra field nickname. *)
Definition store_profile : Store :=
  Scenario.store_with [Scenario.alice; Scenario.bob] []
    [Scenario.token_row 1 "A1" "R1" "openid email profile nickname" false].

End Scenario3.

(** A store for binding again after an unbind. *)
Module Scenario4.

Definition alice_unbound : BindUser.t :=
  Scenario.user 1 10001 "u-42" "a@x" "alice" false.

(** The link that [bind alice] sent to the user 10001. *)
Definition bind_link : PendingBind.t :=
  {| PendingBind.id := 1; PendingBind.state := "S"; PendingBind.uin := 10001;
     PendingBind.username := "alice"; PendingBind.created_at := 0;
     PendingBind.expires_at := timedelta_seconds 300;
     PendingBind.is_used := false; PendingBind.source_type := "private";
     PendingBind.source_id := 10001 |}.

(** alice has unbound and asks to bind again. *)
Definition store_rebind : Store :=
  {| bind_user := [alice_unbound; Scenario.bob]; pending_bind := [bind_link];
     pending_auth := []; pending_unbind := []; oauth_token := [];
     authorization_log := []; unbind_log := [] |}.

(** The upstream provider resolves every code to a fresh account. *)
Definition upstream (code : string) : option UserInfo.t :=
  Some {| UserInfo.sub := "u-99"; UserInfo.email := Some "a@y";
          UserInfo.preferred_username := Some "alice2";
          UserInfo.raw_data := None |}.

End Scenario4.

(** * Further functions of the backend *)

(** ** config.py: the validator of [OAuthClient.allowed_scopes] *)

(** [validate_scopes]: the scope uin is put in front when it is missing. *)
Definition validate_scopes (v : list string) : list string :=
  if str_in "uin" v then v else "uin" :: v.

(** ** utils/security.py *)

Module security.

Definition dangerous_patterns : list string :=
  ["javascript:"; "data:"; "vbscript:"; "<script"; "onclick"; "onerror"].

Section Validation.
Context {rt : PyRuntime}.

Definition validate_redirect_uri (uri : string) : bool :=
  if String.eqb uri "" then false
  else if negb (String.prefix "http://" uri || String.prefix "https://" uri)
          && negb (str_contains "://" uri)
  then false
  else
    let uri_lower := str_lower uri in
    negb (existsb (fun pattern => str_contains pattern uri_lower)
                  dangerous_patterns).

End Validation.

(** [bytes.hex()]: two lower-case hexadecimal digits per byte. *)
Definition hex_digit (n : N) : ascii :=
  match String.get (N.to_nat n) "0123456789abcdef" with
  | Some c => c
  | None => "0"%char
  end.

Definition hex (bs : list N) : string :=
  string_of_list_ascii
    (flat_map (fun b => [hex_digit (N.shiftr b 4); hex_digit (N.land b 15)]) bs).

(** [hashlib.sha256(token.encode()).hexdigest()] *)
Definition hash_token (token : string) : string :=
  hex (SHA256.digest (bytes_of_str token)).

Module RateLimitRule.
Record t : Type := { max_requests : Z; window_seconds : Z }.
End RateLimitRule.

(** The rules of [RATE_LIMITS]. *)
Definition RATE_LIMITS : list (string * RateLimitRule.t) :=
  [ ("authorize", {| RateLimitRule.max_requests := 10;
                     RateLimitRule.window_seconds := 60 |});
    ("token", {| RateLimitRule.max_requests := 20;
                 RateLimitRule.window_seconds := 60 |});
    ("bind", {| RateLimitRule.max_requests := 5;
                RateLimitRule.window_seconds := 60 |});
    ("auth_code", {| RateLimitRule.max_requests := 10;
                     RateLimitRule.window_seconds := 60 |}) ].

(** [time.time()] returns a float. The arithmetic of floats is not
    modelled: the limiter is parametric in their type and in the operations
    it uses on them, conversion from [int], sum, difference, [<] and
    [int(x)]. *)
Class PyFloat : Type := {
  float : Type;
  float_of_int : Z -> float;
  fadd : float -> float -> float;
  fsub : float -> float -> float;
  flt : float -> float -> bool;
  ftrunc : float -> Z
}.

(** The in-memory rate limiter. Every call of [time.time()] is an input. An
    entry of the storage is the list of its request times. *)
Section RateLimiter.
Context {fl : PyFloat}.

Record RateLimiter : Type := {
  _storage : gmap string (list float);
  _last_cleanup : float;
  _cleanup_interval : Z
}.

(** [RateLimiter()] created at time [now]. *)
Definition new_limiter (now : float) : RateLimiter :=
  {| _storage := ∅; _last_cleanup := now; _cleanup_interval := 300 |}.

Definition _cleanup (now : float) (self : RateLimiter) : RateLimiter :=
  if flt (fsub now (_last_cleanup self)) (float_of_int (_cleanup_interval self))
  then self
  else
    {| _storage :=
         omap (fun requests =>
                 match List.filter
                         (fun t => flt (fsub now t) (float_of_int 3600))
                         requests with
                 | [] => None
                 | kept => Some kept
                 end) (_storage self);
       _last_cleanup := now;
       _cleanup_interval := _cleanup_interval self |}.

(** [min(requests)] *)
Definition fmin (first : float) (others : list float) : float :=
  fold_left (fun m x => if flt x m then x else m) others first.

(** [check]: [now0] is the clock reading of [_cleanup], [now] the one of
    [check] itself. Returns (allowed, retry_after) and the limiter. *)
Definition check (now0 now : float) (key : string) (rule : RateLimitRule.t)
    (self : RateLimiter) : (bool * option Z) * RateLimiter :=
  let self := _cleanup now0 self in
  let entry := default [] (_storage self !! key) in
  let cutoff := fsub now (float_of_int (RateLimitRule.window_seconds rule)) in
  let requests := List.filter (fun t => flt cutoff t) entry in
  if Z.of_nat (length requests) >=? RateLimitRule.max_requests rule then
    let oldest := match requests with
                  | [] => now
                  | t :: ts => fmin t ts
                  end in
    let retry_after :=
      ftrunc (fsub (fadd oldest
                         (float_of_int (RateLimitRule.window_seconds rule)))
                   now) + 1 in
    ((false, Some retry_after),
     {| _storage := <[ key := requests ]> (_storage self);
        _last_cleanup := _last_cleanup self;
        _cleanup_interval := _cleanup_interval self |})
  else
    ((true, None),
     {| _storage := <[ key := requests ++ [now] ]> (_storage self);
        _last_cleanup := _last_cleanup self;
        _cleanup_interval := _cleanup_interval self |}).

(** The request times remembered for [key]. *)
Definition bucket (key : string) (self : RateLimiter) : list float :=
  default [] (_storage self !! key).

(** The request times of [key] that [check] at time [now] finds inside the
    window of [rule], after the clean-up at time [now0]. *)
Definition in_window (now0 now : float) (key : string) (rule : RateLimitRule.t)
    (self : RateLimiter) : list float :=
  List.filter
    (fun t => flt (fsub now (float_of_int (RateLimitRule.window_seconds rule))) t)
    (bucket key (_cleanup now0 self)).

(** Successive calls of [check] for one key and one rule, each with its two
    clock readings. *)
Definition checks (times : list (float * float)) (key : string)
    (rule : RateLimitRule.t) (self : RateLimiter) : RateLimiter :=
  fold_left (fun lim t => snd (check (fst t) (snd t) key rule lim)) times self.

End RateLimiter.

(** Clock readings in whole seconds, for evaluation. *)
Module IntClock.
#[global] Instance seconds : PyFloat := {|
  float := Z;
  float_of_int := fun n => n;
  fadd := Z.add;
  fsub := Z.sub;
  flt := Z.ltb;
  ftrunc := fun x => x
|}.
End IntClock.

End security.

(** ** oauth/provider.py: scopes and verification codes *)

Definition verification_alphabet : string := "23456789ABCDEFGHJKLMNPQRSTUVWXYZ".

(** [secrets.choice(seq)]: the element at a random index below [len(seq)];
    [r] is the random number the index is reduced from. *)
Definition secrets_choice (seq : string) (r : nat) : string :=
  match String.get (r mod String.length seq) seq with
  | Some c => String c EmptyString
  | None => EmptyString
  end.

(** [length] is [config.oauth_provider.verification_code_length], [random n]
    the n-th random number. *)
Definition generate_verification_code (length : Z) (random : nat -> nat)
  : string :=
  String.concat ""
    (map (fun i => secrets_choice verification_alphabet (random i))
         (seq 0 (Z.to_nat length))).

Section ProviderScopes.
Context {rt : PyRuntime}.

(** Returns (valid, error): the first requested scope that the client is
    not allowed makes the request invalid. *)
Definition validate_scope (requested_scope : string) (client : OAuthClient.t)
  : bool * option string :=
  let scopes := str_split requested_scope in
  match List.find (fun scope =>
                     negb (str_in scope (OAuthClient.allowed_scopes client)))
                  scopes with
  | Some scope => (false, Some ("scope '" +:+ scope +:+ "' not allowed"))
  | None => (true, None)
  end.

End ProviderScopes.

(** ** page/oauth_routes.py: authorize, check and revoke *)

(** What [GET /authorize] answers: an HTML page (reduced to its status and
    title), the consent page (reduced to the values shown on it), a
    redirection, or a raised [HTTPException]. *)
Inductive AuthorizeResponse : Type :=
| HTMLPage (r : HTMLResponse.t)
| ConsentPage (client_name verification_code : string) (expire_minutes : Z)
| RedirectResponse (url : string)
| HTTPException (status_code : Z) (detail : string)
                (headers : list (string * string)).

(** [get_db] around [GET /authorize]. *)
Definition get_db_authorize (handler : M AuthorizeResponse) (st : Store)
  : AuthorizeResponse * Store :=
  match handler st with
  | Ok (resp, st') => (resp, st')
  | Raise _ => (HTTPException 500 "Internal Server Error" [], st)
  end.

Definition json_status (status : Z) (content : pydict) : JSONResponse.t :=
  {| JSONResponse.status_code := status; JSONResponse.content := content;
     JSONResponse.headers := [] |}.

Section Authorize.
Context {rt : PyRuntime}.
Variable config : Config.t.
(** [urllib.parse.urlencode] on the items of a dict, in insertion order. *)
Variable urlencode : list (string * string) -> string.
(** [config.oauth_provider.verification_code_length] *)
Variable verification_code_length : Z.

Definition get_error_redirect (redirect_uri error description : string)
    (state : option string) : string :=
  let params := [("error", error); ("error_description", description)] in
  let params := if truthy_str state
                then params ++ [("state", or_str state "")] else params in
  redirect_uri +:+ "?" +:+ urlencode params.

(** [GET /authorize]. [limiter_check] is the answer of the rate limiter,
    [random] feeds the verification code, [token_urlsafe 0] is the
    authorization code, [client_host] is [request.client.host] when there is
    a client, [user_agent] the header of that name. *)
Definition authorize (limiter_check : bool * option Z)
    (utcnow : nat -> datetime) (random : nat -> nat)
    (token_urlsafe : nat -> string) (client_host user_agent : option string)
    (client_id redirect_uri response_type scope : string)
    (state code_challenge code_challenge_method nonce : option string)
  : M AuthorizeResponse :=
  let '(allowed, retry_after) := limiter_check in
  if negb allowed then
    ret (HTTPException 429 "Too many requests"
           [("Retry-After",
             match retry_after with
             | Some n => str_of_int n
             | None => "None"
             end)])
  else if negb (security.validate_redirect_uri redirect_uri) then
    ret (HTMLPage (html 400 "授权错误"))
  else if negb (String.eqb response_type "code") then
    if negb (String.eqb redirect_uri "") then
      ret (RedirectResponse
             (get_error_redirect redirect_uri "unsupported_response_type"
                "Only 'code' response type is supported" state))
    else ret (HTTPException 400 "unsupported_response_type" [])
  else
    let* validated :=
      lift (validate_client config client_id None (Some redirect_uri)) in
    let '(valid, client, error) := validated in
    if negb valid then
      if match error with
         | Some e => String.eqb e "invalid_redirect_uri"
         | None => false
         end
      then ret (HTMLPage (html 400 "授权错误"))
      else
        ret (RedirectResponse
               (get_error_redirect redirect_uri
                  (match error with Some e => e | None => "None" end)
                  "Invalid client" state))
    else
      match client with
      | None =>
          (* [client.allowed_scopes] on [None] raises (AttributeError) *)
          lift (Raise TypeError)
      | Some client =>
          match validate_scope scope client with
          | (false, scope_error) =>
              ret (RedirectResponse
                     (get_error_redirect redirect_uri "invalid_scope"
                        (match scope_error with
                         | Some e => e
                         | None => "None"
                         end) state))
          | (true, _) =>
              if truthy_str code_challenge
                 && negb (match code_challenge_method with
                          | Some m => str_in m ["plain"; "S256"]
                          | None => false
                          end)
              then
                ret (RedirectResponse
                       (get_error_redirect redirect_uri "invalid_request"
                          "Invalid code_challenge_method" state))
              else
                let verification_code :=
                  generate_verification_code verification_code_length random in
                let auth_code := token_urlsafe 0%nat in
                let* _ :=
                  crud.create_pending_auth (utcnow 0%nat) (utcnow 1%nat)
                    verification_code auth_code client_id redirect_uri scope
                    0 0 state code_challenge code_challenge_method
                    client_host user_agent
                    (OAuthProviderConfig.verification_code_expire
                       (Config.oauth_provider config)) in
                ret (ConsentPage (OAuthClient.name client) verification_code
                       (OAuthProviderConfig.verification_code_expire
                          (Config.oauth_provider config) / 60))
          end
      end.

(** [GET /authorize/pending]: the API variant; no rate limit, no check of
    the response type nor of the PKCE method. *)
Definition authorize_pending (utcnow : nat -> datetime) (random : nat -> nat)
    (token_urlsafe : nat -> string) (client_host user_agent : option string)
    (client_id redirect_uri scope : string)
    (state code_challenge code_challenge_method : option string)
  : M JSONResponse.t :=
  let* validated :=
    lift (validate_client config client_id None (Some redirect_uri)) in
  let '(valid, client, error) := validated in
  if negb valid then
    ret (json_status 400 {[ "error" := jstr_opt error;
                            "error_description" := JStr "Invalid client" ]})
  else
    match client with
    | None => lift (Raise TypeError)
    | Some client =>
        match validate_scope scope client with
        | (false, scope_error) =>
            ret (json_status 400
                   {[ "error" := JStr "invalid_scope";
                      "error_description" := jstr_opt scope_error ]})
        | (true, _) =>
            let verification_code :=
              generate_verification_code verification_code_length random in
            let auth_code := token_urlsafe 0%nat in
            let* _ :=
              crud.create_pending_auth (utcnow 0%nat) (utcnow 1%nat)
                verification_code auth_code client_id redirect_uri scope
                0 0 state code_challenge code_challenge_method
                client_host user_agent
                (OAuthProviderConfig.verification_code_expire
                   (Config.oauth_provider config)) in
            ret (json_response
                   {[ "verification_code" := JStr verification_code;
                      "expires_in" :=
                        JInt (OAuthProviderConfig.verification_code_expire
                                (Config.oauth_provider config));
                      "message" :=
                        JStr ("请在 QQ 中发送: " +:+ Config.command_prefix config
                              +:+ " auth " +:+ verification_code) ]})
        end
    end.

(** The URL the browser is sent to once the request is approved. *)
Definition approved_redirect (pending : PendingAuth.t) : string :=
  let params := [("code", PendingAuth.auth_code pending)] in
  let params := if truthy_str (PendingAuth.state pending)
                then params ++ [("state", or_str (PendingAuth.state pending) "")]
                else params in
  PendingAuth.redirect_uri pending +:+ "?" +:+ urlencode params.

(** [GET /authorize/check]. The lookup is made with [valid_only=False] and
    reads no clock; [utcnow 0] is the reading of the expiry test. *)
Definition authorize_check (utcnow : nat -> datetime)
    (verification_code : string) : M JSONResponse.t :=
  let* pending :=
    crud.get_pending_auth_by_code (utcnow 0%nat) (str_upper verification_code)
                                  false in
  match pending with
  | None =>
      ret (json_status 404 {[ "error" := JStr "not_found";
                              "approved" := JBool false ]})
  | Some pending =>
      if PendingAuth.expires_at pending <? utcnow 0%nat then
        ret (json_status 410 {[ "error" := JStr "expired";
                                "approved" := JBool false ]})
      else if PendingAuth.is_approved pending then
        ret (json_response {[ "approved" := JBool true;
                              "redirect_uri" := JStr (approved_redirect pending) ]})
      else
        ret (json_response {[ "approved" := JBool false;
                              "pending" := JBool true ]})
  end.

(** [POST /revoke]. Both lookups are made with [valid_only=False] and read
    no clock. *)
Definition revoke (token : string)
    (token_type_hint client_id client_secret authorization : option string)
  : M JSONResponse.t :=
  let '(client_id, client_secret) :=
    basic_credentials authorization client_id client_secret in
  if negb (truthy_str client_id) then
    ret (error_response 400 "invalid_request" "client_id is required" [])
  else
    let client_id := or_str client_id "" in
    let* validated :=
      lift (validate_client config client_id client_secret None) in
    let '(valid, _, _) := validated in
    if negb valid then
      ret (error_response 401 "invalid_client"
             "Client authentication failed" [])
    else
      let* by_access := crud.get_token_by_access_token 0 token false in
      let* token_record :=
        match by_access with
        | Some r => ret (Some r)
        | None => crud.get_token_by_refresh_token 0 token false
        end in
      let* _ :=
        match token_record with
        | Some token_record =>
            if String.eqb (OAuthToken.client_id token_record) client_id
            then crud.revoke_token (OAuthToken.id token_record)
            else ret false
        | None => ret false
        end in
      ret (json_response ∅).

End Authorize.

(** ** bot/handlers.py: bind and cancel *)

Module SSOClientConfig.
Record t : Type := {
  enabled : bool;
  use_wellknown : bool;
  wellknown_url : string;
  authorization_url : string;
  client_id : string;
  redirect_uri : string;
  scope : string
}.
End SSOClientConfig.

Module Replies.
Definition bind_usage (prefix : string) : string :=
  "请提供用户名" +:+ nl +:+ "用法: " +:+ prefix +:+ " bind <用户名>".
Definition sso_disabled : string := "SSO 绑定功能未启用".
Definition already_bound (prefix bound_username : string) : string :=
  "你已绑定账号: " +:+ bound_username +:+ nl
  +:+ "如需更换，请先解绑: " +:+ prefix +:+ " unbind <用户名>".
Definition bind_link (minutes : Z) (auth_url : string) : string :=
  "请在 " +:+ str_of_int minutes +:+ " 分钟内点击以下链接完成绑定:" +:+ nl
  +:+ auth_url.
Definition cancelled : string := "已取消解绑请求".
Definition nothing_to_cancel : string := "没有可取消的操作".
End Replies.

Section MoreHandlers.
Context {rt : PyRuntime}.
Variable config : Config.t.
Variable urlencode : list (string * string) -> string.
(** [config.sso_client] and [config.binding.bind_link_expire] *)
Variable sso_client : SSOClientConfig.t.
Variable bind_link_expire : Z.
(** [fetch_wellknown_config(url)]: the discovery document, [None] when it
    cannot be fetched. *)
Variable fetch_wellknown_config : string -> option pydict.

(** A value interpolated into an f-string. *)
Definition format_value (v : jvalue) : string :=
  match v with
  | JStr s => s
  | _ => py_str v
  end.

(** The authorization endpoint of the upstream provider: the discovered
    one, else the configured one (also when discovery fails). *)
Definition authorization_endpoint : string :=
  if SSOClientConfig.use_wellknown sso_client
     && negb (String.eqb (SSOClientConfig.wellknown_url sso_client) "")
  then
    match fetch_wellknown_config (SSOClientConfig.wellknown_url sso_client) with
    | Some wellknown =>
        match wellknown !! "authorization_endpoint" with
        | Some v => format_value v
        | None => SSOClientConfig.authorization_url sso_client
        end
    | None => SSOClientConfig.authorization_url sso_client
    end
  else SSOClientConfig.authorization_url sso_client.

(** The link sent to the chat for the state [state]. *)
Definition auth_url (state : string) : string :=
  authorization_endpoint +:+ "?" +:+
  urlencode [("client_id", SSOClientConfig.client_id sso_client);
             ("redirect_uri", SSOClientConfig.redirect_uri sso_client);
             ("response_type", "code");
             ("scope", SSOClientConfig.scope sso_client);
             ("state", state)].

Definition handle_bind (utcnow : nat -> datetime)
    (token_urlsafe : nat -> string) (args : list string) (user_id : Z)
    (message_type : string) (source_id : Z) : M string :=
  match args with
  | [] => ret (Replies.bind_usage (Config.command_prefix config))
  | username :: _ =>
      if negb (SSOClientConfig.enabled sso_client) then ret Replies.sso_disabled
      else
        let* existing := crud.get_bind_user_by_uin user_id true in
        match existing with
        | Some existing =>
            ret (Replies.already_bound (Config.command_prefix config)
                   (bound_username existing))
        | None =>
            let state := token_urlsafe 0%nat in
            let* _ := crud.create_pending_bind (utcnow 0%nat) (utcnow 1%nat)
                        state user_id username message_type source_id
                        bind_link_expire in
            ret (Replies.bind_link (bind_link_expire / 60) (auth_url state))
        end
  end.

Definition handle_cancel (utcnow : nat -> datetime) (user_id : Z)
    (message_type : string) (source_id : Z) : M string :=
  let* pending_unbind :=
    crud.get_pending_unbind_by_uin (utcnow 0%nat) user_id true in
  match pending_unbind with
  | Some pending_unbind =>
      let* bind_user := crud.get_bind_user_by_uin user_id true in
      let* _ :=
        match bind_user with
        | Some bind_user =>
            (let* _ := crud.create_unbind_log (utcnow 1%nat) (utcnow 1%nat)
                         user_id (PendingUnbind.username pending_unbind)
                         (BindUser.sub bind_user)
                         (BindUser.bind_time bind_user) false "cancel" in
             ret tt)
        | None => ret tt
        end in
      let* _ := crud.mark_pending_unbind_processed
                  (PendingUnbind.id pending_unbind) in
      ret Replies.cancelled
  | None => ret Replies.nothing_to_cancel
  end.

End MoreHandlers.


(** ** Predicates for the further properties *)

(** A character of a verification code: one of the alphabet, none of the
    look-alikes 0, 1, I, O, and left alone by upper-casing. *)
Definition code_char (c : ascii) : bool :=
  existsb (Ascii.eqb c) (list_ascii_of_string verification_alphabet)
  && negb (existsb (Ascii.eqb c) (list_ascii_of_string "01IO"))
  && Ascii.eqb (AsciiRuntime.upper_char c) c.


(** The row of pending_auth that [/authorize] and [/authorize/pending]
    insert: unclaimed, not approved, not used. *)
Definition requested_row (created_at expires_at : datetime)
    (verification_code auth_code client_id redirect_uri scope : string)
    (state code_challenge code_challenge_method client_ip user_agent : option string)
    (rows : list PendingAuth.t) : PendingAuth.t :=
  {| PendingAuth.id := next_id (map PendingAuth.id rows);
     PendingAuth.verification_code := verification_code;
     PendingAuth.auth_code := auth_code;
     PendingAuth.client_id := client_id;
     PendingAuth.redirect_uri := redirect_uri;
     PendingAuth.scope := scope;
     PendingAuth.state := state;
     PendingAuth.code_challenge := code_challenge;
     PendingAuth.code_challenge_method := code_challenge_method;
     PendingAuth.bind_user_id := 0;
     PendingAuth.uin := 0;
     PendingAuth.created_at := created_at;
     PendingAuth.expires_at := expires_at;
     PendingAuth.is_approved := false;
     PendingAuth.is_used := false;
     PendingAuth.client_ip := client_ip;
     PendingAuth.user_agent := user_agent |}.

Section RequestPredicates.
Context {rt : PyRuntime}.
Variable config : Config.t.

(** The client [client_id] is registered as [client], the redirect URI is
    one of its own and every requested scope is allowed to it. *)
Definition client_request_valid (client_id redirect_uri scope : string)
    (client : OAuthClient.t) : Prop :=
  find_client config client_id = Some client
  /\ _validate_redirect_uri redirect_uri (OAuthClient.redirect_uris client) = true
  /\ (forall s, In s (str_split scope) ->
                In s (OAuthClient.allowed_scopes client)).

(** What [/authorize] requires on top of that. *)
Definition authorize_valid (client_id redirect_uri response_type scope : string)
    (code_challenge code_challenge_method : option string)
    (client : OAuthClient.t) : Prop :=
  security.validate_redirect_uri redirect_uri = true
  /\ response_type = "code"
  /\ client_request_valid client_id redirect_uri scope client
  /\ (truthy_str code_challenge = true ->
      code_challenge_method = Some "plain"
      \/ code_challenge_method = Some "S256").

End RequestPredicates.

(** A stand-in for [urlencode] in examples: the pairs joined without any
    escaping. *)
Definition plain_urlencode (params : list (string * string)) : string :=
  String.concat "&" (map (fun kv => fst kv +:+ "=" +:+ snd kv) params).

(** The three answers of [/authorize/check] for a request that exists. *)
Definition check_answer (urlencode : list (string * string) -> string)
    (now : datetime) (r : PendingAuth.t) : JSONResponse.t :=
  if PendingAuth.expires_at r <? now then
    json_status 410 {[ "error" := JStr "expired"; "approved" := JBool false ]}
  else if PendingAuth.is_approved r then
    json_response {[ "approved" := JBool true;
                     "redirect_uri" := JStr (approved_redirect urlencode r) ]}
  else json_response {[ "approved" := JBool false; "pending" := JBool true ]}.

Section ClientPredicates.
Context {rt : PyRuntime}.
Variable config : Config.t.

(** The credentials of a request authenticate the client [cid]: they pass
    the checks shared by [token] and [revoke]. *)
Definition client_authenticated
    (authorization client_id client_secret : option string) (cid : string)
  : Prop :=
  exists secret client,
    basic_credentials authorization client_id client_secret = (Some cid, secret)
    /\ cid <> ""
    /\ validate_client config cid secret None = Ok (true, Some client, None).

End ClientPredicates.

(** The access token [a] has been issued, and every row that carries it is
    revoked. *)
Definition access_retired (a : string) (rows : list OAuthToken.t) : Prop :=
  (exists r, In r rows /\ OAuthToken.access_token r = a)
  /\ (forall r, In r rows -> OAuthToken.access_token r = a ->
                OAuthToken.is_revoked r = true).

Section ClaimPredicates.
Context {rt : PyRuntime}.

(** The claim [k] is covered by the granted scope: it is one of the scopes,
    or sub under openid, or preferred_username under profile. *)
Definition claim_in_scope (scope : string) (k : string) : Prop :=
  In k (str_split scope)
  \/ (k = "sub" /\ In "openid" (str_split scope))
  \/ (k = "preferred_username" /\ In "profile" (str_split scope)).

End ClaimPredicates.

(** The columns that [bind_user] has of its own; [oauth_callback] keeps them
    out of [extra_data]. *)
Definition own_columns : list string := ["sub"; "email"; "preferred_username"].

(** The row of unbind_log written for the request [pending] of the binding
    [bind_user]. *)
Definition unbind_log_row (now1 : datetime) (unbind_time : option datetime)
    (user_id : Z) (pending : PendingUnbind.t) (bind_user : BindUser.t)
    (is_unbind : bool) (reason : string) (rows : list UnbindLog.t) : UnbindLog.t :=
  {| UnbindLog.id := next_id (map UnbindLog.id rows);
     UnbindLog.uin := user_id;
     UnbindLog.unbind_user := PendingUnbind.username pending;
     UnbindLog.sub := BindUser.sub bind_user;
     UnbindLog.bind_time := BindUser.bind_time bind_user;
     UnbindLog.unbind_request_time := now1;
     UnbindLog.unbind_time := unbind_time;
     UnbindLog.is_unbind := is_unbind;
     UnbindLog.reason := Some reason |}.

(** The table bind_user after the binding [i] has been deactivated. *)
Definition deactivated_rows (i : Z) (rows : list BindUser.t) : list BindUser.t :=
  map (fun r => if Z.eqb (BindUser.id r) i then set_is_active false r else r) rows.

(** A store with a pending unbind request. *)
Module Scenario5.

Definition unbind_request : PendingUnbind.t :=
  {| PendingUnbind.id := 1; PendingUnbind.uin := 10001;
     PendingUnbind.username := "alice"; PendingUnbind.bind_user_id := 1;
     PendingUnbind.created_at := 0;
     PendingUnbind.expires_at := timedelta_seconds 300;
     PendingUnbind.is_processed := false;
     PendingUnbind.source_type := "private";
     PendingUnbind.source_id := 10001 |}.

(** alice holds a token pair and has asked to unbind. *)
Definition store_unbinding : Store :=
  {| bind_user := [Scenario.alice; Scenario.bob]; pending_bind := [];
     pending_auth := []; pending_unbind := [unbind_request];
     oauth_token := [Scenario.token_row 1 "A1" "R1" "openid email" false];
     authorization_log := []; unbind_log := [] |}.

End Scenario5.

(** The row of pending_bind that [bind] inserts. *)
Definition bind_request (created_at expires_at : datetime) (state : string)
    (user_id : Z) (username message_type : string) (source_id : Z)
    (rows : list PendingBind.t) : PendingBind.t :=
  {| PendingBind.id := next_id (map PendingBind.id rows);
     PendingBind.state := state; PendingBind.uin := user_id;
     PendingBind.username := username;
     PendingBind.created_at := created_at;
     PendingBind.expires_at := expires_at;
     PendingBind.is_used := false;
     PendingBind.source_type := message_type;
     PendingBind.source_id := source_id |}.

(** The binding that [oauth_callback] inserts for the request [pending] and
    the upstream profile [userinfo]. *)
Definition bound_row (config : Config.t) (now : datetime)
    (pending : PendingBind.t) (userinfo : UserInfo.t) (rows : list BindUser.t)
  : BindUser.t :=
  let extra_data := build_extra_data config (default ∅ (UserInfo.raw_data userinfo)) in
  {| BindUser.id := next_id (map BindUser.id rows);
     BindUser.uin := PendingBind.uin pending;
     BindUser.sub := UserInfo.sub userinfo;
     BindUser.email := UserInfo.email userinfo;
     BindUser.preferred_username := UserInfo.preferred_username userinfo;
     BindUser.extra_data := if truthy (JDict extra_data) then Some extra_data
                            else None;
     BindUser.bind_time := now;
     BindUser.is_active := true |}.

(** The table pending_bind after the link [i] has been marked used. *)
Definition used_links (i : Z) (rows : list PendingBind.t) : list PendingBind.t :=
  map (fun r => if Z.eqb (PendingBind.id r) i then set_bind_is_used true r else r)
      rows.

(** Sample configuration of the upstream provider. *)
Module Scenario6.

Definition sso : SSOClientConfig.t :=
  {| SSOClientConfig.enabled := true;
     SSOClientConfig.use_wellknown := false;
     SSOClientConfig.wellknown_url := "";
     SSOClientConfig.authorization_url := "https://sso/authorize";
     SSOClientConfig.client_id := "idp";
     SSOClientConfig.redirect_uri := "http://localhost:8000/callback";
     SSOClientConfig.scope := "openid" |}.

(** Nobody is bound yet. *)
Definition store_empty : Store :=
  {| bind_user := []; pending_bind := []; pending_auth := [];
     pending_unbind := []; oauth_token := []; authorization_log := [];
     unbind_log := [] |}.

(** The upstream provider resolves every code to the account u-42. *)
Definition upstream (code : string) : option UserInfo.t :=
  Some {| UserInfo.sub := "u-42"; UserInfo.email := Some "a@x";
          UserInfo.preferred_username := Some "alice";
          UserInfo.raw_data :=
            Some {[ "sub" := JStr "u-42"; "nickname" := JStr "Nick" ]} |}.

End Scenario6.

(** The token row that [/token] stores for the client [cid], the binding
    [bu] and the scope [scope], from the draws [a] and [r]. *)
Definition issued_row (config : Config.t) (now : datetime) (a r cid : string)
    (bu : BindUser.t) (scope : string) (rows : list OAuthToken.t) : OAuthToken.t :=
  {| OAuthToken.id := next_id (map OAuthToken.id rows);
     OAuthToken.access_token := a;
     OAuthToken.refresh_token := Some r;
     OAuthToken.token_type := "Bearer";
     OAuthToken.client_id := cid;
     OAuthToken.bind_user_id := BindUser.id bu;
     OAuthToken.uin := BindUser.uin bu;
     OAuthToken.scope := scope;
     OAuthToken.created_at := now;
     OAuthToken.access_token_expires_at :=
       now + timedelta_seconds
               (OAuthProviderConfig.access_token_expire
                  (Config.oauth_provider config));
     OAuthToken.refresh_token_expires_at :=
       if String.eqb r "" then None
       else if Z.eqb (OAuthProviderConfig.refresh_token_expire
                        (Config.oauth_provider config)) 0
            then None
            else Some (now + timedelta_seconds
                               (OAuthProviderConfig.refresh_token_expire
                                  (Config.oauth_provider config)));
     OAuthToken.is_revoked := false |}.

(** The table pending_auth after the request [i] has been marked used. *)
Definition used_requests (i : Z) (rows : list PendingAuth.t) : list PendingAuth.t :=
  map (fun r => if Z.eqb (PendingAuth.id r) i then set_is_used true r else r) rows.

(** The request passes the PKCE test of [/token] for the stored challenge:
    there is none, or the verifier sent verifies against it. *)
Definition pkce_passes (code_verifier : option string) (r : PendingAuth.t) : Prop :=
  truthy_str (PendingAuth.code_challenge r) = false
  \/ (truthy_str code_verifier = true
      /\ verify_pkce (or_str code_verifier "")
                     (or_str (PendingAuth.code_challenge r) "")
                     (or_str (PendingAuth.code_challenge_method r) "plain")
         = Ok true).

(** The redirect URI of the form is absent, empty or the one of the
    request. *)
Definition redirect_matches (redirect_uri : option string) (r : PendingAuth.t)
  : Prop :=
  truthy_str redirect_uri = true ->
  or_str redirect_uri "" = PendingAuth.redirect_uri r.

(** Two relying parties. *)
Module Scenario7.

Definition other : OAuthClient.t :=
  {| OAuthClient.client_id := "other";
     OAuthClient.client_secret := "0ther";
     OAuthClient.name := "Other";
     OAuthClient.redirect_uris := ["https://other/cb"];
     OAuthClient.allowed_scopes := ["uin"] |}.

Definition config : Config.t :=
  {| Config.secret_key := "server-key";
     Config.command_prefix := "/sso";
     Config.oauth_provider := Config.oauth_provider Scenario.config;
     Config.oauth_clients := [Scenario.demo; other];
     Config.stored_fields := Config.stored_fields Scenario.config |}.

(** The client other presents the code that was issued for demo. *)
Definition other_form : TokenForm.t :=
  {| TokenForm.grant_type := "authorization_code";
     TokenForm.code := Some "AC";
     TokenForm.redirect_uri := None;
     TokenForm.client_id := Some "other";
     TokenForm.client_secret := Some "0ther";
     TokenForm.code_verifier := None;
     TokenForm.refresh_token := None;
     TokenForm.authorization := None |}.

(** The client other presents a refresh token. *)
Definition other_refresh_form (r : string) : TokenForm.t :=
  {| TokenForm.grant_type := "refresh_token";
     TokenForm.code := None;
     TokenForm.redirect_uri := None;
     TokenForm.client_id := Some "other";
     TokenForm.client_secret := Some "0ther";
     TokenForm.code_verifier := None;
     TokenForm.refresh_token := Some r;
     TokenForm.authorization := None |}.

End Scenario7.

(** A request with a PKCE challenge. *)
Module Scenario8.

(** The request of [Scenario], approved by alice, with the challenge
    [challenge] under the method [method]. *)
Definition pkce_request (challenge : string) (method : option string)
  : PendingAuth.t :=
  {| PendingAuth.id := 1;
     PendingAuth.verification_code := "K7M3Q2";
     PendingAuth.auth_code := "AC";
     PendingAuth.client_id := "demo";
     PendingAuth.redirect_uri := "https://rp/cb";
     PendingAuth.scope := "openid email";
     PendingAuth.state := None;
     PendingAuth.code_challenge := Some challenge;
     PendingAuth.code_challenge_method := method;
     PendingAuth.bind_user_id := 1;
     PendingAuth.uin := 10001;
     PendingAuth.created_at := 0;
     PendingAuth.expires_at := timedelta_seconds 300;
     PendingAuth.is_approved := true;
     PendingAuth.is_used := false;
     PendingAuth.client_ip := None;
     PendingAuth.user_agent := None |}.

Definition store_pkce (challenge : string) (method : option string) : Store :=
  Scenario.store_with [Scenario.alice; Scenario.bob]
                      [pkce_request challenge method] [].

Definition pkce_form (verifier : option string) : TokenForm.t :=
  {| TokenForm.grant_type := "authorization_code";
     TokenForm.code := Some "AC";
     TokenForm.redirect_uri := Some "https://rp/cb";
     TokenForm.client_id := Some "demo";
     TokenForm.client_secret := Some "s3cret";
     TokenForm.code_verifier := verifier;
     TokenForm.refresh_token := None;
     TokenForm.authorization := None |}.

End Scenario8.

(** The row of authorization_log written when the caller [user_id] approves
    the request [r]. *)
Definition approval_log (now : datetime) (user_id : Z) (r : PendingAuth.t)
    (rows : list AuthorizationLog.t) : AuthorizationLog.t :=
  {| AuthorizationLog.id := next_id (map AuthorizationLog.id rows);
     AuthorizationLog.uin := user_id;
     AuthorizationLog.client_id := PendingAuth.client_id r;
     AuthorizationLog.address := PendingAuth.redirect_uri r;
     AuthorizationLog.scope := PendingAuth.scope r;
     AuthorizationLog.authorization_time := now;
     AuthorizationLog.is_success := true;
     AuthorizationLog.client_ip := PendingAuth.client_ip r;
     AuthorizationLog.user_agent := PendingAuth.user_agent r |}.

(** The rows that [revoke_all_user_tokens uin client_id] selects. *)
Definition selected_token (uin : Z) (client_id : option string)
    (r : OAuthToken.t) : bool :=
  Z.eqb (OAuthToken.uin r) uin
  && (if truthy_str client_id
      then String.eqb (OAuthToken.client_id r) (or_str client_id "")
      else true).

(** * Properties *)

(** ** SHA-256 on the standard test vectors *)

Example sha256_constants :
  nth 0 SHA256.round_constants 0%N = 0x428a2f98%N
  /\ nth 63 SHA256.round_constants 0%N = 0xc67178f2%N
  /\ nth 0 SHA256.initial_hash 0%N = 0x6a09e667%N
  /\ nth 7 SHA256.initial_hash 0%N = 0x5be0cd19%N.
Proof. vm_compute. repeat split; reflexivity. Qed.

Example sha256_abc :
  SHA256.digest (bytes_of_str "abc") =
  [0xba; 0x78; 0x16; 0xbf; 0x8f; 0x01; 0xcf; 0xea; 0x41; 0x41; 0x40; 0xde;
   0x5d; 0xae; 0x22; 0x23; 0xb0; 0x03; 0x61; 0xa3; 0x96; 0x17; 0x7a; 0x9c;
   0xb4; 0x10; 0xff; 0x61; 0xf2; 0x00; 0x15; 0xad]%N.
Proof. vm_compute. reflexivity. Qed.

(** A message of 56 bytes needs a second block. *)
Example sha256_two_blocks :
  SHA256.digest
    (bytes_of_str "abcdbcdecdefdefgefghfghighijhijkijkljklmklmnlmnomnopnopq") =
  [0x24; 0x8d; 0x6a; 0x61; 0xd2; 0x06; 0x38; 0xb8; 0xe5; 0xc0; 0x26; 0x93;
   0x0c; 0x3e; 0x60; 0x39; 0xa3; 0x3c; 0xe4; 0x59; 0x64; 0xff; 0x21; 0x67;
   0xf6; 0xec; 0xed; 0xd4; 0x19; 0xdb; 0x06; 0xc1]%N.
Proof. vm_compute. reflexivity. Qed.

(** ** The evaluation runtime on sample inputs *)

Example split_scope :
  AsciiRuntime.split_words [] " openid  email profile " = ["openid"; "email"; "profile"].
Proof. reflexivity. Qed.

Example upper_code : AsciiRuntime.map_string AsciiRuntime.upper_char "k7m3q2" = "K7M3Q2".
Proof. reflexivity. Qed.

Example rstrip_pad_trailing_only :
  Base64.rstrip_pad "ab==" = "ab" /\ Base64.rstrip_pad "a=b=" = "a=b"
  /\ Base64.rstrip_pad "==" = "".
Proof. repeat split; reflexivity. Qed.

Example decode_basic : AsciiRuntime.decode "ZGVtbzpzM2NyZXQ=" = Some "demo:s3cret".
Proof. reflexivity. Qed.

Example parse_cb :
  AsciiRuntime.parse_url "https://rp/cb?x=1" = ("https", "rp", "/cb").
Proof. reflexivity. Qed.

(** ** Strings and codecs *)

Lemma bytes_of_list_ascii (l : list ascii) :
  bytes_of_str (string_of_list_ascii l) = map N_of_ascii l.
Proof. unfold bytes_of_str. now rewrite list_ascii_of_string_of_list_ascii. Qed.

Lemma string_get_in (s : string) : forall n c,
  String.get n s = Some c -> In c (list_ascii_of_string s).
Proof.
  induction s as [|a s IH]; intros n c H; simpl in *.
  - discriminate.
  - destruct n as [|n].
    + inversion H. now left.
    + right. eauto.
Qed.

Lemma sextet_ascii7 (i : N) : ascii7 (Base64.sextet i) = true.
Proof.
  unfold Base64.sextet.
  destruct (String.get (N.to_nat i) Base64.alphabet) eqn:E; [|reflexivity].
  apply string_get_in in E.
  assert (Hall : forallb ascii7 (list_ascii_of_string Base64.alphabet) = true)
    by (vm_compute; reflexivity).
  rewrite forallb_forall in Hall. now apply Hall.
Qed.

Lemma list_ind3 {A} (P : list A -> Prop) :
  P [] -> (forall a, P [a]) -> (forall a b, P [a; b]) ->
  (forall a b c l, P l -> P (a :: b :: c :: l)) ->
  forall l, P l.
Proof.
  intros H0 H1 H2 H3.
  fix IH 1.
  intros [|a [|b [|c l]]]; [exact H0 | apply H1 | apply H2 | apply H3, IH].
Qed.

Lemma encode_ascii7 (bs : list N) : forallb ascii7 (Base64.encode bs) = true.
Proof.
  induction bs as [|a|a b|a b c l IH] using list_ind3.
  - reflexivity.
  - cbn [Base64.encode forallb]. now rewrite !sextet_ascii7.
  - cbn [Base64.encode forallb]. now rewrite !sextet_ascii7.
  - cbn [Base64.encode forallb]. now rewrite !sextet_ascii7, IH.
Qed.

Lemma rstrip_eq_forallb (p : ascii -> bool) (cs : list ascii) :
  forallb p cs = true -> forallb p (Base64.rstrip_eq cs) = true.
Proof.
  unfold Base64.rstrip_eq.
  induction cs as [|c cs IH]; intros H; simpl in *; [reflexivity|].
  apply andb_true_iff in H as [Hc Hcs]. specialize (IH Hcs).
  destruct (fold_right _ [] cs) eqn:E.
  - destruct (Ascii.eqb c "="%char); simpl; [reflexivity|now rewrite Hc].
  - change (p c && forallb p (a :: l) = true). now rewrite Hc, IH.
Qed.

Lemma forallb_map_comp {A B} (f : A -> B) (p : B -> bool) (l : list A) :
  forallb p (map f l) = forallb (fun x => p (f x)) l.
Proof. induction l as [|x l IH]; simpl; [reflexivity|now rewrite IH]. Qed.

Lemma urlsafe_nopad_ascii (bs : list N) :
  is_ascii (Base64.urlsafe_nopad bs) = true.
Proof.
  unfold is_ascii, Base64.urlsafe_nopad, Base64.rstrip_pad,
    Base64.urlsafe_b64encode.
  rewrite list_ascii_of_string_of_list_ascii.
  rewrite bytes_of_list_ascii, forallb_map_comp.
  apply (rstrip_eq_forallb ascii7), encode_ascii7.
Qed.

Lemma compare_digest_true (a b : string) :
  compare_digest a b = Ok true <-> is_ascii a = true /\ is_ascii b = true /\ a = b.
Proof.
  unfold compare_digest. split.
  - destruct (is_ascii a), (is_ascii b); simpl; try discriminate.
    intros H. injection H as H. apply String.eqb_eq in H. auto.
  - intros (-> & -> & ->). simpl. now rewrite String.eqb_refl.
Qed.

Lemma compare_digest_ascii (a b : string) :
  is_ascii a = true -> is_ascii b = true ->
  compare_digest a b = Ok (String.eqb a b).
Proof. unfold compare_digest. now intros -> ->. Qed.

Lemma compare_digest_raises (a b : string) :
  is_ascii a && is_ascii b = false -> compare_digest a b = Raise TypeError.
Proof. unfold compare_digest. now intros ->. Qed.

(** ** PKCE *)

Lemma verify_pkce_S256 (v c : string) :
  verify_pkce v c "S256" = Ok true <->
  is_ascii v = true /\ Base64.urlsafe_nopad (SHA256.digest (bytes_of_str v)) = c.
Proof.
  unfold verify_pkce.
  change (String.eqb "S256" "plain") with false.
  change (String.eqb "S256" "S256") with true. cbv iota.
  unfold encode_ascii. destruct (is_ascii v) eqn:Hv.
  - rewrite compare_digest_true. split.
    + intros (_ & _ & H). auto.
    + intros (_ & H). subst c. split; [apply urlsafe_nopad_ascii|].
      split; [apply urlsafe_nopad_ascii|reflexivity].
  - split; [discriminate|]. intros [H _]. discriminate.
Qed.

Lemma verify_pkce_plain (v c : string) :
  verify_pkce v c "plain" = Ok true <-> is_ascii v = true /\ v = c.
Proof.
  unfold verify_pkce. change (String.eqb "plain" "plain") with true. cbv iota.
  rewrite compare_digest_true. split.
  - intros (H & _ & E). auto.
  - intros (H & E). subst c. auto.
Qed.

Lemma verify_pkce_other (v c m : string) :
  m <> "plain" -> m <> "S256" -> verify_pkce v c m = Ok false.
Proof.
  intros Hp Hs. unfold verify_pkce.
  apply String.eqb_neq in Hp, Hs. now rewrite Hp, Hs.
Qed.

(** C4 (as amended). For the method S256 [verify_pkce] returns true exactly
    when the verifier is ASCII and the unpadded base64url encoding of its
    SHA-256 digest equals the challenge; for the method plain exactly when
    the verifier is ASCII and equals the challenge; for every other method
    it returns false; and the RFC 7636 verifier verifies against its
    challenge under S256. *)
Theorem verify_pkce_spec :
  (forall v c, verify_pkce v c "S256" = Ok true <->
               is_ascii v = true /\
               Base64.urlsafe_nopad (SHA256.digest (bytes_of_str v)) = c) /\
  (forall v c, verify_pkce v c "plain" = Ok true <->
               is_ascii v = true /\ v = c) /\
  (forall v c m, m <> "plain" -> m <> "S256" -> verify_pkce v c m = Ok false) /\
  verify_pkce "dBjftJeZ4CVP-mB92K27uhbUJU1p1r_wW1gFWFOEjXk"
              "E9Melhoa2OwvFrEMTJguCHaoeK1t8URWbuGJSstw-cM" "S256" = Ok true.
Proof.
  split; [exact verify_pkce_S256|].
  split; [exact verify_pkce_plain|].
  split; [exact verify_pkce_other|].
  vm_compute. reflexivity.
Qed.

Lemma verify_pkce_spec_witness :
  verify_pkce "abc" "abc" "S512" = Ok false.
Proof.
  apply (proj1 (proj2 (proj2 verify_pkce_spec))); discriminate.
Defined.

(** C4, as stated, fails for the method plain: on equal strings that are not
    ASCII the comparison raises [TypeError] and nothing is returned. *)
Lemma verify_pkce_plain_non_ascii :
  ~ (forall v c, verify_pkce v c "plain" = Ok true <-> v = c).
Proof.
  intros H.
  specialize (H "é" "é"). destruct H as [_ H].
  specialize (H eq_refl). vm_compute in H. discriminate.
Qed.

(** ** Queries *)

Lemma filter_none {A} (p : A -> bool) (l : list A) :
  (forall x, In x l -> p x = false) -> List.filter p l = [].
Proof.
  induction l as [|x l IH]; intros H; simpl; [reflexivity|].
  rewrite (H x (or_introl eq_refl)). apply IH. intros y Hy. apply H. now right.
Qed.

Lemma filter_filter_none {A} (p q : A -> bool) (l : list A) :
  (forall x, In x l -> q x = true -> p x = false) ->
  List.filter p (List.filter q l) = [].
Proof.
  intros H. apply filter_none. intros x Hx.
  apply filter_In in Hx as [Hx Hq]. auto.
Qed.

(** A key that occurs once in a column selects exactly its row. *)
Lemma filter_unique {A K} (key : A -> K) (eqb : K -> K -> bool)
    (Heqb : forall a b, eqb a b = true <-> a = b) (l : list A) (r : A) :
  NoDup (map key l) -> In r l ->
  List.filter (fun x => eqb (key x) (key r)) l = [r].
Proof.
  induction l as [|x l IH]; intros Hnd Hin; [contradiction|].
  simpl in Hnd. apply NoDup_cons in Hnd as [Hx Hnd]. simpl.
  destruct Hin as [->|Hin].
  - rewrite (proj2 (Heqb _ _) eq_refl). f_equal.
    apply filter_none. intros y Hy.
    destruct (eqb (key y) (key r)) eqn:E; [|reflexivity].
    apply Heqb in E. exfalso. apply Hx. rewrite <- E.
    apply list_elem_of_In, in_map, Hy.
  - destruct (eqb (key x) (key r)) eqn:E.
    + apply Heqb in E. exfalso. apply Hx. rewrite E.
      apply list_elem_of_In, in_map, Hin.
    + now apply IH.
Qed.

Lemma Zeqb_iff (a b : Z) : Z.eqb a b = true <-> a = b.
Proof. apply Z.eqb_eq. Qed.

Lemma Seqb_iff (a b : string) : String.eqb a b = true <-> a = b.
Proof. apply String.eqb_eq. Qed.

(** ** The token endpoint: gates before the grant *)

Section TokenGates.
Context {rt : PyRuntime}.
Variable config : Config.t.

Lemma token_dispatch ra tt utcnow rnd form cid st :
  authenticated config form cid ->
  token config (true, ra) tt utcnow rnd form st =
  (if String.eqb (TokenForm.grant_type form) "authorization_code" then
     grant_authorization_code config tt utcnow rnd cid form
   else if String.eqb (TokenForm.grant_type form) "refresh_token" then
     grant_refresh_token config tt utcnow rnd cid form
   else
     ret (error_response 400 "unsupported_grant_type"
            ("Grant type '" +:+ TokenForm.grant_type form
             +:+ "' is not supported") [])) st.
Proof.
  intros (secret & client & Hcred & Hne & Hval).
  unfold token. cbn [negb]. cbv iota. rewrite Hcred.
  apply String.eqb_neq in Hne.
  cbn [truthy_str or_str]. rewrite Hne. cbn [negb]. cbv iota.
  unfold bind, lift. rewrite Hval. reflexivity.
Qed.

End TokenGates.

(** ** Authorization codes are refused unless approved, unused and unexpired *)

Section AuthorizationCode.
Context {rt : PyRuntime}.
Variable config : Config.t.

Lemma get_pending_auth_by_auth_code_none now c st :
  no_usable_auth_code now st (Some c) ->
  crud.get_pending_auth_by_auth_code now c true st = Ok (None, st).
Proof.
  intros H. unfold crud.get_pending_auth_by_auth_code.
  rewrite filter_filter_none; [reflexivity|].
  intros r Hr Hc. apply String.eqb_eq in Hc. now apply (H c r).
Qed.

Lemma grant_authorization_code_inert tt utcnow rnd cid form st :
  no_usable_auth_code (utcnow 0%nat) st (TokenForm.code form) ->
  exists resp,
    grant_authorization_code config tt utcnow rnd cid form st = Ok (resp, st)
    /\ JSONResponse.status_code resp = 400.
Proof.
  intros H. unfold grant_authorization_code, authorization_code_checks, bind.
  destruct (TokenForm.code form) as [c|] eqn:Ec.
  - destruct (String.eqb c "") eqn:Ee.
    + eexists. split; reflexivity.
    + unfold bind. rewrite get_pending_auth_by_auth_code_none by exact H.
      eexists. split; reflexivity.
  - eexists. split; reflexivity.
Qed.

Lemma grant_authorization_code_refused tt utcnow rnd cid form st c :
  TokenForm.code form = Some c -> c <> "" ->
  no_usable_auth_code (utcnow 0%nat) st (Some c) ->
  grant_authorization_code config tt utcnow rnd cid form st =
  Ok (error_response 400 "invalid_grant"
        "Invalid or expired authorization code" [], st).
Proof.
  intros Ec Hne H.
  unfold grant_authorization_code, authorization_code_checks, bind.
  rewrite Ec. apply String.eqb_neq in Hne. rewrite Hne.
  unfold bind. now rewrite get_pending_auth_by_auth_code_none.
Qed.

(** C1 (as amended). A [POST /token] request with
    [grant_type=authorization_code] whose code identifies no approved,
    unused and unexpired row never changes the store and is never answered
    with 200; when it passes the rate limiter, authenticates its client
    and carries a non-empty code, the answer is 400 [invalid_grant]. *)
Theorem token_unusable_code_refused
    (limiter_check : bool * option Z) (tt : Z) (utcnow : nat -> datetime)
    (rnd : nat -> string) (form : TokenForm.t) (st : Store) :
  TokenForm.grant_type form = "authorization_code" ->
  no_usable_auth_code (utcnow 0%nat) st (TokenForm.code form) ->
  let out := get_db (token config limiter_check tt utcnow rnd form) st in
  snd out = st
  /\ JSONResponse.status_code (fst out) <> 200
  /\ (forall cid c,
        fst limiter_check = true -> authenticated config form cid ->
        TokenForm.code form = Some c -> c <> "" ->
        fst out = error_response 400 "invalid_grant"
                    "Invalid or expired authorization code" []).
Proof.
  intros Hg Hno out. subst out.
  destruct limiter_check as [allowed ra]. split; [|split].
  - unfold get_db, token. destruct allowed; cbn [negb]; [|reflexivity].
    destruct (basic_credentials _ _ _) as [cid sec].
    destruct (truthy_str cid); cbn [negb]; [|reflexivity].
    unfold bind, lift.
    destruct (validate_client _ _ _ _) as [[[valid client] err]|e];
      [|reflexivity].
    destruct valid; cbn [negb]; [|reflexivity].
    rewrite Hg. change (String.eqb "authorization_code" "authorization_code")
      with true. cbv iota.
    destruct (grant_authorization_code_inert tt utcnow rnd (or_str cid "")
                form st Hno) as (resp & -> & _).
    reflexivity.
  - unfold get_db, token. destruct allowed; cbn [negb]; [|discriminate].
    destruct (basic_credentials _ _ _) as [cid sec].
    destruct (truthy_str cid); cbn [negb]; [|discriminate].
    unfold bind, lift.
    destruct (validate_client _ _ _ _) as [[[valid client] err]|e];
      [|discriminate].
    destruct valid; cbn [negb]; [|discriminate].
    rewrite Hg. change (String.eqb "authorization_code" "authorization_code")
      with true. cbv iota.
    destruct (grant_authorization_code_inert tt utcnow rnd (or_str cid "")
                form st Hno) as (resp & -> & Hs).
    cbn [fst]. rewrite Hs. discriminate.
  - intros cid c Hallow Hauth Ec Hne. cbn [fst] in Hallow. subst allowed.
    unfold get_db. rewrite (token_dispatch config ra tt utcnow rnd form cid st Hauth).
    rewrite Hg. change (String.eqb "authorization_code" "authorization_code")
      with true. cbv iota.
    rewrite (grant_authorization_code_refused tt utcnow rnd cid form st c Ec Hne);
      [reflexivity|].
    now rewrite Ec in Hno.
Qed.

End AuthorizationCode.

Lemma scenario_authenticated :
  authenticated Scenario.config (Scenario.code_form (Some "s3cret")) "demo".
Proof.
  exists (Some "s3cret"), Scenario.demo.
  split; [reflexivity|]. split; [discriminate|]. reflexivity.
Qed.

Lemma token_unusable_code_refused_witness :
  fst (get_db (token Scenario.config (true, None) 0 Scenario.utcnow
                 (Scenario.draws "A1" "R1")
                 (Scenario.code_form (Some "s3cret"))) Scenario.store_used)
  = error_response 400 "invalid_grant" "Invalid or expired authorization code" [].
Proof.
  refine (proj2 (proj2 (token_unusable_code_refused Scenario.config
            (true, None) 0 Scenario.utcnow (Scenario.draws "A1" "R1")
            (Scenario.code_form (Some "s3cret")) Scenario.store_used _ _))
            "demo" "AC" _ _ _ _).
  - reflexivity.
  - intros c r Hc [<-|[]] _. reflexivity.
  - reflexivity.
  - exact scenario_authenticated.
  - reflexivity.
  - discriminate.
Defined.

(** C1, as stated, fails: a replay that does not authenticate its client is
    answered 401 [invalid_client], not 400 [invalid_grant]. *)
Lemma token_replay_unauthenticated :
  let form := Scenario.code_form (Some "wrong") in
  let out := get_db (token Scenario.config (true, None) 0 Scenario.utcnow
                       (Scenario.draws "A1" "R1") form) Scenario.store_used in
  TokenForm.grant_type form = "authorization_code"
  /\ no_usable_auth_code (Scenario.utcnow 0%nat) Scenario.store_used
       (TokenForm.code form)
  /\ JSONResponse.status_code (fst out) = 401
  /\ JSONResponse.content (fst out) !! "error" = Some (JStr "invalid_client").
Proof.
  split; [reflexivity|]. split.
  - intros c r Hc [<-|[]] _. reflexivity.
  - split; vm_compute; reflexivity.
Qed.

(** ** Client authentication at the token endpoint *)

Section ClientAuthentication.
Context {rt : PyRuntime}.
Variable config : Config.t.

(** A presented ASCII secret is compared with the configured one. *)
Lemma validate_client_secret_checked cid s client :
  validate_client config cid (Some s) None = Ok (true, Some client, None) ->
  find_client config cid = Some client
  /\ s = OAuthClient.client_secret client.
Proof.
  unfold validate_client.
  destruct (find_client config cid) as [c|]; [|discriminate].
  destruct (compare_digest s (OAuthClient.client_secret c)) as [[|]|e] eqn:E;
    try discriminate.
  intros H. injection H as <-. split; [reflexivity|].
  now apply compare_digest_true in E as (_ & _ & ->).
Qed.

(** Without a secret nothing is compared: a registered client id alone
    passes. *)
Lemma validate_client_no_secret cid client :
  find_client config cid = Some client ->
  validate_client config cid None None = Ok (true, Some client, None).
Proof. unfold validate_client. now intros ->. Qed.

End ClientAuthentication.

(** C3. A [POST /token] request that names the client demo and presents no
    client_secret at all is not rejected as [invalid_client]: it redeems the
    approved code and is answered 200 with the tokens. *)
Theorem token_without_secret_accepted :
  let form := Scenario.code_form None in
  let out := get_db (token Scenario.config (true, None) 0 Scenario.utcnow
                       (Scenario.draws "A1" "R1") form) Scenario.store_approved in
  TokenForm.client_secret form = None
  /\ JSONResponse.status_code (fst out) = 200
  /\ JSONResponse.content (fst out) !! "access_token" = Some (JStr "A1")
  /\ JSONResponse.content (fst out) !! "refresh_token" = Some (JStr "R1")
  /\ map OAuthToken.access_token (oauth_token (snd out)) = ["A1"].
Proof. vm_compute. repeat split; reflexivity. Qed.

(** ** The used flag of an authorization code *)

Section Redeem.
Context {rt : PyRuntime}.
Variable config : Config.t.

Lemma update_where_no_match {A} (p : A -> bool) (f : A -> A) (rows : list A) :
  (forall r, In r rows -> p r = false) ->
  update_where p f rows = (rows, 0).
Proof.
  intros H. unfold update_where. rewrite filter_none by exact H. f_equal.
  induction rows as [|r rows IH]; [reflexivity|]. simpl.
  rewrite (H r (or_introl eq_refl)). f_equal. apply IH.
  intros x Hx. apply H. now right.
Qed.

Lemma with_pending_auth_same st : with_pending_auth st (pending_auth st) = st.
Proof. now destruct st. Qed.

(** The handler continues after an UPDATE that matched no row. *)
Lemma redeem_after_empty_update tt now rnd cid pending bind_user st :
  (forall r, In r (pending_auth st) ->
             PendingAuth.id r <> PendingAuth.id pending) ->
  crud.mark_pending_auth_used (PendingAuth.id pending) st = Ok (false, st)
  /\ authorization_code_redeem config tt now rnd cid pending bind_user st
     = issue_tokens config tt now rnd cid (PendingAuth.scope pending)
                    bind_user st.
Proof.
  intros H.
  assert (E : crud.mark_pending_auth_used (PendingAuth.id pending) st
              = Ok (false, st)).
  { unfold crud.mark_pending_auth_used.
    rewrite update_where_no_match.
    - now rewrite with_pending_auth_same.
    - intros r Hr. apply Z.eqb_neq. now apply H. }
  split; [exact E|].
  unfold authorization_code_redeem, bind. now rewrite E.
Qed.

End Redeem.

(** C2. Two [POST /token] requests present the same approved code and both
    run their checks before either marks the row used. The second UPDATE
    finds the row already used, its outcome is not looked at, and both
    requests are answered 200: two token rows are stored for one code. *)
Theorem redeem_twice_both_succeed :
  exists resp1 resp2 st1 st2,
    race_redeem Scenario.config 0 Scenario.utcnow Scenario.utcnow
      (Scenario.draws "A1" "R1") (Scenario.draws "A2" "R2") "demo" "demo"
      (Scenario.code_form (Some "s3cret")) (Scenario.code_form (Some "s3cret"))
      Scenario.store_approved = Some (resp1, resp2, st1, st2)
    /\ map PendingAuth.is_used (pending_auth st1) = [true]
    /\ JSONResponse.status_code resp1 = 200
    /\ JSONResponse.status_code resp2 = 200
    /\ JSONResponse.content resp2 !! "access_token" = Some (JStr "A2")
    /\ map OAuthToken.access_token (oauth_token st2) = ["A1"; "A2"].
Proof.
  do 4 eexists. split; [vm_compute; reflexivity|].
  vm_compute. repeat split; reflexivity.
Qed.

(** ** The claim of a pending request *)

(** The claim UPDATE selects by primary key only: on a row that another
    user has claimed already it still affects one row and replaces the
    claimant. *)
Lemma claim_overwrites_claimant :
  let st := Scenario.store_with [Scenario.alice; Scenario.bob]
              [Scenario.request "openid email" 10001 1 false false] [] in
  exists st',
    claim_pending_auth 1 10002 2 st = Ok (1, st')
    /\ map PendingAuth.uin (pending_auth st') = [10002]
    /\ map PendingAuth.bind_user_id (pending_auth st') = [2].
Proof. eexists. vm_compute. repeat split; reflexivity. Qed.

(** C5. Two bound users send [auth K7M3Q2] for the same unclaimed request
    and both look it up before either claims it. Both claims succeed, both
    callers are told the request is approved, and the row ends up owned by
    the second caller; nobody is rejected. *)
Theorem claim_race_both_approved :
  exists st2,
    race_auth Scenario.config Scenario.utcnow Scenario.utcnow "k7m3q2"
      10001 10002 Scenario.store_created
    = Some (Reply.approved "Demo" "openid email",
            Reply.approved "Demo" "openid email", st2)
    /\ map PendingAuth.uin (pending_auth st2) = [10002]
    /\ map PendingAuth.is_approved (pending_auth st2) = [true]
    /\ map AuthorizationLog.uin (authorization_log st2) = [10001; 10002].
Proof. eexists. vm_compute. repeat split; reflexivity. Qed.

(** ** Lookups under the uniqueness constraints *)

Lemma filter_unique_opt {A} (key : A -> option string) (l : list A) (r : A) k :
  NoDup (non_null (map key l)) -> In r l -> key r = Some k ->
  List.filter (fun x => match key x with
                        | Some t => String.eqb t k
                        | None => false
                        end) l = [r].
Proof.
  induction l as [|x l IH]; intros Hnd Hin Hk; [contradiction|].
  unfold non_null in *. simpl in Hnd. simpl.
  destruct Hin as [->|Hin].
  - rewrite Hk in *. simpl in Hnd. apply NoDup_cons in Hnd as [Hx Hnd].
    rewrite String.eqb_refl. f_equal. apply filter_none. intros y Hy.
    destruct (key y) as [t|] eqn:Ey; [|reflexivity].
    destruct (String.eqb t k) eqn:E; [|reflexivity].
    apply String.eqb_eq in E. subst t. exfalso. apply Hx.
    apply list_elem_of_omap. exists (Some k). split; [|reflexivity].
    apply list_elem_of_In. rewrite <- Ey. now apply in_map.
  - destruct (key x) as [t|] eqn:Ex.
    + simpl in Hnd. apply NoDup_cons in Hnd as [Hx Hnd].
      destruct (String.eqb t k) eqn:E.
      * apply String.eqb_eq in E. subst t. exfalso. apply Hx.
        apply list_elem_of_omap. exists (Some k). split; [|reflexivity].
        apply list_elem_of_In. rewrite <- Hk. now apply in_map.
      * now apply IH.
    + simpl in Hnd. now apply IH.
Qed.

Lemma get_bind_user_by_uin_active st bu :
  NoDup (map BindUser.uin (bind_user st)) -> In bu (bind_user st) ->
  BindUser.is_active bu = true ->
  crud.get_bind_user_by_uin (BindUser.uin bu) true st = Ok (Some bu, st).
Proof.
  intros Hnd Hin Hact. unfold crud.get_bind_user_by_uin.
  rewrite (filter_unique BindUser.uin Z.eqb Zeqb_iff _ bu Hnd Hin).
  simpl. now rewrite Hact.
Qed.

Lemma get_bind_user_by_uin_inactive st bu :
  NoDup (map BindUser.uin (bind_user st)) -> In bu (bind_user st) ->
  BindUser.is_active bu = false ->
  crud.get_bind_user_by_uin (BindUser.uin bu) true st = Ok (None, st).
Proof.
  intros Hnd Hin Hact. unfold crud.get_bind_user_by_uin.
  rewrite (filter_unique BindUser.uin Z.eqb Zeqb_iff _ bu Hnd Hin).
  simpl. now rewrite Hact.
Qed.

Lemma get_token_by_refresh_token_valid now st r k :
  NoDup (non_null (map OAuthToken.refresh_token (oauth_token st))) ->
  In r (oauth_token st) -> OAuthToken.refresh_token r = Some k ->
  crud.get_token_by_refresh_token now k true st =
  Ok (if crud.refresh_valid now r then Some r else None, st).
Proof.
  intros Hnd Hin Hk. unfold crud.get_token_by_refresh_token.
  rewrite (filter_unique_opt OAuthToken.refresh_token _ r k Hnd Hin Hk).
  simpl. now destruct (crud.refresh_valid now r).
Qed.

(** ** How the mutations change the token table *)

Lemma apply_mutation_tokens m st st' :
  apply_mutation m st = Ok st' ->
  tokens_step (oauth_token st) (oauth_token st').
Proof.
  destruct m; unfold apply_mutation, forget; intros H.
  all: try (unfold crud.create_bind_user, crud.deactivate_bind_user,
              crud.create_pending_bind, crud.mark_pending_bind_used,
              crud.create_pending_auth, claim_pending_auth,
              crud.approve_pending_auth, crud.mark_pending_auth_used,
              crud.create_pending_unbind, crud.mark_pending_unbind_processed,
              crud.create_authorization_log, crud.create_unbind_log,
              update_where in H;
            repeat match type of H with
                   | context [if ?b then _ else _] => destruct b
                   end;
            try discriminate; injection H as <-; apply tokens_same).
  - unfold crud.create_oauth_token in H.
    destruct (taken access_token _) eqn:Ea; [discriminate|]. simpl in H.
    destruct refresh_token as [k|].
    + destruct (taken k _) eqn:Ek; [discriminate|].
      injection H as <-. apply tokens_insert; [exact Ea|].
      intros k' [= <-]. exact Ek.
    + injection H as <-. apply tokens_insert; [exact Ea|]. discriminate.
  - unfold crud.revoke_token, update_where in H. injection H as <-.
    apply tokens_revoke.
  - unfold crud.revoke_all_user_tokens, update_where in H. injection H as <-.
    apply tokens_revoke.
Qed.

(** ** Refresh-token rotation *)

Lemma refresh_retired_step k rows rows' :
  tokens_step rows rows' -> refresh_retired k rows -> refresh_retired k rows'.
Proof.
  intros Hstep [(r0 & Hin0 & Hk0) Hall]. destruct Hstep as [|row Ha Hr|p].
  - split; eauto.
  - split.
    + exists r0. split; [apply in_or_app; now left|exact Hk0].
    + intros r Hin Hk. apply in_app_or in Hin as [Hin|[<-|[]]]; [eauto|].
      exfalso. specialize (Hr k Hk). unfold taken in Hr.
      apply bool_decide_eq_false in Hr. apply Hr.
      apply list_elem_of_omap. exists (Some k). split; [|reflexivity].
      apply list_elem_of_In. rewrite <- Hk0. now apply in_map.
  - split.
    + exists (if p r0 then set_is_revoked true r0 else r0). split.
      * apply in_map_iff. eauto.
      * now destruct (p r0).
    + intros r Hin Hk. apply in_map_iff in Hin as (x & <- & Hx).
      destruct (p x); [reflexivity|]. eauto.
Qed.

Lemma refresh_retired_follows k st st' :
  follows st st' -> refresh_retired k (oauth_token st) ->
  refresh_retired k (oauth_token st').
Proof.
  induction 1 as [|st1 st2 m _ IH Hm]; intros H; [exact H|].
  eapply refresh_retired_step; [eapply apply_mutation_tokens, Hm|auto].
Qed.

Lemma refresh_retired_lookup now k st :
  refresh_retired k (oauth_token st) ->
  crud.get_token_by_refresh_token now k true st = Ok (None, st).
Proof.
  intros [_ Hall]. unfold crud.get_token_by_refresh_token.
  rewrite filter_filter_none; [reflexivity|].
  intros r Hin Hk. destruct (OAuthToken.refresh_token r) as [t|] eqn:E;
    [|discriminate].
  apply String.eqb_eq in Hk. subst t.
  unfold crud.refresh_valid. now rewrite (Hall r Hin E).
Qed.

Section Rotation.
Context {rt : PyRuntime}.
Variable config : Config.t.

Lemma grant_refresh_token_retired tt utcnow rnd cid form st k :
  TokenForm.refresh_token form = Some k -> k <> "" ->
  refresh_retired k (oauth_token st) ->
  grant_refresh_token config tt utcnow rnd cid form st =
  Ok (error_response 400 "invalid_grant" "Invalid or expired refresh token" [],
      st).
Proof.
  intros Hk Hne Hret. unfold grant_refresh_token. rewrite Hk.
  cbn [truthy_str or_str]. apply String.eqb_neq in Hne. rewrite Hne.
  cbn [negb]. unfold bind. now rewrite refresh_retired_lookup.
Qed.

Lemma model_dump_refresh_token (r : TokenResponse.t) x :
  TokenResponse.refresh_token r = Some x ->
  TokenResponse.model_dump r !! "refresh_token" = Some (JStr x).
Proof.
  intros H. unfold TokenResponse.model_dump. rewrite H.
  destruct (TokenResponse.id_token r).
  - rewrite lookup_insert_ne by discriminate. apply lookup_insert_eq.
  - apply lookup_insert_eq.
Qed.

Lemma revoked_rows_access i rows :
  map OAuthToken.access_token (revoked_rows i rows) = map OAuthToken.access_token rows.
Proof.
  unfold revoked_rows. rewrite map_map. apply map_ext. intros r.
  now destruct (Z.eqb (OAuthToken.id r) i).
Qed.

Lemma revoked_rows_refresh i rows :
  map OAuthToken.refresh_token (revoked_rows i rows) = map OAuthToken.refresh_token rows.
Proof.
  unfold revoked_rows. rewrite map_map. apply map_ext. intros r.
  now destruct (Z.eqb (OAuthToken.id r) i).
Qed.

Lemma revoke_token_run i st :
  crud.revoke_token i st =
  Ok (0 <? Z.of_nat (length (List.filter (fun r => Z.eqb (OAuthToken.id r) i)
                                         (oauth_token st))),
      with_oauth_token st (revoked_rows i (oauth_token st))).
Proof. reflexivity. Qed.

(** The tail common to both grants: the insert fails when a drawn token is
    already stored, and otherwise appends the new row. *)
Lemma issue_tokens_run tt now rnd cid scope bu st :
  issue_tokens config tt now rnd cid scope bu st =
  if taken (rnd 0%nat) (map OAuthToken.access_token (oauth_token st))
     || taken (rnd 1%nat) (non_null (map OAuthToken.refresh_token (oauth_token st)))
  then Raise IntegrityError
  else
    Ok (json_response
          (TokenResponse.model_dump
             (create_token_response config tt (rnd 0%nat) (rnd 1%nat)
                (BindUser.uin bu) cid scope (build_user_data bu) true None)),
        with_oauth_token st
          (oauth_token st ++
           [{| OAuthToken.id := next_id (map OAuthToken.id (oauth_token st));
               OAuthToken.access_token := rnd 0%nat;
               OAuthToken.refresh_token := Some (rnd 1%nat);
               OAuthToken.token_type := "Bearer";
               OAuthToken.client_id := cid;
               OAuthToken.bind_user_id := BindUser.id bu;
               OAuthToken.uin := BindUser.uin bu;
               OAuthToken.scope := scope;
               OAuthToken.created_at := now;
               OAuthToken.access_token_expires_at :=
                 now + timedelta_seconds
                         (OAuthProviderConfig.access_token_expire
                            (Config.oauth_provider config));
               OAuthToken.refresh_token_expires_at :=
                 if String.eqb (rnd 1%nat) "" then None
                 else if Z.eqb (OAuthProviderConfig.refresh_token_expire
                                  (Config.oauth_provider config)) 0
                      then None
                      else Some (now + timedelta_seconds
                                         (OAuthProviderConfig.refresh_token_expire
                                            (Config.oauth_provider config)));
               OAuthToken.is_revoked := false |}])).
Proof.
  unfold issue_tokens, bind, crud.create_oauth_token, ret.
  cbn [create_token_response TokenResponse.access_token
       TokenResponse.refresh_token truthy_str].
  destruct (taken (rnd 0%nat) _ || taken (rnd 1%nat) _); [reflexivity|].
  destruct (String.eqb (rnd 1%nat) ""); reflexivity.
Qed.

Lemma in_revoked_rows r rows :
  In r rows -> In (set_is_revoked true r) (revoked_rows (OAuthToken.id r) rows).
Proof.
  intros H. unfold revoked_rows. apply in_map_iff. exists r.
  now rewrite Z.eqb_refl.
Qed.

Lemma revoked_rows_retired k r rows :
  NoDup (non_null (map OAuthToken.refresh_token rows)) ->
  In r rows -> OAuthToken.refresh_token r = Some k ->
  refresh_retired k (revoked_rows (OAuthToken.id r) rows).
Proof.
  intros Hnd Hin Hk. split.
  - exists (set_is_revoked true r). split; [now apply in_revoked_rows|exact Hk].
  - intros x Hx Hxk. unfold revoked_rows in Hx.
    apply in_map_iff in Hx as (y & <- & Hy).
    destruct (Z.eqb (OAuthToken.id y) (OAuthToken.id r)) eqn:E; [reflexivity|].
    assert (Hy1 : In y (List.filter
                          (fun x => match OAuthToken.refresh_token x with
                                    | Some t => String.eqb t k
                                    | None => false
                                    end) rows)).
    { apply filter_In. split; [exact Hy|]. rewrite Hxk. apply String.eqb_refl. }
    rewrite (filter_unique_opt OAuthToken.refresh_token rows r k Hnd Hin Hk) in Hy1.
    destruct Hy1 as [<-|[]]. now rewrite Z.eqb_refl in E.
Qed.

(** C6 (as amended). A refresh request that passes the rate limiter and
    authenticates its client, presenting a refresh token R1 whose row is
    not revoked, not expired and belongs to that client, while the user of
    the row still has an active binding: unless a freshly drawn token
    collides with a stored one (the insert fails, the request is rolled back
    and answered 500), the old row is revoked, a new row is stored whose
    refresh token R2 differs from R1, and in every later store a refresh
    request presenting R1 is answered [invalid_grant]. *)
Theorem refresh_rotates
    (ra : option Z) (tt : Z) (utcnow : nat -> datetime) (rnd : nat -> string)
    (form : TokenForm.t) (st : Store) (cid R1 : string)
    (r1 : OAuthToken.t) (bu : BindUser.t) :
  store_wf st ->
  authenticated config form cid ->
  TokenForm.grant_type form = "refresh_token" ->
  TokenForm.refresh_token form = Some R1 -> R1 <> "" ->
  In r1 (oauth_token st) -> OAuthToken.refresh_token r1 = Some R1 ->
  crud.refresh_valid (utcnow 0%nat) r1 = true ->
  OAuthToken.client_id r1 = cid ->
  In bu (bind_user st) -> BindUser.uin bu = OAuthToken.uin r1 ->
  BindUser.is_active bu = true ->
  let out := get_db (token config (true, ra) tt utcnow rnd form) st in
  let R2 := rnd 1%nat in
  (JSONResponse.status_code (fst out) = 500 /\ snd out = st
   /\ taken (rnd 0%nat) (map OAuthToken.access_token (oauth_token st))
      || taken R2 (non_null (map OAuthToken.refresh_token (oauth_token st)))
      = true)
  \/
  (JSONResponse.status_code (fst out) = 200
   /\ JSONResponse.content (fst out) !! "refresh_token" = Some (JStr R2)
   /\ R2 <> R1
   /\ In (set_is_revoked true r1) (oauth_token (snd out))
   /\ (exists row,
         oauth_token (snd out)
         = revoked_rows (OAuthToken.id r1) (oauth_token st) ++ [row]
         /\ OAuthToken.refresh_token row = Some R2
         /\ OAuthToken.access_token row = rnd 0%nat
         /\ OAuthToken.is_revoked row = false)
   /\ forall st' ra' tt' utcnow' rnd' form' cid',
        follows (snd out) st' ->
        authenticated config form' cid' ->
        TokenForm.grant_type form' = "refresh_token" ->
        TokenForm.refresh_token form' = Some R1 ->
        get_db (token config (true, ra') tt' utcnow' rnd' form') st'
        = (error_response 400 "invalid_grant"
             "Invalid or expired refresh token" [], st')).
Proof.
  intros Hwf Hauth Hgrant Hrt Hne Hin1 Hk1 Hvalid Hcid Hinbu Huin Hact out R2.
  destruct Hwf as (_ & Huniq_uin & _ & _ & _ & _ & _ & _ & _ & _ & _ & Huniq_rt).
  assert (Hrun :
    token config (true, ra) tt utcnow rnd form st =
    issue_tokens config tt (utcnow 1%nat) rnd cid (OAuthToken.scope r1) bu
      (with_oauth_token st (revoked_rows (OAuthToken.id r1) (oauth_token st)))).
  { rewrite (token_dispatch config ra tt utcnow rnd form cid st Hauth).
    rewrite Hgrant.
    change (String.eqb "refresh_token" "authorization_code") with false.
    change (String.eqb "refresh_token" "refresh_token") with true. cbv iota.
    unfold grant_refresh_token. rewrite Hrt. cbn [truthy_str or_str].
    apply String.eqb_neq in Hne. rewrite Hne. cbn [negb]. unfold bind.
    rewrite (get_token_by_refresh_token_valid _ st r1 R1 Huniq_rt Hin1 Hk1).
    rewrite Hvalid, Hcid, String.eqb_refl. cbn [negb].
    rewrite revoke_token_run, <- Huin.
    now rewrite (get_bind_user_by_uin_active
                   (with_oauth_token st
                      (revoked_rows (OAuthToken.id r1) (oauth_token st)))
                   bu Huniq_uin Hinbu Hact). }
  subst out. unfold get_db. rewrite Hrun, issue_tokens_run.
  cbn [oauth_token with_oauth_token].
  rewrite revoked_rows_access, revoked_rows_refresh.
  fold R2.
  destruct (taken (rnd 0%nat) _ || taken R2 _) eqn:Etaken.
  - left. cbn [fst snd]. auto.
  - right. cbn [fst snd oauth_token with_oauth_token].
    apply orb_false_iff in Etaken as [Ea Er].
    assert (Hdiff : R2 <> R1).
    { intros ->. unfold taken in Er. apply bool_decide_eq_false in Er.
      apply Er, list_elem_of_omap. exists (Some R1). split; [|reflexivity].
      apply list_elem_of_In. rewrite <- Hk1. now apply in_map. }
    split; [reflexivity|].
    split; [now apply model_dump_refresh_token|].
    split; [exact Hdiff|].
    split; [apply in_or_app; left; now apply in_revoked_rows|].
    split; [eexists; split; [reflexivity|]; cbn; auto|].
    intros st' ra' tt' utcnow' rnd' form' cid' Hfol Hauth' Hgrant' Hrt'.
    rewrite (token_dispatch config ra' tt' utcnow' rnd' form' cid' st' Hauth').
    rewrite Hgrant'.
    change (String.eqb "refresh_token" "authorization_code") with false.
    change (String.eqb "refresh_token" "refresh_token") with true. cbv iota.
    rewrite (grant_refresh_token_retired tt' utcnow' rnd' cid' form' st' R1 Hrt');
      [reflexivity| |].
    + exact Hne.
    + eapply refresh_retired_follows; [exact Hfol|].
      cbn [oauth_token with_oauth_token].
      apply (refresh_retired_step R1
               (revoked_rows (OAuthToken.id r1) (oauth_token st)));
        [|apply revoked_rows_retired; assumption].
      apply tokens_insert.
      * cbn. now rewrite revoked_rows_access.
      * intros k [= <-]. cbn. now rewrite revoked_rows_refresh.
Qed.

End Rotation.

(** Closed instances of [store_wf] are decided by evaluation. *)
Ltac decide_wf :=
  match goal with
  | |- store_wf ?s =>
      apply (bool_decide_eq_true_1 (store_wf s)); vm_compute; reflexivity
  end.

Lemma scenario_refresh_authenticated r :
  authenticated Scenario.config (Scenario.refresh_form r) "demo".
Proof.
  exists (Some "s3cret"), Scenario.demo.
  split; [reflexivity|]. split; [discriminate|]. reflexivity.
Qed.

Lemma refresh_rotates_witness :
  let out := get_db (token Scenario.config (true, None) 0 Scenario.utcnow
                       (Scenario.draws "A2" "R2") (Scenario.refresh_form "R1"))
                    Scenario2.store_token in
  JSONResponse.status_code (fst out) = 200
  /\ map OAuthToken.refresh_token (oauth_token (snd out)) = [Some "R1"; Some "R2"]
  /\ map OAuthToken.is_revoked (oauth_token (snd out)) = [true; false]
  /\ forall st', follows (snd out) st' ->
       get_db (token Scenario.config (true, None) 0 Scenario.utcnow
                 (Scenario.draws "A3" "R3") (Scenario.refresh_form "R1")) st'
       = (error_response 400 "invalid_grant"
            "Invalid or expired refresh token" [], st').
Proof.
  intros out.
  destruct (refresh_rotates Scenario.config None 0 Scenario.utcnow
              (Scenario.draws "A2" "R2") (Scenario.refresh_form "R1")
              Scenario2.store_token "demo" "R1"
              (Scenario.token_row 1 "A1" "R1" "openid email" false)
              Scenario.alice) as [(H500 & _)|(H200 & _ & _ & _ & _ & Hlater)].
  - decide_wf.
  - apply scenario_refresh_authenticated.
  - reflexivity.
  - reflexivity.
  - discriminate.
  - left. reflexivity.
  - reflexivity.
  - reflexivity.
  - reflexivity.
  - left. reflexivity.
  - reflexivity.
  - reflexivity.
  - vm_compute in H500. discriminate.
  - split; [exact H200|]. split; [vm_compute; reflexivity|].
    split; [vm_compute; reflexivity|].
    intros st' Hfol.
    apply (Hlater st' None 0 Scenario.utcnow (Scenario.draws "A3" "R3")
             (Scenario.refresh_form "R1") "demo" Hfol
             (scenario_refresh_authenticated "R1") eq_refl eq_refl).
Defined.

(** C6, as stated, fails: when the user of the token has unbound, the old
    row is revoked but no new token row is stored; the request is answered
    400 [invalid_grant] (User not found). *)
Lemma refresh_after_unbind_mints_nothing :
  let form := Scenario.refresh_form "R1" in
  let row := Scenario.token_row 1 "A1" "R1" "openid email" false in
  let out := get_db (token Scenario.config (true, None) 0 Scenario.utcnow
                       (Scenario.draws "A2" "R2") form)
                    Scenario2.store_token_unbound in
  authenticated Scenario.config form "demo"
  /\ In row (oauth_token Scenario2.store_token_unbound)
  /\ crud.refresh_valid (Scenario.utcnow 0%nat) row = true
  /\ OAuthToken.client_id row = "demo"
  /\ JSONResponse.status_code (fst out) = 400
  /\ map OAuthToken.refresh_token (oauth_token (snd out)) = [Some "R1"]
  /\ map OAuthToken.is_revoked (oauth_token (snd out)) = [true].
Proof.
  split; [apply scenario_refresh_authenticated|].
  split; [left; reflexivity|].
  vm_compute. repeat split; reflexivity.
Qed.

(** ** The chat command auth *)

Lemma code_valid_iff now r :
  crud.code_valid now r = true <->
  PendingAuth.is_used r = false /\ PendingAuth.is_approved r = false
  /\ now < PendingAuth.expires_at r.
Proof.
  unfold crud.code_valid.
  rewrite !andb_true_iff, !negb_true_iff, Z.ltb_lt. tauto.
Qed.

Lemma get_pending_auth_by_code_found now st r :
  NoDup (map PendingAuth.verification_code (pending_auth st)) ->
  In r (pending_auth st) ->
  crud.get_pending_auth_by_code now (PendingAuth.verification_code r) true st
  = Ok (if crud.code_valid now r then Some r else None, st).
Proof.
  intros Hnd Hin. unfold crud.get_pending_auth_by_code.
  rewrite (filter_unique PendingAuth.verification_code String.eqb Seqb_iff
             _ r Hnd Hin).
  simpl. now destruct (crud.code_valid now r).
Qed.

Lemma get_pending_auth_by_code_unusable now k st :
  ~ acceptable now k st ->
  crud.get_pending_auth_by_code now k true st = Ok (None, st).
Proof.
  intros H. unfold crud.get_pending_auth_by_code.
  rewrite filter_filter_none; [reflexivity|].
  intros r Hin Hk. apply String.eqb_eq in Hk.
  destruct (crud.code_valid now r) eqn:E; [|reflexivity].
  exfalso. apply H. exists r. apply code_valid_iff in E. tauto.
Qed.

Lemma reply_approved_not_invalid name scope :
  Reply.approved name scope <> Reply.invalid_or_expired.
Proof. unfold Reply.approved, Reply.invalid_or_expired. simpl. discriminate. Qed.

Lemma reply_not_yours_not_invalid : Reply.not_yours <> Reply.invalid_or_expired.
Proof. unfold Reply.not_yours, Reply.invalid_or_expired. discriminate. Qed.

Section Auth.
Context {rt : PyRuntime}.
Variable config : Config.t.

Lemma handle_auth_approve_run now user_id bu r st :
  PendingAuth.uin r = 0 \/ PendingAuth.uin r = user_id ->
  exists st',
    handle_auth_approve config now user_id bu r st
    = Ok (Reply.approved (client_display_name config (PendingAuth.client_id r))
            (PendingAuth.scope r), st')
    /\ pending_auth st'
       = approved_rows (Z.eqb (PendingAuth.uin r) 0) (PendingAuth.id r) user_id
           (BindUser.id bu) (pending_auth st)
    /\ bind_user st' = bind_user st
    /\ oauth_token st' = oauth_token st.
Proof.
  intros Hown. unfold handle_auth_approve.
  destruct (Z.eqb (PendingAuth.uin r) 0) eqn:E0.
  - eexists. split; [reflexivity|]. split; [reflexivity|]. split; reflexivity.
  - assert (Eu : Z.eqb (PendingAuth.uin r) user_id = true).
    { apply Z.eqb_neq in E0. apply Z.eqb_eq. tauto. }
    rewrite Eu. cbn [negb].
    eexists. split; [reflexivity|]. split; [reflexivity|]. split; reflexivity.
Qed.

Lemma handle_auth_approve_foreign now user_id bu r st :
  PendingAuth.uin r <> 0 -> PendingAuth.uin r <> user_id ->
  handle_auth_approve config now user_id bu r st = Ok (Reply.not_yours, st).
Proof.
  intros H0 Hu. unfold handle_auth_approve.
  apply Z.eqb_neq in H0, Hu. now rewrite H0, Hu.
Qed.

Lemma handle_auth_usable utcnow code rest user_id bu r st :
  store_wf st -> In bu (bind_user st) -> BindUser.uin bu = user_id ->
  BindUser.is_active bu = true ->
  In r (pending_auth st) -> PendingAuth.verification_code r = str_upper code ->
  crud.code_valid (utcnow 0%nat) r = true ->
  handle_auth config utcnow (code :: rest) user_id st
  = handle_auth_approve config (utcnow 1%nat) user_id bu r st.
Proof.
  intros Hwf Hbu Huin Hact Hr Hk Hvalid.
  destruct Hwf as (_ & Huniq_uin & _ & _ & _ & _ & Huniq_vc & _).
  unfold handle_auth, handle_auth_lookup, bind. rewrite <- Huin.
  rewrite (get_bind_user_by_uin_active st bu Huniq_uin Hbu Hact).
  rewrite <- Hk, (get_pending_auth_by_code_found _ st r Huniq_vc Hr), Hvalid.
  reflexivity.
Qed.

Lemma handle_auth_unusable utcnow code rest user_id bu st :
  store_wf st -> In bu (bind_user st) -> BindUser.uin bu = user_id ->
  BindUser.is_active bu = true ->
  ~ acceptable (utcnow 0%nat) (str_upper code) st ->
  handle_auth config utcnow (code :: rest) user_id st
  = Ok (Reply.invalid_or_expired, st).
Proof.
  intros Hwf Hbu Huin Hact Hno.
  destruct Hwf as (_ & Huniq_uin & _).
  unfold handle_auth, handle_auth_lookup, bind. rewrite <- Huin.
  rewrite (get_bind_user_by_uin_active st bu Huniq_uin Hbu Hact).
  now rewrite get_pending_auth_by_code_unusable.
Qed.

Lemma acceptable_dec now k st : acceptable now k st \/ ~ acceptable now k st.
Proof.
  destruct (List.filter (fun r => String.eqb (PendingAuth.verification_code r) k
                                  && crud.code_valid now r) (pending_auth st))
    as [|r l] eqn:E.
  - right. intros (r & Hin & Hk & Hrest).
    assert (Hf : In r []).
    { rewrite <- E. apply filter_In. split; [exact Hin|].
      apply andb_true_iff. split; [now apply String.eqb_eq|].
      now apply code_valid_iff. }
    exact Hf.
  - left. assert (Hf : In r (r :: l)) by now left.
    rewrite <- E in Hf. apply filter_In in Hf as [Hin Hp].
    apply andb_true_iff in Hp as [Hk Hv]. apply String.eqb_eq in Hk.
    apply code_valid_iff in Hv. exists r. tauto.
Qed.

Lemma unique_key {A K} (key : A -> K) (l : list A) (a b : A) :
  NoDup (map key l) -> In a l -> In b l -> key a = key b -> a = b.
Proof.
  induction l as [|x l IH]; intros Hnd Ha Hb Hk; [contradiction|].
  simpl in Hnd. apply NoDup_cons in Hnd as [Hx Hnd].
  destruct Ha as [->|Ha], Hb as [->|Hb]; auto.
  - exfalso. apply Hx. rewrite Hk. apply list_elem_of_In. now apply in_map.
  - exfalso. apply Hx. rewrite <- Hk. apply list_elem_of_In. now apply in_map.
Qed.

(** C7. For a caller with an active binding, [auth <code>] answers
    "invalid or expired" exactly when no row carrying the upper-cased code
    is unused, unapproved and unexpired; a row whose expiry equals the
    clock reading is refused; and a usable row that is unclaimed (as
    [/authorize] creates it) or already the caller's is claimed and
    approved. *)
Theorem auth_accepts_usable_codes utcnow code rest user_id bu st :
  store_wf st -> In bu (bind_user st) -> BindUser.uin bu = user_id ->
  BindUser.is_active bu = true ->
  let out := run_command (handle_auth config utcnow (code :: rest) user_id) st in
  (fst out <> Reply.invalid_or_expired
   <-> acceptable (utcnow 0%nat) (str_upper code) st)
  /\ (forall r, In r (pending_auth st) ->
        PendingAuth.verification_code r = str_upper code ->
        PendingAuth.expires_at r = utcnow 0%nat ->
        fst out = Reply.invalid_or_expired /\ snd out = st)
  /\ (forall r, In r (pending_auth st) ->
        PendingAuth.verification_code r = str_upper code ->
        crud.code_valid (utcnow 0%nat) r = true ->
        PendingAuth.uin r = 0 \/ PendingAuth.uin r = user_id ->
        fst out = Reply.approved
                    (client_display_name config (PendingAuth.client_id r))
                    (PendingAuth.scope r)
        /\ pending_auth (snd out)
           = approved_rows (Z.eqb (PendingAuth.uin r) 0) (PendingAuth.id r)
               user_id (BindUser.id bu) (pending_auth st)).
Proof.
  intros Hwf Hbu Huin Hact out.
  assert (Hno : ~ acceptable (utcnow 0%nat) (str_upper code) st ->
                out = (Reply.invalid_or_expired, st)).
  { intros H. subst out. unfold run_command.
    now rewrite (handle_auth_unusable utcnow code rest user_id bu st). }
  assert (Hyes : forall r, In r (pending_auth st) ->
            PendingAuth.verification_code r = str_upper code ->
            crud.code_valid (utcnow 0%nat) r = true ->
            out = run_command
                    (handle_auth_approve config (utcnow 1%nat) user_id bu r) st).
  { intros r Hr Hk Hv. subst out. unfold run_command.
    now rewrite (handle_auth_usable utcnow code rest user_id bu r st). }
  split; [|split].
  - split.
    + intros Hreply.
      destruct (acceptable_dec (utcnow 0%nat) (str_upper code) st) as [H|H];
        [exact H|].
      rewrite (Hno H) in Hreply. now contradiction Hreply.
    + intros (r & Hr & Hk & Hu & Ha & He).
      rewrite (Hyes r Hr Hk) by (apply code_valid_iff; tauto).
      unfold run_command.
      destruct (Z.eq_dec (PendingAuth.uin r) 0) as [E0|E0];
        [|destruct (Z.eq_dec (PendingAuth.uin r) user_id) as [Eu|Eu]].
      * destruct (handle_auth_approve_run (utcnow 1%nat) user_id bu r st
                    (or_introl E0)) as (st' & -> & _).
        apply reply_approved_not_invalid.
      * destruct (handle_auth_approve_run (utcnow 1%nat) user_id bu r st
                    (or_intror Eu)) as (st' & -> & _).
        apply reply_approved_not_invalid.
      * rewrite handle_auth_approve_foreign by assumption.
        apply reply_not_yours_not_invalid.
  - intros r Hr Hk He. rewrite Hno; [split; reflexivity|].
    intros (r' & Hr' & Hk' & _ & _ & Hlt).
    destruct Hwf as (_ & _ & _ & _ & _ & _ & Huniq_vc & _).
    assert (r' = r) as ->.
    { apply (unique_key PendingAuth.verification_code (pending_auth st));
        auto. now rewrite Hk, Hk'. }
    lia.
  - intros r Hr Hk Hv Hown. rewrite (Hyes r Hr Hk Hv). unfold run_command.
    destruct (handle_auth_approve_run (utcnow 1%nat) user_id bu r st Hown)
      as (st' & -> & Hrows & _).
    split; [reflexivity|exact Hrows].
Qed.

End Auth.

Lemma auth_accepts_usable_codes_witness :
  fst (run_command (handle_auth Scenario.config Scenario.utcnow ["k7m3q2"] 10001)
                   Scenario.store_created)
  = Reply.approved "Demo" "openid email"
  /\ fst (run_command
            (handle_auth Scenario.config
               (fun n => timedelta_seconds (300 + Z.of_nat n)) ["k7m3q2"] 10001)
            Scenario.store_created)
     = Reply.invalid_or_expired.
Proof.
  split.
  - refine (proj1 (proj2 (proj2 (auth_accepts_usable_codes Scenario.config
              Scenario.utcnow "k7m3q2" [] 10001 Scenario.alice
              Scenario.store_created _ _ _ _))
              (Scenario.request "openid email" 0 0 false false) _ _ _ _)).
    + decide_wf.
    + left. reflexivity.
    + reflexivity.
    + reflexivity.
    + left. reflexivity.
    + reflexivity.
    + reflexivity.
    + left. reflexivity.
  - refine (proj1 (proj1 (proj2 (auth_accepts_usable_codes Scenario.config
              (fun n => timedelta_seconds (300 + Z.of_nat n)) "k7m3q2" []
              10001 Scenario.alice Scenario.store_created _ _ _ _))
              (Scenario.request "openid email" 0 0 false false) _ _ _)).
    + decide_wf.
    + left. reflexivity.
    + reflexivity.
    + reflexivity.
    + left. reflexivity.
    + reflexivity.
    + reflexivity.
Defined.

(** ** The chat command unbind *)

Lemma reply_prompt_not_mismatch prefix username bound :
  Reply.unbind_prompt prefix username <> Reply.username_mismatch bound.
Proof. unfold Reply.unbind_prompt, Reply.username_mismatch. simpl. discriminate. Qed.

Section Unbind.
Context {rt : PyRuntime}.
Variable config : Config.t.

Lemma get_pending_unbind_by_uin_run now uin st :
  (length (pending_unbinds now uin st) <= 1)%nat ->
  crud.get_pending_unbind_by_uin now uin true st
  = Ok (head (pending_unbinds now uin st), st).
Proof.
  unfold crud.get_pending_unbind_by_uin, pending_unbinds.
  destruct (List.filter _ (List.filter _ _)) as [|p [|q l]]; simpl; intros H.
  - reflexivity.
  - reflexivity.
  - lia.
Qed.

Lemma handle_unbind_run utcnow username rest user_id message_type source_id bu st :
  store_wf st -> In bu (bind_user st) -> BindUser.uin bu = user_id ->
  BindUser.is_active bu = true ->
  str_lower username <> "confirm" ->
  (length (pending_unbinds (utcnow 0%nat) user_id st) <= 1)%nat ->
  handle_unbind config utcnow (username :: rest) user_id message_type source_id st
  = if negb (String.eqb (str_lower username) (str_lower (bound_username bu)))
       && negb (String.eqb username (BindUser.sub bu))
    then Ok (Reply.username_mismatch (bound_username bu), st)
    else
      let rows := superseded_rows (pending_unbinds (utcnow 0%nat) user_id st)
                                  (pending_unbind st) in
      Ok (Reply.unbind_prompt (Config.command_prefix config) username,
          with_pending_unbind st
            (rows ++ [new_unbind_request (utcnow 1%nat) (utcnow 2%nat) user_id
                        username (BindUser.id bu) message_type source_id rows])).
Proof.
  intros Hwf Hbu Huin Hact Hconfirm Hone.
  destruct Hwf as (_ & Huniq_uin & _).
  unfold handle_unbind, bind.
  rewrite (get_pending_unbind_by_uin_run _ _ _ Hone).
  apply String.eqb_neq in Hconfirm. rewrite Hconfirm.
  rewrite <- Huin at 1.
  rewrite (get_bind_user_by_uin_active st bu Huniq_uin Hbu Hact).
  destruct (negb _ && negb _); [reflexivity|].
  destruct (pending_unbinds (utcnow 0%nat) user_id st) as [|p l]; reflexivity.
Qed.

Lemma username_matches_eqb username bu :
  negb (String.eqb (str_lower username) (str_lower (bound_username bu)))
  && negb (String.eqb username (BindUser.sub bu)) = false
  <-> username_matches username bu.
Proof.
  unfold username_matches.
  rewrite andb_false_iff, !negb_false_iff, !String.eqb_eq. tauto.
Qed.

Lemma unbind_valid_earlier t0 t r :
  t0 <= t -> crud.unbind_valid t r = true -> crud.unbind_valid t0 r = true.
Proof.
  unfold crud.unbind_valid. rewrite !andb_true_iff, !Z.ltb_lt.
  intros Hle [Hp Hlt]. split; [exact Hp|lia].
Qed.

(** After a successful [unbind <username>] the new request is the only
    valid one of the caller while it lasts. *)
Lemma superseded_rows_invalid t0 t user_id st r :
  (length (pending_unbinds t0 user_id st) <= 1)%nat -> t0 <= t ->
  In r (superseded_rows (pending_unbinds t0 user_id st) (pending_unbind st)) ->
  PendingUnbind.uin r = user_id -> crud.unbind_valid t r = false.
Proof.
  intros Hone Hle Hin Hu.
  destruct (crud.unbind_valid t r) eqn:Ev; [exfalso|reflexivity].
  assert (Hold : forall x, In x (pending_unbind st) ->
            PendingUnbind.uin x = user_id -> crud.unbind_valid t x = true ->
            In x (pending_unbinds t0 user_id st)).
  { intros x Hx Hxu Hxv. unfold pending_unbinds.
    apply filter_In. split.
    - apply filter_In. split; [exact Hx|]. now apply Z.eqb_eq.
    - now apply (unbind_valid_earlier t0 t). }
  destruct (pending_unbinds t0 user_id st) as [|p l] eqn:Ep.
  - simpl in Hin. exact (Hold r Hin Hu Ev).
  - simpl in Hin. apply in_map_iff in Hin as (x & Hx & Hxin).
    destruct (Z.eqb (PendingUnbind.id x) (PendingUnbind.id p)) eqn:Eid.
    + subst r. unfold crud.unbind_valid in Ev. simpl in Ev. discriminate.
    + subst r. specialize (Hold x Hxin Hu Ev).
      destruct l as [|q l]; [|simpl in Hone; lia].
      destruct Hold as [->|[]]. now rewrite Z.eqb_refl in Eid.
Qed.

(** C8 (as amended). For a caller with an active binding and a username
    other than "confirm", [unbind <username>] answers with the
    username-mismatch text exactly when the username matches neither the
    name the binding is known by (its preferred_username, else its email,
    else its sub) ignoring case, nor its sub exactly; on a match a new
    PendingUnbind expiring 300 s after it is created is stored, and it is
    the caller's only valid request while it lasts. *)
Theorem unbind_requires_matching_name
    utcnow username rest user_id message_type source_id bu st :
  store_wf st -> In bu (bind_user st) -> BindUser.uin bu = user_id ->
  BindUser.is_active bu = true ->
  str_lower username <> "confirm" ->
  (length (pending_unbinds (utcnow 0%nat) user_id st) <= 1)%nat ->
  let out := run_command
               (handle_unbind config utcnow (username :: rest) user_id
                              message_type source_id) st in
  let row := new_unbind_request (utcnow 1%nat) (utcnow 2%nat) user_id username
               (BindUser.id bu) message_type source_id
               (superseded_rows (pending_unbinds (utcnow 0%nat) user_id st)
                                (pending_unbind st)) in
  (fst out = Reply.username_mismatch (bound_username bu)
   <-> ~ username_matches username bu)
  /\ (~ username_matches username bu -> snd out = st)
  /\ (username_matches username bu ->
        fst out = Reply.unbind_prompt (Config.command_prefix config) username
        /\ In row (pending_unbind (snd out))
        /\ PendingUnbind.expires_at row = utcnow 2%nat + timedelta_seconds 300
        /\ forall t, utcnow 0%nat <= t < utcnow 2%nat + timedelta_seconds 300 ->
                     pending_unbinds t user_id (snd out) = [row]).
Proof.
  intros Hwf Hbu Huin Hact Hconfirm Hone out row. subst out.
  unfold run_command.
  rewrite (handle_unbind_run utcnow username rest user_id message_type
             source_id bu st Hwf Hbu Huin Hact Hconfirm Hone).
  destruct (negb _ && negb _) eqn:E.
  - assert (Hnm : ~ username_matches username bu).
    { intros H. apply username_matches_eqb in H. congruence. }
    cbn [fst snd]. split; [tauto|]. split; [reflexivity|tauto].
  - assert (Hm : username_matches username bu)
      by now apply username_matches_eqb.
    cbv zeta. cbn [fst snd]. fold row. split; [|split; [tauto|]].
    + split; [|tauto]. intros H. exfalso.
      exact (reply_prompt_not_mismatch _ _ _ H).
    + intros _. split; [reflexivity|].
      split; [cbn; apply in_or_app; right; now left|].
      split; [reflexivity|].
      intros t [Hlo Hhi]. unfold pending_unbinds.
      cbn [pending_unbind with_pending_unbind].
      rewrite !List.filter_app.
      rewrite (filter_filter_none (crud.unbind_valid t)).
      * cbn. rewrite Z.eqb_refl. cbn.
        unfold crud.unbind_valid. cbn.
        apply Z.ltb_lt in Hhi. now rewrite Hhi.
      * intros r Hr Hu. apply Z.eqb_eq in Hu.
        now apply (superseded_rows_invalid (utcnow 0%nat) t user_id st r).
Qed.

End Unbind.

Lemma unbind_requires_matching_name_witness :
  let out := run_command
               (handle_unbind Scenario.config Scenario.utcnow ["ALICE"] 10001
                              "private" 10001) Scenario.store_created in
  fst out = Reply.unbind_prompt "/sso" "ALICE"
  /\ map PendingUnbind.expires_at (pending_unbind (snd out))
     = [timedelta_seconds 312].
Proof.
  intros out.
  destruct (proj2 (proj2 (unbind_requires_matching_name Scenario.config
              Scenario.utcnow "ALICE" [] 10001 "private" 10001 Scenario.alice
              Scenario.store_created ltac:(decide_wf)
              (or_introl eq_refl) eq_refl eq_refl
              ltac:(vm_compute; discriminate) ltac:(vm_compute; lia))))
    as (Hreply & _).
  - left. reflexivity.
  - split; [exact Hreply|]. vm_compute. reflexivity.
Defined.

(** C8, as stated, fails: alice is bound with preferred_username alice and
    email a@x; [unbind a@x] matches her email and is rejected all the same,
    because the name is compared with the preferred_username only. *)
Lemma unbind_by_email_rejected :
  let out := run_command
               (handle_unbind Scenario.config Scenario.utcnow ["a@x"] 10001
                              "private" 10001) Scenario.store_created in
  BindUser.email Scenario.alice = Some "a@x"
  /\ fst out = Reply.username_mismatch "alice"
  /\ pending_unbind (snd out) = [].
Proof. vm_compute. repeat split; reflexivity. Qed.

(** ** Claims returned by /userinfo *)

Lemma str_in_In s l : str_in s l = true <-> In s l.
Proof.
  unfold str_in. rewrite existsb_exists. split.
  - intros (x & Hx & E). apply String.eqb_eq in E. now subst.
  - intros H. exists s. split; [exact H|apply String.eqb_refl].
Qed.

Lemma build_user_data_base (bu : BindUser.t) k :
  is_Some (({[ "uin" := JInt (BindUser.uin bu);
              "email" := jstr_opt (BindUser.email bu);
              "preferred_username" := jstr_opt (BindUser.preferred_username bu);
              "sub" := JStr (BindUser.sub bu) ]} : pydict) !! k) ->
  is_Some (build_user_data bu !! k).
Proof.
  intros H. unfold build_user_data.
  destruct (BindUser.extra_data bu) as [e|]; [|exact H].
  destruct (truthy (JDict e)); [|exact H].
  apply lookup_union_is_Some. now right.
Qed.

Lemma build_user_data_no_extra (bu : BindUser.t) :
  (forall e, BindUser.extra_data bu = Some e -> e !! "extra_data" = None) ->
  build_user_data bu !! "extra_data" = None.
Proof.
  intros H. unfold build_user_data.
  assert (Hbase : ({[ "uin" := JInt (BindUser.uin bu);
                      "email" := jstr_opt (BindUser.email bu);
                      "preferred_username" :=
                        jstr_opt (BindUser.preferred_username bu);
                      "sub" := JStr (BindUser.sub bu) ]} : pydict)
                  !! "extra_data" = None).
  { rewrite !lookup_insert_ne by discriminate. reflexivity. }
  destruct (BindUser.extra_data bu) as [e|] eqn:Ee; [|exact Hbase].
  destruct (truthy (JDict e)); [|exact Hbase].
  apply lookup_union_None. split; [now apply H|exact Hbase].
Qed.

Section Userinfo.
Context {rt : PyRuntime}.

Lemma copy_extra_empty scopes claims :
  fold_left (copy_extra (JDict ∅)) scopes (Ok claims) = Ok claims.
Proof.
  induction scopes as [|s scopes IH]; [reflexivity|].
  simpl. rewrite lookup_empty. exact IH.
Qed.

(** What [get_user_claims] returns when the user data has no entry named
    extra_data. *)
Lemma get_user_claims_contains scope (ud : pydict) :
  ud !! "extra_data" = None ->
  dict_has ud "email" = true -> dict_has ud "preferred_username" = true ->
  exists claims,
    get_user_claims scope ud = Ok claims
    /\ (In "uin" (str_split scope) ->
        claims !! "uin" = Some (dict_get ud "uin"))
    /\ (In "openid" (str_split scope) ->
        claims !! "sub"
        = Some (if truthy (dict_get ud "sub") then dict_get ud "sub"
                else JStr (py_str (dict_get ud "uin"))))
    /\ (In "email" (str_split scope) ->
        claims !! "email" = Some (dict_get ud "email"))
    /\ (In "profile" (str_split scope)
        \/ In "preferred_username" (str_split scope) ->
        claims !! "preferred_username"
        = Some (dict_get ud "preferred_username")).
Proof.
  intros Hextra Hemail Hpu. unfold get_user_claims.
  assert (Hd : dict_get ud "extra_data" = JNull)
    by (unfold dict_get; now rewrite Hextra).
  rewrite Hd, Hemail, Hpu. cbn [truthy]. rewrite copy_extra_empty.
  eexists. split; [reflexivity|].
  rewrite <- !str_in_In.
  destruct (str_in "uin" (str_split scope)),
           (str_in "openid" (str_split scope)),
           (str_in "email" (str_split scope)),
           (str_in "profile" (str_split scope)),
           (str_in "preferred_username" (str_split scope));
    cbn [andb orb];
    repeat split; intros H; try discriminate H;
    try (destruct H as [H|H]; discriminate H);
    repeat (rewrite lookup_insert_eq || rewrite lookup_insert_ne by discriminate);
    reflexivity.
Qed.

End Userinfo.

Lemma get_token_by_access_token_valid now st r :
  NoDup (map OAuthToken.access_token (oauth_token st)) ->
  In r (oauth_token st) ->
  crud.get_token_by_access_token now (OAuthToken.access_token r) true st
  = Ok (if crud.access_valid now r then Some r else None, st).
Proof.
  intros Hnd Hin. unfold crud.get_token_by_access_token.
  rewrite (filter_unique OAuthToken.access_token String.eqb Seqb_iff _ r Hnd Hin).
  simpl. now destruct (crud.access_valid now r).
Qed.

Lemma bearer_nonempty a : String.eqb ("Bearer " +:+ a) "" = false.
Proof. reflexivity. Qed.

Lemma bearer_prefix a : String.prefix "Bearer " ("Bearer " +:+ a) = true.
Proof. simpl. now destruct a. Qed.

Lemma bearer_drop a : str_drop 7 ("Bearer " +:+ a) = a.
Proof. reflexivity. Qed.

Section UserinfoEndpoint.
Context {rt : PyRuntime}.

(** C9 (as amended). For a [GET /userinfo] request bearing a valid access
    token of a bound user whose stored extra data has no entry named
    extra_data, the answer is 200 and the claim set contains email when
    email is in the scope, preferred_username when profile or
    preferred_username is in the scope, uin when uin is in the scope, and
    sub when openid is in the scope. *)
Theorem userinfo_claims utcnow a tok bu st :
  store_wf st -> a <> "" ->
  In tok (oauth_token st) -> OAuthToken.access_token tok = a ->
  crud.access_valid (utcnow 0%nat) tok = true ->
  In bu (bind_user st) -> BindUser.uin bu = OAuthToken.uin tok ->
  BindUser.is_active bu = true ->
  (forall e, BindUser.extra_data bu = Some e -> e !! "extra_data" = None) ->
  let out := get_db (userinfo utcnow (Some ("Bearer " +:+ a))) st in
  let scopes := str_split (OAuthToken.scope tok) in
  let claims := JSONResponse.content (fst out) in
  let user_data := build_user_data bu in
  JSONResponse.status_code (fst out) = 200
  /\ snd out = st
  /\ (In "email" scopes -> claims !! "email" = Some (dict_get user_data "email"))
  /\ (In "profile" scopes \/ In "preferred_username" scopes ->
      claims !! "preferred_username"
      = Some (dict_get user_data "preferred_username"))
  /\ (In "uin" scopes -> claims !! "uin" = Some (dict_get user_data "uin"))
  /\ (In "openid" scopes ->
      claims !! "sub"
      = Some (if truthy (dict_get user_data "sub") then dict_get user_data "sub"
              else JStr (py_str (dict_get user_data "uin")))).
Proof.
  intros Hwf Hne Htok Ha Hvalid Hbu Huin Hact Hextra out scopes claims user_data.
  destruct Hwf as (_ & Huniq_uin & _ & _ & _ & _ & _ & _ & _ & _ & Huniq_at & _).
  assert (Hhas : forall k,
            is_Some (({[ "uin" := JInt (BindUser.uin bu);
                         "email" := jstr_opt (BindUser.email bu);
                         "preferred_username" :=
                           jstr_opt (BindUser.preferred_username bu);
                         "sub" := JStr (BindUser.sub bu) ]} : pydict) !! k) ->
            dict_has (build_user_data bu) k = true).
  { intros k Hk. apply bool_decide_eq_true_2. now apply build_user_data_base. }
  destruct (get_user_claims_contains (OAuthToken.scope tok) (build_user_data bu))
    as (c & Hc & Huin_c & Hsub_c & Hemail_c & Hpu_c).
  { now apply build_user_data_no_extra. }
  { apply Hhas. rewrite lookup_insert_ne by discriminate.
    rewrite lookup_insert_eq. eauto. }
  { apply Hhas. rewrite !lookup_insert_ne by discriminate.
    rewrite lookup_insert_eq. eauto. }
  assert (Hrun : userinfo utcnow (Some ("Bearer " +:+ a)) st
                 = Ok (json_response c, st)).
  { unfold userinfo. cbn [truthy_str].
    rewrite bearer_nonempty, bearer_prefix, bearer_drop.
    cbn [negb andb truthy_str or_str].
    apply String.eqb_neq in Hne. rewrite Hne. cbn [negb]. unfold bind.
    rewrite <- Ha.
    rewrite (get_token_by_access_token_valid _ st tok Huniq_at Htok), Hvalid.
    rewrite <- Huin.
    rewrite (get_bind_user_by_uin_active st bu Huniq_uin Hbu Hact).
    unfold lift. now rewrite Hc. }
  subst out claims. unfold get_db. rewrite Hrun. cbn [fst snd json_response
    JSONResponse.status_code JSONResponse.content].
  repeat split; auto.
Qed.

End UserinfoEndpoint.

Lemma userinfo_claims_witness :
  let claims := JSONResponse.content
                  (fst (get_db (userinfo Scenario.utcnow (Some "Bearer A1"))
                               Scenario3.store_profile)) in
  claims !! "email" = Some (JStr "a@x")
  /\ claims !! "preferred_username" = Some (JStr "alice")
  /\ claims !! "sub" = Some (JStr "u-42").
Proof.
  intros claims.
  destruct (userinfo_claims Scenario.utcnow "A1"
              (Scenario.token_row 1 "A1" "R1" "openid email profile nickname" false)
              Scenario.alice Scenario3.store_profile
              ltac:(decide_wf) ltac:(discriminate) (or_introl eq_refl) eq_refl
              eq_refl (or_introl eq_refl) eq_refl eq_refl)
    as (_ & _ & Hemail & Hpu & _ & Hsub).
  - intros e [= <-]. reflexivity.
  - split; [apply Hemail; vm_compute; tauto|].
    split; [apply Hpu; vm_compute; tauto|].
    apply Hsub. vm_compute. tauto.
Defined.

(** C9, as stated, fails: with the scopes openid, email, profile and
    nickname the claim set holds sub, email and preferred_username only.
    There is no email_verified, nickname or name; uin is absent because the
    scope uin was not granted; and the stored extra field nickname is not
    returned although it names a scope token. *)
Lemma userinfo_omits_claims :
  let out := get_db (userinfo Scenario.utcnow (Some "Bearer A1"))
                    Scenario3.store_profile in
  let claims := JSONResponse.content (fst out) in
  BindUser.extra_data Scenario.alice = Some {[ "nickname" := JStr "Nick" ]}
  /\ JSONResponse.status_code (fst out) = 200
  /\ claims = {[ "sub" := JStr "u-42"; "email" := JStr "a@x";
                 "preferred_username" := JStr "alice" ]}
  /\ claims !! "email_verified" = None
  /\ claims !! "nickname" = None
  /\ claims !! "name" = None
  /\ claims !! "uin" = None.
Proof. vm_compute. repeat split; reflexivity. Qed.

(** ** Bindings are unique for ever *)

Lemma create_bind_user_conflict now uin sub email pu extra row st :
  In row (bind_user st) ->
  BindUser.uin row = uin \/ BindUser.sub row = sub ->
  crud.create_bind_user now uin sub email pu extra st = Raise IntegrityError.
Proof.
  intros Hin Hkey. unfold crud.create_bind_user.
  assert (H : taken uin (map BindUser.uin (bind_user st))
              || taken sub (map BindUser.sub (bind_user st)) = true).
  { apply orb_true_iff. unfold taken. destruct Hkey as [<-|<-]; [left|right];
      apply bool_decide_eq_true_2, list_elem_of_In, in_map, Hin. }
  now rewrite H.
Qed.

(** No mutation removes a binding or changes its [uin] or [sub]. *)
Lemma apply_mutation_bind_user m st st' :
  apply_mutation m st = Ok st' ->
  forall r, In r (bind_user st) ->
  exists r', In r' (bind_user st')
             /\ BindUser.uin r' = BindUser.uin r
             /\ BindUser.sub r' = BindUser.sub r.
Proof.
  intros H r Hr.
  destruct m; unfold apply_mutation, forget in H.
  all: try (unfold crud.create_pending_bind, crud.mark_pending_bind_used,
              crud.create_pending_auth, claim_pending_auth,
              crud.approve_pending_auth, crud.mark_pending_auth_used,
              crud.create_pending_unbind, crud.mark_pending_unbind_processed,
              crud.create_authorization_log, crud.create_unbind_log,
              crud.create_oauth_token, crud.revoke_token,
              crud.revoke_all_user_tokens, update_where in H;
            repeat match type of H with
                   | context [if ?b then _ else _] => destruct b
                   end;
            try discriminate; injection H as <-; solve [exists r; auto]).
  - unfold crud.create_bind_user in H.
    destruct (taken uin _ || taken sub _); [discriminate|].
    injection H as <-. exists r. split; [|auto].
    cbn. apply in_or_app. now left.
  - unfold crud.deactivate_bind_user, update_where in H. injection H as <-.
    exists (if Z.eqb (BindUser.id r) bind_user_id
            then set_is_active false r else r).
    split.
    + cbn. apply in_map_iff. eauto.
    + now destruct (Z.eqb (BindUser.id r) bind_user_id).
Qed.

Lemma follows_bind_user st st' :
  follows st st' ->
  forall r, In r (bind_user st) ->
  exists r', In r' (bind_user st')
             /\ BindUser.uin r' = BindUser.uin r
             /\ BindUser.sub r' = BindUser.sub r.
Proof.
  induction 1 as [|st1 st2 m _ IH Hm]; intros r Hr; [eauto|].
  destruct (IH r Hr) as (r1 & Hr1 & Hu1 & Hs1).
  destruct (apply_mutation_bind_user m st1 st2 Hm r1 Hr1) as (r2 & Hr2 & Hu2 & Hs2).
  exists r2. split; [exact Hr2|]. split; congruence.
Qed.

(** No mutation binds again a UIN whose rows are all deactivated. *)
Lemma apply_mutation_unbound u m st st' :
  apply_mutation m st = Ok st' ->
  unbound u (bind_user st) -> unbound u (bind_user st').
Proof.
  intros H Hun.
  destruct m; unfold apply_mutation, forget in H.
  all: try (unfold crud.create_pending_bind, crud.mark_pending_bind_used,
              crud.create_pending_auth, claim_pending_auth,
              crud.approve_pending_auth, crud.mark_pending_auth_used,
              crud.create_pending_unbind, crud.mark_pending_unbind_processed,
              crud.create_authorization_log, crud.create_unbind_log,
              crud.create_oauth_token, crud.revoke_token,
              crud.revoke_all_user_tokens, update_where in H;
            repeat match type of H with
                   | context [if ?b then _ else _] => destruct b
                   end;
            try discriminate; injection H as <-; exact Hun).
  - unfold crud.create_bind_user in H.
    destruct (taken uin _ || taken sub _) eqn:E; [discriminate|].
    injection H as <-. apply orb_false_iff in E as [E _]. cbn.
    destruct Hun as [(r0 & Hin0 & Hu0) Hall]. split.
    + exists r0. split; [apply in_or_app; now left|exact Hu0].
    + intros r Hin Hu. apply in_app_or in Hin as [Hin|[<-|[]]]; [eauto|].
      exfalso. cbn in Hu. unfold taken in E.
      apply bool_decide_eq_false in E. apply E.
      apply list_elem_of_In. rewrite Hu, <- Hu0. now apply in_map.
  - unfold crud.deactivate_bind_user, update_where in H. injection H as <-.
    cbn. destruct Hun as [(r0 & Hin0 & Hu0) Hall]. split.
    + exists (if Z.eqb (BindUser.id r0) bind_user_id
              then set_is_active false r0 else r0). split.
      * apply in_map_iff. eauto.
      * now destruct (Z.eqb (BindUser.id r0) bind_user_id).
    + intros r Hin Hu. apply in_map_iff in Hin as (x & <- & Hx).
      destruct (Z.eqb (BindUser.id x) bind_user_id); [reflexivity|eauto].
Qed.

Lemma follows_unbound u st st' :
  follows st st' -> unbound u (bind_user st) -> unbound u (bind_user st').
Proof.
  induction 1 as [|st1 st2 m _ IH Hm]; intros H; [exact H|].
  eapply apply_mutation_unbound; eauto.
Qed.

Lemma get_pending_bind_by_state_found now st p :
  NoDup (map PendingBind.state (pending_bind st)) -> In p (pending_bind st) ->
  PendingBind.is_used p = false -> now < PendingBind.expires_at p ->
  crud.get_pending_bind_by_state now (PendingBind.state p) true st = Ok (Some p, st).
Proof.
  intros Hnd Hin Hu Hlt. unfold crud.get_pending_bind_by_state.
  rewrite (filter_unique PendingBind.state String.eqb Seqb_iff _ p Hnd Hin).
  simpl. rewrite Hu. apply Z.ltb_lt in Hlt. now rewrite Hlt.
Qed.

Lemma get_bind_user_by_sub_none sub st :
  (forall r, In r (bind_user st) -> BindUser.sub r = sub ->
             BindUser.is_active r = false) ->
  crud.get_bind_user_by_sub sub true st = Ok (None, st).
Proof.
  intros H. unfold crud.get_bind_user_by_sub.
  rewrite filter_filter_none; [reflexivity|].
  intros r Hr Hs. apply String.eqb_eq in Hs. auto.
Qed.

(** C10. Uniqueness of [uin] and of [sub] in bind_user does not depend on
    [is_active]: once a row exists for a UIN or a sub, [create_bind_user]
    for the same value fails in every later store, whatever the flags of
    the existing rows; a UIN whose rows are all deactivated has no active
    row in any later store. The callback tests for an active binding only:
    for a UIN whose binding has been deactivated it gets as far as the
    insert, which fails; the request is rolled back and answered 500. *)
Theorem rebinding_fails :
  (forall now uin sub email pu extra row st st',
      In row (bind_user st) ->
      BindUser.uin row = uin \/ BindUser.sub row = sub ->
      follows st st' ->
      crud.create_bind_user now uin sub email pu extra st' = Raise IntegrityError)
  /\ (forall uin st st',
        unbound uin (bind_user st) -> follows st st' ->
        forall r, In r (bind_user st') -> BindUser.uin r = uin ->
                  BindUser.is_active r = false)
  /\ (forall config utcnow exchange code state userinfo pending row st,
        store_wf st -> code <> "" -> state <> "" ->
        In pending (pending_bind st) -> PendingBind.state pending = state ->
        PendingBind.is_used pending = false ->
        utcnow 0%nat < PendingBind.expires_at pending ->
        In row (bind_user st) -> BindUser.uin row = PendingBind.uin pending ->
        BindUser.is_active row = false ->
        exchange code = Some userinfo ->
        (forall r, In r (bind_user st) ->
                   BindUser.sub r = UserInfo.sub userinfo ->
                   BindUser.is_active r = false) ->
        get_db_page (oauth_callback config utcnow (Some exchange) (Some code)
                                    (Some state) None None) st
        = (html 500 "Internal Server Error", st)).
Proof.
  split; [|split].
  - intros now uin sub email pu extra row st st' Hin Hkey Hfol.
    destruct (follows_bind_user st st' Hfol row Hin) as (r' & Hr' & Hu & Hs).
    apply (create_bind_user_conflict now uin sub email pu extra r' st' Hr').
    destruct Hkey as [<-|<-]; auto.
  - intros uin st st' Hun Hfol.
    exact (proj2 (follows_unbound uin st st' Hfol Hun)).
  - intros config utcnow exchange code state userinfo pending row st
           Hwf Hcode Hstate Hp Hps Hpu Hpe Hrow Hru Hra Hex Hsub.
    destruct Hwf as (_ & Huniq_uin & _ & _ & Huniq_state & _).
    unfold get_db_page, oauth_callback.
    cbn [truthy_str negb orb].
    apply String.eqb_neq in Hcode, Hstate. rewrite Hcode, Hstate.
    cbn [negb orb or_str]. rewrite Hcode, Hstate. unfold bind.
    rewrite <- Hps.
    rewrite (get_pending_bind_by_state_found _ st pending Huniq_state Hp Hpu Hpe).
    rewrite <- Hru.
    rewrite (get_bind_user_by_uin_inactive st row Huniq_uin Hrow Hra).
    rewrite Hex. rewrite (get_bind_user_by_sub_none _ st Hsub).
    rewrite (create_bind_user_conflict _ _ _ _ _ _ row st Hrow (or_introl eq_refl)).
    reflexivity.
Qed.

Lemma rebinding_fails_witness :
  crud.create_bind_user 0 10001 "u-99" None None None Scenario4.store_rebind
  = Raise IntegrityError
  /\ get_db_page (oauth_callback Scenario.config Scenario.utcnow
                    (Some Scenario4.upstream) (Some "XYZ") (Some "S") None None)
                 Scenario4.store_rebind
     = (html 500 "Internal Server Error", Scenario4.store_rebind).
Proof.
  split.
  - apply (proj1 rebinding_fails 0 10001 "u-99" None None None
             Scenario4.alice_unbound Scenario4.store_rebind
             Scenario4.store_rebind).
    + left. reflexivity.
    + left. reflexivity.
    + apply follows_refl.
  - refine (proj2 (proj2 rebinding_fails) Scenario.config Scenario.utcnow
              Scenario4.upstream "XYZ" "S" _ Scenario4.bind_link
              Scenario4.alice_unbound Scenario4.store_rebind
              _ _ _ _ _ _ _ _ _ _ eq_refl _).
    + decide_wf.
    + discriminate.
    + discriminate.
    + left. reflexivity.
    + reflexivity.
    + reflexivity.
    + reflexivity.
    + left. reflexivity.
    + reflexivity.
    + reflexivity.
    + intros r [<-|[<-|[]]]; simpl; intros H; [discriminate H|discriminate H].
Defined.

(** ** A redeemed authorization code stays refused *)

Lemma update_rows_spent c (p : PendingAuth.t -> bool) (f : PendingAuth.t -> PendingAuth.t)
    rows :
  (forall r, PendingAuth.auth_code (f r) = PendingAuth.auth_code r) ->
  (forall r, PendingAuth.is_used r = true -> PendingAuth.is_used (f r) = true) ->
  code_spent c rows ->
  code_spent c (map (fun r => if p r then f r else r) rows).
Proof.
  intros Hcode Hused [(r0 & Hin0 & Hc0) Hall]. split.
  - exists (if p r0 then f r0 else r0). split.
    + apply in_map_iff. eauto.
    + destruct (p r0); [now rewrite Hcode|exact Hc0].
  - intros r Hin Hc. apply in_map_iff in Hin as (x & <- & Hx).
    destruct (p x).
    + rewrite Hcode in Hc. apply Hused. eauto.
    + eauto.
Qed.

Lemma apply_mutation_spent c m st st' :
  apply_mutation m st = Ok st' ->
  code_spent c (pending_auth st) -> code_spent c (pending_auth st').
Proof.
  intros H Hspent.
  destruct m; unfold apply_mutation, forget in H.
  all: try (unfold crud.create_bind_user, crud.deactivate_bind_user,
              crud.create_pending_bind, crud.mark_pending_bind_used,
              crud.create_pending_unbind, crud.mark_pending_unbind_processed,
              crud.create_authorization_log, crud.create_unbind_log,
              crud.create_oauth_token, crud.revoke_token,
              crud.revoke_all_user_tokens, update_where in H;
            repeat match type of H with
                   | context [if ?b then _ else _] => destruct b
                   end;
            try discriminate; injection H as <-; exact Hspent).
  - unfold crud.create_pending_auth in H.
    destruct (taken verification_code _ || taken auth_code _) eqn:E;
      [discriminate|].
    injection H as <-. apply orb_false_iff in E as [_ E]. cbn.
    destruct Hspent as [(r0 & Hin0 & Hc0) Hall]. split.
    + exists r0. split; [apply in_or_app; now left|exact Hc0].
    + intros r Hin Hc. apply in_app_or in Hin as [Hin|[<-|[]]]; [eauto|].
      exfalso. cbn in Hc. unfold taken in E.
      apply bool_decide_eq_false in E. apply E.
      apply list_elem_of_In. rewrite Hc, <- Hc0. now apply in_map.
  - unfold claim_pending_auth, update_where in H. injection H as <-.
    now apply update_rows_spent.
  - unfold crud.approve_pending_auth, update_where in H. injection H as <-.
    now apply update_rows_spent.
  - unfold crud.mark_pending_auth_used, update_where in H. injection H as <-.
    now apply update_rows_spent.
Qed.

(** Once the row of an authorization code is used, no later store makes
    the code usable again: every replay falls under
    [token_unusable_code_refused]. *)
Lemma used_code_never_usable now r st st' :
  store_wf st -> In r (pending_auth st) -> PendingAuth.is_used r = true ->
  follows st st' ->
  no_usable_auth_code now st' (Some (PendingAuth.auth_code r)).
Proof.
  intros Hwf Hin Hused Hfol.
  assert (Hspent : code_spent (PendingAuth.auth_code r) (pending_auth st')).
  { induction Hfol as [|st1 st2 m _ IH Hm].
    - destruct Hwf as (_ & _ & _ & _ & _ & _ & _ & Huniq_ac & _). split.
      + eauto.
      + intros x Hx Hc.
        now rewrite (unique_key PendingAuth.auth_code (pending_auth st) x r
                       Huniq_ac Hx Hin Hc).
    - eapply apply_mutation_spent; eauto. }
  intros c x [= <-] Hx Hc. unfold crud.auth_code_valid.
  destruct Hspent as [_ Hall]. rewrite (Hall x Hx Hc).
  now rewrite andb_false_r.
Qed.
(** ** The uniqueness constraints hold in every reachable store *)

Lemma next_id_bound (ids : list Z) i : In i ids -> i < next_id ids.
Proof.
  unfold next_id. induction ids as [|a l IH]; simpl; [tauto|].
  intros [->|H]; [lia|]. specialize (IH H). lia.
Qed.

Lemma next_id_fresh (ids : list Z) : ~ In (next_id ids) ids.
Proof. intros H. apply next_id_bound in H. lia. Qed.

Lemma NoDup_snoc {A} (l : list A) (x : A) :
  NoDup l -> ~ In x l -> NoDup (l ++ [x]).
Proof.
  intros Hl Hx. apply NoDup_app. split; [exact Hl|]. split.
  - intros y Hy Hy'. apply list_elem_of_In in Hy, Hy'.
    destruct Hy' as [->|[]]. tauto.
  - apply NoDup_singleton.
Qed.

Lemma taken_false {K} `{EqDecision K} (k : K) (col : list K) :
  taken k col = false -> ~ In k col.
Proof.
  unfold taken. intros H Hin. apply bool_decide_eq_false in H.
  apply H, list_elem_of_In, Hin.
Qed.

Lemma map_update_key {A K} (key : A -> K) (p : A -> bool) (f : A -> A) rows :
  (forall r, key (f r) = key r) ->
  map key (map (fun r => if p r then f r else r) rows) = map key rows.
Proof.
  intros Hk. rewrite map_map. apply map_ext. intros r. destruct (p r); auto.
Qed.

Lemma non_null_snoc {A} (col : list (option A)) (x : option A) :
  non_null (col ++ [x]) = non_null col ++ match x with Some a => [a] | None => [] end.
Proof.
  unfold non_null. rewrite omap_app. destruct x; reflexivity.
Qed.

Lemma apply_mutation_wf m st st' :
  apply_mutation m st = Ok st' -> store_wf st -> store_wf st'.
Proof.
  intros H (W1 & W2 & W3 & W4 & W5 & W6 & W7 & W8 & W9 & W10 & W11 & W12).
  destruct m; simpl in H; unfold forget in H.
  - unfold crud.create_bind_user in H.
    destruct (taken uin _) eqn:T1; [discriminate|].
    destruct (taken sub _) eqn:T2; [discriminate|]. simpl in H.
    injection H as <-. unfold store_wf; simpl. rewrite !map_app; simpl.
    repeat split; try assumption; (apply NoDup_snoc; [assumption | first [apply next_id_fresh | apply taken_false; assumption]]).
  - unfold crud.deactivate_bind_user, update_where in H. injection H as <-.
    unfold store_wf; simpl.
    rewrite (map_update_key BindUser.id), (map_update_key BindUser.uin),
      (map_update_key BindUser.sub) by reflexivity.
    repeat split; assumption.
  - unfold crud.create_pending_bind in H.
    destruct (taken state _) eqn:T1; [discriminate|].
    injection H as <-. unfold store_wf; simpl. rewrite !map_app; simpl.
    repeat split; try assumption; (apply NoDup_snoc; [assumption | first [apply next_id_fresh | apply taken_false; assumption]]).
  - unfold crud.mark_pending_bind_used, update_where in H. injection H as <-.
    unfold store_wf; simpl.
    rewrite (map_update_key PendingBind.id), (map_update_key PendingBind.state)
      by reflexivity.
    repeat split; assumption.
  - unfold crud.create_pending_auth in H.
    destruct (taken verification_code _) eqn:T1; [discriminate|].
    destruct (taken auth_code _) eqn:T2; [discriminate|]. simpl in H.
    injection H as <-. unfold store_wf; simpl. rewrite !map_app; simpl.
    repeat split; try assumption; (apply NoDup_snoc; [assumption | first [apply next_id_fresh | apply taken_false; assumption]]).
  - unfold claim_pending_auth, update_where in H. injection H as <-.
    unfold store_wf; simpl.
    rewrite (map_update_key PendingAuth.id),
      (map_update_key PendingAuth.verification_code),
      (map_update_key PendingAuth.auth_code) by reflexivity.
    repeat split; assumption.
  - unfold crud.approve_pending_auth, update_where in H. injection H as <-.
    unfold store_wf; simpl.
    rewrite (map_update_key PendingAuth.id),
      (map_update_key PendingAuth.verification_code),
      (map_update_key PendingAuth.auth_code) by reflexivity.
    repeat split; assumption.
  - unfold crud.mark_pending_auth_used, update_where in H. injection H as <-.
    unfold store_wf; simpl.
    rewrite (map_update_key PendingAuth.id),
      (map_update_key PendingAuth.verification_code),
      (map_update_key PendingAuth.auth_code) by reflexivity.
    repeat split; assumption.
  - unfold crud.create_pending_unbind in H.
    injection H as <-. unfold store_wf; simpl. rewrite !map_app; simpl.
    repeat split; try assumption; (apply NoDup_snoc; [assumption | apply next_id_fresh]).
  - unfold crud.mark_pending_unbind_processed, update_where in H. injection H as <-.
    unfold store_wf; simpl.
    rewrite (map_update_key PendingUnbind.id) by reflexivity.
    repeat split; assumption.
  - unfold crud.create_authorization_log in H. injection H as <-.
    unfold store_wf; simpl. repeat split; assumption.
  - unfold crud.create_unbind_log in H. injection H as <-.
    unfold store_wf; simpl. repeat split; assumption.
  - unfold crud.create_oauth_token in H.
    destruct (taken access_token _) eqn:T1; [discriminate|]. simpl in H.
    destruct refresh_token as [k|].
    + destruct (taken k _) eqn:T2; [discriminate|].
      injection H as <-. unfold store_wf; simpl. rewrite !map_app; simpl.
      rewrite non_null_snoc.
      repeat split; try assumption; (apply NoDup_snoc; [assumption | first [apply next_id_fresh | apply taken_false; assumption]]).
    + injection H as <-. unfold store_wf; simpl. rewrite !map_app; simpl.
      rewrite non_null_snoc, app_nil_r.
      repeat split; try assumption; (apply NoDup_snoc; [assumption | first [apply next_id_fresh | apply taken_false; assumption]]).
  - unfold crud.revoke_token, update_where in H. injection H as <-.
    unfold store_wf; simpl.
    rewrite (map_update_key OAuthToken.id), (map_update_key OAuthToken.access_token),
      (map_update_key OAuthToken.refresh_token) by reflexivity.
    repeat split; assumption.
  - unfold crud.revoke_all_user_tokens, update_where in H. injection H as <-.
    unfold store_wf; simpl.
    rewrite (map_update_key OAuthToken.id), (map_update_key OAuthToken.access_token),
      (map_update_key OAuthToken.refresh_token) by reflexivity.
    repeat split; assumption.
Qed.

(** The empty database. *)

(** X1. Every store reached by successful writes from a store that satisfies
    the uniqueness constraints satisfies them too; in particular a UIN and
    a sub never occur in two rows of bind_user. *)
Theorem follows_store_wf st st' :
  follows st st' -> store_wf st ->
  store_wf st'
  /\ (forall a b, In a (bind_user st') -> In b (bind_user st') ->
        BindUser.uin a = BindUser.uin b \/ BindUser.sub a = BindUser.sub b ->
        a = b).
Proof.
  intros F W.
  assert (W' : store_wf st').
  { induction F as [|st1 st2 m F IH Hm]; [exact W|].
    eapply apply_mutation_wf; eauto. }
  split; [exact W'|].
  intros a b Ha Hb [E|E].
  - eapply (unique_key BindUser.uin); eauto. apply W'.
  - eapply (unique_key BindUser.sub); eauto. apply W'.
Qed.

Lemma follows_store_wf_witness : store_wf Scenario.store_approved.
Proof.
  apply (follows_store_wf Scenario.store_created Scenario.store_approved).
  - apply (follows_step _
             (Scenario.store_with [Scenario.alice; Scenario.bob]
                [Scenario.request "openid email" 10001 1 false false] [])
             _ (MApprovePendingAuth 1)).
    + apply (follows_step _ Scenario.store_created _ (MClaimPendingAuth 1 10001 1));
        [apply follows_refl | reflexivity].
    + reflexivity.
  - decide_wf.
Defined.

(** ** The life of a pending authorization and of a token, in crud.py *)

Lemma in_update {A} (p : A -> bool) (f : A -> A) (rows : list A) (r : A) :
  In r rows -> p r = true -> In (f r) (map (fun x => if p x then f x else x) rows).
Proof.
  intros Hin Hp. apply in_map_iff. exists r. rewrite Hp. auto.
Qed.

Lemma get_pending_auth_by_auth_code_found now st r :
  NoDup (map PendingAuth.auth_code (pending_auth st)) ->
  In r (pending_auth st) ->
  crud.get_pending_auth_by_auth_code now (PendingAuth.auth_code r) true st
  = Ok (if crud.auth_code_valid now r then Some r else None, st).
Proof.
  intros Hnd Hin. unfold crud.get_pending_auth_by_auth_code.
  rewrite (filter_unique PendingAuth.auth_code String.eqb Seqb_iff _ r Hnd Hin).
  simpl. destruct (crud.auth_code_valid now r); reflexivity.
Qed.

(** X2. A request created by [create_pending_auth] can be approved by its
    verification code until it expires and not by its authorization code;
    once approved, only the authorization code finds it, until it expires;
    once marked used, neither code finds it. *)
Theorem pending_auth_lifecycle
    now1 now2 vc ac cid ruri scope bid uin state cc ccm ip ua ttl st row st1 :
  store_wf st ->
  crud.create_pending_auth now1 now2 vc ac cid ruri scope bid uin state cc ccm
                           ip ua ttl st = Ok (row, st1) ->
  let expiry := now2 + timedelta_seconds ttl in
  (forall t, crud.get_pending_auth_by_code t vc true st1
             = Ok (if t <? expiry then Some row else None, st1))
  /\ (forall t, crud.get_pending_auth_by_auth_code t ac true st1 = Ok (None, st1))
  /\ exists st2,
       crud.approve_pending_auth (PendingAuth.id row) st1 = Ok (true, st2)
       /\ (forall t, crud.get_pending_auth_by_code t vc true st2 = Ok (None, st2))
       /\ (forall t, crud.get_pending_auth_by_auth_code t ac true st2
                     = Ok (if t <? expiry then Some (set_is_approved true row)
                           else None, st2))
       /\ exists st3,
            crud.mark_pending_auth_used (PendingAuth.id row) st2 = Ok (true, st3)
            /\ (forall t, crud.get_pending_auth_by_code t vc true st3
                          = Ok (None, st3))
            /\ (forall t, crud.get_pending_auth_by_auth_code t ac true st3
                          = Ok (None, st3)).
Proof.
  intros W Hc expiry.
  assert (W1 : store_wf st1).
  { apply (apply_mutation_wf
             (MCreatePendingAuth now1 now2 vc ac cid ruri scope bid uin state cc
                                 ccm ip ua ttl) st); [|exact W].
    simpl. unfold forget. rewrite Hc. reflexivity. }
  unfold crud.create_pending_auth in Hc.
  destruct (taken vc _ || taken ac _); [discriminate|].
  injection Hc as Hrow Hst1.
  assert (Hin : In row (pending_auth st1)).
  { rewrite <- Hst1. simpl. apply in_or_app. right. left. exact Hrow. }
  assert (Hvc : PendingAuth.verification_code row = vc) by (rewrite <- Hrow; reflexivity).
  assert (Hac : PendingAuth.auth_code row = ac) by (rewrite <- Hrow; reflexivity).
  assert (Hexp : PendingAuth.expires_at row = expiry) by (rewrite <- Hrow; reflexivity).
  assert (Hflags : PendingAuth.is_approved row = false /\ PendingAuth.is_used row = false)
    by (rewrite <- Hrow; split; reflexivity).
  destruct Hflags as [Happ Hused].
  pose proof W1 as (_ & _ & _ & _ & _ & N6 & N7 & N8 & _).
  split.
  { intros t. rewrite <- Hvc, (get_pending_auth_by_code_found t st1 row N7 Hin).
    unfold crud.code_valid. rewrite Hused, Happ, Hexp. reflexivity. }
  split.
  { intros t. rewrite <- Hac, (get_pending_auth_by_auth_code_found t st1 row N8 Hin).
    unfold crud.auth_code_valid. rewrite Happ. reflexivity. }
  set (p := fun r => Z.eqb (PendingAuth.id r) (PendingAuth.id row)).
  set (rows2 := map (fun r => if p r then set_is_approved true r else r)
                    (pending_auth st1)).
  exists (with_pending_auth st1 rows2).
  assert (W2 : store_wf (with_pending_auth st1 rows2)).
  { apply (apply_mutation_wf (MApprovePendingAuth (PendingAuth.id row)) st1);
      [reflexivity|exact W1]. }
  assert (Hin2 : In (set_is_approved true row) rows2).
  { apply in_update; [exact Hin|]. unfold p. apply Z.eqb_refl. }
  pose proof W2 as (_ & _ & _ & _ & _ & M6 & M7 & M8 & _).
  split.
  { unfold crud.approve_pending_auth, update_where.
    rewrite (filter_unique PendingAuth.id Z.eqb Zeqb_iff _ row N6 Hin).
    reflexivity. }
  split.
  { intros t.
    rewrite <- Hvc.
    change (PendingAuth.verification_code row)
      with (PendingAuth.verification_code (set_is_approved true row)).
    rewrite (get_pending_auth_by_code_found t _ _ M7 Hin2).
    unfold crud.code_valid. simpl. rewrite andb_false_r. reflexivity. }
  split.
  { intros t. rewrite <- Hac.
    change (PendingAuth.auth_code row)
      with (PendingAuth.auth_code (set_is_approved true row)).
    rewrite (get_pending_auth_by_auth_code_found t _ _ M8 Hin2).
    unfold crud.auth_code_valid. simpl. rewrite Hused, Hexp. reflexivity. }
  set (rows3 := map (fun r => if p r then set_is_used true r else r) rows2).
  exists (with_pending_auth (with_pending_auth st1 rows2) rows3).
  assert (W3 : store_wf (with_pending_auth (with_pending_auth st1 rows2) rows3)).
  { apply (apply_mutation_wf (MMarkPendingAuthUsed (PendingAuth.id row))
             (with_pending_auth st1 rows2)); [reflexivity|exact W2]. }
  assert (Hin3 : In (set_is_used true (set_is_approved true row)) rows3).
  { apply in_update; [exact Hin2|]. unfold p. apply Z.eqb_refl. }
  pose proof W3 as (_ & _ & _ & _ & _ & _ & K7 & K8 & _).
  split.
  { unfold crud.mark_pending_auth_used, update_where.
    change (pending_auth (with_pending_auth st1 rows2)) with rows2.
    change (fun r => Z.eqb (PendingAuth.id r) (PendingAuth.id row))
      with (fun r => Z.eqb (PendingAuth.id r)
                           (PendingAuth.id (set_is_approved true row))).
    rewrite (filter_unique PendingAuth.id Z.eqb Zeqb_iff rows2
               (set_is_approved true row) M6 Hin2).
    reflexivity. }
  split.
  { intros t. rewrite <- Hvc.
    change (PendingAuth.verification_code row)
      with (PendingAuth.verification_code
              (set_is_used true (set_is_approved true row))).
    rewrite (get_pending_auth_by_code_found t _ _ K7 Hin3). reflexivity. }
  { intros t. rewrite <- Hac.
    change (PendingAuth.auth_code row)
      with (PendingAuth.auth_code (set_is_used true (set_is_approved true row))).
    rewrite (get_pending_auth_by_auth_code_found t _ _ K8 Hin3).
    reflexivity. }
Qed.

Lemma pending_auth_lifecycle_witness :
  crud.get_pending_auth_by_code (timedelta_seconds 299) "K7M3Q2" true
                                Scenario.store_created
  = Ok (Some (Scenario.request "openid email" 0 0 false false),
        Scenario.store_created).
Proof.
  destruct (pending_auth_lifecycle 0 0 "K7M3Q2" "AC" "demo" "https://rp/cb"
              "openid email" 0 0 (Some "ST") None None None None 300
              (Scenario.store_with [Scenario.alice; Scenario.bob] [] [])
              (Scenario.request "openid email" 0 0 false false)
              Scenario.store_created ltac:(decide_wf) eq_refl) as (H & _).
  exact (H (timedelta_seconds 299)).
Defined.

(** X3. A token row created by [create_oauth_token] is found by its access
    token until that expires, and by its refresh token only when a non-zero
    refresh lifetime was given, until that expires; once revoked it is found
    by neither. *)
Theorem oauth_token_lifecycle now a cid bid uin scope exp rtok rexp st row st1 :
  store_wf st ->
  crud.create_oauth_token now a cid bid uin scope exp rtok rexp st
  = Ok (row, st1) ->
  (forall t, crud.get_token_by_access_token t a true st1
             = Ok (if t <? now + timedelta_seconds exp then Some row else None,
                   st1))
  /\ (forall t k, rtok = Some k ->
        crud.get_token_by_refresh_token t k true st1
        = Ok (match rexp with
              | Some n => if negb (n =? 0) && (t <? now + timedelta_seconds n)
                          then Some row else None
              | None => None
              end, st1))
  /\ exists st2,
       crud.revoke_token (OAuthToken.id row) st1 = Ok (true, st2)
       /\ (forall t, crud.get_token_by_access_token t a true st2 = Ok (None, st2))
       /\ (forall t k, rtok = Some k ->
             crud.get_token_by_refresh_token t k true st2 = Ok (None, st2)).
Proof.
  intros W Hc.
  assert (W1 : store_wf st1).
  { apply (apply_mutation_wf
             (MCreateOAuthToken now a cid bid uin scope exp rtok rexp) st);
      [|exact W].
    simpl. unfold forget. rewrite Hc. reflexivity. }
  unfold crud.create_oauth_token in Hc.
  match type of Hc with (if ?c then _ else _) = _ => destruct c end;
    [discriminate|].
  injection Hc as Hrow Hst1.
  assert (Hin : In row (oauth_token st1)).
  { rewrite <- Hst1. simpl. apply in_or_app. right. left. exact Hrow. }
  assert (Ha : OAuthToken.access_token row = a) by (rewrite <- Hrow; reflexivity).
  assert (Hr : OAuthToken.refresh_token row = rtok) by (rewrite <- Hrow; reflexivity).
  assert (Hrev : OAuthToken.is_revoked row = false) by (rewrite <- Hrow; reflexivity).
  assert (Hae : OAuthToken.access_token_expires_at row = now + timedelta_seconds exp)
    by (rewrite <- Hrow; reflexivity).
  assert (Hre : OAuthToken.refresh_token_expires_at row
                = match rexp with
                  | Some n => if Z.eqb n 0 then None
                              else Some (now + timedelta_seconds n)
                  | None => None
                  end) by (rewrite <- Hrow; reflexivity).
  pose proof W1 as (_ & _ & _ & _ & _ & _ & _ & _ & _ & N10 & N11 & N12).
  split.
  { intros t. rewrite <- Ha, (get_token_by_access_token_valid t st1 row N11 Hin).
    unfold crud.access_valid. rewrite Hrev, Hae. reflexivity. }
  split.
  { intros t k Hk. rewrite Hk in Hr.
    rewrite (get_token_by_refresh_token_valid t st1 row k N12 Hin Hr).
    unfold crud.refresh_valid. rewrite Hrev, Hre.
    destruct rexp as [n|]; [|reflexivity].
    destruct (Z.eqb n 0); reflexivity. }
  set (rows2 := map (fun r => if Z.eqb (OAuthToken.id r) (OAuthToken.id row)
                              then set_is_revoked true r else r)
                    (oauth_token st1)).
  exists (with_oauth_token st1 rows2).
  assert (W2 : store_wf (with_oauth_token st1 rows2)).
  { apply (apply_mutation_wf (MRevokeToken (OAuthToken.id row)) st1);
      [reflexivity|exact W1]. }
  assert (Hin2 : In (set_is_revoked true row) rows2).
  { apply (in_update (fun r => Z.eqb (OAuthToken.id r) (OAuthToken.id row)));
      [exact Hin|]. apply Z.eqb_refl. }
  pose proof W2 as (_ & _ & _ & _ & _ & _ & _ & _ & _ & _ & M11 & M12).
  split.
  { unfold crud.revoke_token, update_where.
    rewrite (filter_unique OAuthToken.id Z.eqb Zeqb_iff _ row N10 Hin).
    reflexivity. }
  split.
  { intros t. rewrite <- Ha.
    change (OAuthToken.access_token row)
      with (OAuthToken.access_token (set_is_revoked true row)).
    rewrite (get_token_by_access_token_valid t _ _ M11 Hin2). reflexivity. }
  { intros t k Hk. rewrite Hk in Hr.
    rewrite (get_token_by_refresh_token_valid t _ (set_is_revoked true row) k
               M12 Hin2 Hr). reflexivity. }
Qed.

Lemma oauth_token_lifecycle_witness :
  crud.get_token_by_refresh_token 0 "R1" true
    (Scenario.store_with [Scenario.alice; Scenario.bob] []
       [{| OAuthToken.id := 1; OAuthToken.access_token := "A1";
           OAuthToken.refresh_token := Some "R1";
           OAuthToken.token_type := "Bearer"; OAuthToken.client_id := "demo";
           OAuthToken.bind_user_id := 1; OAuthToken.uin := 10001;
           OAuthToken.scope := "openid"; OAuthToken.created_at := 0;
           OAuthToken.access_token_expires_at := timedelta_seconds 3600;
           OAuthToken.refresh_token_expires_at := None;
           OAuthToken.is_revoked := false |}])
  = Ok (None,
        Scenario.store_with [Scenario.alice; Scenario.bob] []
       [{| OAuthToken.id := 1; OAuthToken.access_token := "A1";
           OAuthToken.refresh_token := Some "R1";
           OAuthToken.token_type := "Bearer"; OAuthToken.client_id := "demo";
           OAuthToken.bind_user_id := 1; OAuthToken.uin := 10001;
           OAuthToken.scope := "openid"; OAuthToken.created_at := 0;
           OAuthToken.access_token_expires_at := timedelta_seconds 3600;
           OAuthToken.refresh_token_expires_at := None;
           OAuthToken.is_revoked := false |}]).
Proof.
  destruct (oauth_token_lifecycle 0 "A1" "demo" 1 10001 "openid" 3600
              (Some "R1") (Some 0)
              (Scenario.store_with [Scenario.alice; Scenario.bob] [] [])
              _ _ ltac:(decide_wf) eq_refl) as (_ & H & _).
  exact (H 0 "R1" eq_refl).
Defined.

(** ** Scopes of a client *)

Lemma validate_scopes_uin (v : list string) : In "uin" (validate_scopes v).
Proof.
  unfold validate_scopes. destruct (str_in "uin" v) eqn:E.
  - apply str_in_In. exact E.
  - left. reflexivity.
Qed.

(** X4. The validator of [allowed_scopes] yields a list that contains uin
    and otherwise exactly the scopes it was given, in their order; applying
    it twice changes nothing more. *)
Theorem validate_scopes_adds_uin (v : list string) :
  In "uin" (validate_scopes v)
  /\ (forall s, In s (validate_scopes v) <-> s = "uin" \/ In s v)
  /\ List.filter (fun s => negb (String.eqb s "uin")) (validate_scopes v)
     = List.filter (fun s => negb (String.eqb s "uin")) v
  /\ validate_scopes (validate_scopes v) = validate_scopes v.
Proof.
  unfold validate_scopes.
  destruct (str_in "uin" v) eqn:E.
  - pose proof (proj1 (str_in_In "uin" v) E) as Hin. rewrite E.
    split; [exact Hin|]. split; [|split; reflexivity].
    intros s. split; [auto|]. intros [->|H]; auto.
  - split; [left; reflexivity|]. split; [|split; reflexivity].
    intros s. split.
    + intros [<-|H]; auto.
    + intros [->|H]; [left|right]; auto.
Qed.

Section Scopes.
Context {rt : PyRuntime}.

Lemma find_none_forall {A} (p : A -> bool) (l : list A) :
  List.find p l = None <-> forall x, In x l -> p x = false.
Proof.
  split.
  - intros H x Hx. exact (find_none p l H x Hx).
  - induction l as [|a l IH]; simpl; [reflexivity|].
    intros H. rewrite (H a (or_introl eq_refl)). apply IH.
    intros x Hx. apply H. right. exact Hx.
Qed.

Lemma validate_scope_true (requested_scope : string) (client : OAuthClient.t) :
  fst (validate_scope requested_scope client) = true
  <-> forall s, In s (str_split requested_scope) ->
                In s (OAuthClient.allowed_scopes client).
Proof.
  unfold validate_scope.
  destruct (List.find _ (str_split requested_scope)) as [s|] eqn:F; simpl.
  - split; [discriminate|]. intros H. exfalso.
    apply find_some in F. destruct F as [Hin Hs].
    apply negb_true_iff in Hs.
    specialize (H s Hin). apply str_in_In in H. congruence.
  - split; [|reflexivity]. intros _ s Hin.
    pose proof (proj1 (find_none_forall _ _) F s Hin) as Hs.
    apply negb_false_iff in Hs. apply str_in_In. exact Hs.
Qed.

(** X5. [validate_scope] accepts a request exactly when every requested
    scope is one of the client's allowed scopes (so the empty request is
    accepted); when it rejects, the error names a requested scope that is
    not allowed, and every scope requested before that one is allowed. *)
Theorem validate_scope_subset (requested_scope : string) (client : OAuthClient.t) :
  let scopes := str_split requested_scope in
  let allowed := OAuthClient.allowed_scopes client in
  (validate_scope requested_scope client = (true, None)
   <-> forall s, In s scopes -> In s allowed)
  /\ (fst (validate_scope requested_scope client) = false ->
      exists before s after,
        scopes = before ++ s :: after
        /\ ~ In s allowed
        /\ (forall s', In s' before -> In s' allowed)
        /\ snd (validate_scope requested_scope client)
           = Some ("scope '" +:+ s +:+ "' not allowed"))
  /\ (scopes = [] -> validate_scope requested_scope client = (true, None))
  /\ (forall v, allowed = validate_scopes v -> scopes = ["uin"] ->
        validate_scope requested_scope client = (true, None)).
Proof.
  intros scopes allowed. unfold validate_scope. fold scopes. fold allowed.
  split; [|split; [|split]].
  - destruct (List.find _ scopes) as [s|] eqn:F.
    + split; [discriminate|]. intros H. exfalso.
      apply find_some in F. destruct F as [Hin Hs].
      apply negb_true_iff in Hs.
      specialize (H s Hin). apply str_in_In in H. congruence.
    + split; [|reflexivity]. intros _ s Hin.
      pose proof (proj1 (find_none_forall _ _) F s Hin) as Hs.
      apply negb_false_iff in Hs. apply str_in_In. exact Hs.
  - destruct (List.find _ scopes) as [s|] eqn:F; [|discriminate]. intros _.
    clear - F. induction scopes as [|a l IH]; [discriminate|].
    simpl in F. destruct (negb (str_in a allowed)) eqn:Ea.
    + injection F as <-. exists [], a, l. repeat split.
      * intros H. apply str_in_In in H. apply negb_true_iff in Ea. congruence.
      * intros s' [].
    + destruct (IH F) as (before & s0 & after & -> & Hn & Hb & Hm).
      exists (a :: before), s0, after. repeat split; auto.
      intros s' [<-|H]; [|auto].
      apply negb_false_iff in Ea. apply str_in_In. exact Ea.
  - intros ->. reflexivity.
  - intros v -> ->. simpl.
    rewrite (proj2 (str_in_In "uin" (validate_scopes v))); [reflexivity|].
    apply validate_scopes_uin.
Qed.

End Scopes.

Lemma validate_scope_subset_witness :
  validate_scope "openid email" Scenario.demo = (true, None).
Proof.
  apply (proj1 (validate_scope_subset "openid email" Scenario.demo)).
  intros s Hs. vm_compute in Hs. vm_compute.
  destruct Hs as [<-|[<-|[]]]; tauto.
Defined.

(** ** Verification codes *)

Lemma string_length_of_list (l : list ascii) :
  String.length (string_of_list_ascii l) = length l.
Proof. induction l; simpl; congruence. Qed.

Lemma secrets_choice_alphabet r :
  exists c, secrets_choice verification_alphabet r = String c EmptyString
            /\ code_char c = true.
Proof.
  unfold secrets_choice.
  assert (Hlt : (r mod String.length verification_alphabet < 32)%nat).
  { apply Nat.mod_upper_bound. discriminate. }
  assert (Hall : forallb (fun k => match String.get k verification_alphabet with
                                   | Some c => code_char c
                                   | None => false
                                   end) (seq 0 32) = true) by (vm_compute; reflexivity).
  rewrite forallb_forall in Hall.
  specialize (Hall (r mod String.length verification_alphabet)%nat).
  destruct (String.get _ verification_alphabet) as [c|].
  - exists c. split; [reflexivity|]. apply Hall. apply in_seq. lia.
  - exfalso. assert (false = true); [|discriminate]. apply Hall. apply in_seq. lia.
Qed.

Lemma concat_singletons (l : list ascii) :
  String.concat "" (map (fun c => String c EmptyString) l)
  = string_of_list_ascii l.
Proof.
  induction l as [|a [|b l] IH]; [reflexivity|reflexivity|].
  change (String.concat "" (map (fun c => String c EmptyString) (a :: b :: l)))
    with (String a (String.concat ""
                      (map (fun c => String c EmptyString) (b :: l)))).
  rewrite IH. reflexivity.
Qed.

Lemma choices_chars (random : nat -> nat) (idx : list nat) :
  exists cs,
    map (fun i => secrets_choice verification_alphabet (random i)) idx
    = map (fun c => String c EmptyString) cs
    /\ length cs = length idx
    /\ forallb code_char cs = true.
Proof.
  induction idx as [|i idx (cs & E & L & F)].
  - exists []. repeat split.
  - destruct (secrets_choice_alphabet (random i)) as (c & Ec & Hc).
    exists (c :: cs). simpl. rewrite Ec, E, L, Hc, F. repeat split.
Qed.

(** X6. A verification code has as many characters as configured (none for
    a length below one), each taken from the alphabet of the generator:
    never 0, 1, I or O, and never a character that upper-casing would change,
    so the code typed as shown is the code looked up by [auth]. *)
Theorem generate_verification_code_alphabet (n : Z) (random : nat -> nat) :
  let code := generate_verification_code n random in
  String.length code = Z.to_nat n
  /\ forallb code_char (list_ascii_of_string code) = true
  /\ AsciiRuntime.map_string AsciiRuntime.upper_char code = code.
Proof.
  intros code. unfold code, generate_verification_code.
  destruct (choices_chars random (seq 0 (Z.to_nat n))) as (cs & E & L & F).
  rewrite E, concat_singletons, string_length_of_list, L, length_seq.
  rewrite list_ascii_of_string_of_list_ascii.
  split; [reflexivity|]. split; [exact F|].
  unfold AsciiRuntime.map_string. rewrite list_ascii_of_string_of_list_ascii.
  f_equal. clear - F. induction cs as [|c cs IH]; [reflexivity|].
  simpl in F. apply andb_true_iff in F. destruct F as [Hc F].
  simpl. rewrite (IH F). f_equal.
  unfold code_char in Hc. apply andb_true_iff in Hc. destruct Hc as [_ Hc].
  apply Ascii.eqb_eq in Hc. exact Hc.
Qed.

Lemma validate_scopes_adds_uin_witness :
  In "openid" (validate_scopes ["openid"]).
Proof.
  apply (proj2 (proj1 (proj2 (validate_scopes_adds_uin ["openid"])) "openid")).
  right. left. reflexivity.
Defined.

(** ** utils/security.py: redirect URIs *)

Lemma prefix_split (s1 s2 : string) :
  String.prefix s1 s2 = true -> exists rest, s2 = s1 +:+ rest.
Proof.
  revert s2. induction s1 as [|a s1 IH]; intros s2 H.
  - exists s2. reflexivity.
  - destruct s2 as [|b s2]; [discriminate|]. simpl in H.
    destruct (Ascii.ascii_dec a b) as [<-|]; [|discriminate].
    destruct (IH s2 H) as (rest & ->). exists rest. reflexivity.
Qed.

Lemma http_has_scheme_separator (uri : string) :
  String.prefix "http://" uri || String.prefix "https://" uri = true ->
  str_contains "://" uri = true.
Proof.
  intros H. apply orb_true_iff in H.
  destruct H as [H|H]; apply prefix_split in H; destruct H as (rest & ->);
    destruct rest; vm_compute; reflexivity.
Qed.

Lemma none_exists {A} (f : A -> bool) (l : list A) :
  negb (existsb f l) = true <-> forall x, In x l -> f x = false.
Proof.
  rewrite negb_true_iff. split.
  - intros H x Hx. destruct (f x) eqn:E; [|reflexivity].
    assert (existsb f l = true); [|congruence].
    apply existsb_exists. exists x. auto.
  - intros H. destruct (existsb f l) eqn:E; [|reflexivity].
    apply existsb_exists in E. destruct E as (x & Hx & Hf).
    rewrite (H x Hx) in Hf. discriminate.
Qed.

Section RedirectUri.
Context {rt : PyRuntime}.

(** X7. [validate_redirect_uri] accepts exactly the non-empty URIs that
    contain "://" and whose lower-cased text contains none of the dangerous
    patterns; the test for the prefixes http:// and https:// adds nothing. *)
Theorem validate_redirect_uri_accepts (uri : string) :
  security.validate_redirect_uri uri = true
  <-> uri <> ""
      /\ str_contains "://" uri = true
      /\ forall p, In p security.dangerous_patterns ->
                   str_contains p (str_lower uri) = false.
Proof.
  unfold security.validate_redirect_uri.
  destruct (String.eqb uri "") eqn:E0.
  { apply String.eqb_eq in E0. split; [discriminate|]. intros (H & _). contradiction. }
  apply String.eqb_neq in E0.
  destruct (String.prefix "http://" uri || String.prefix "https://" uri) eqn:Ep.
  - pose proof (http_has_scheme_separator uri Ep) as Hc.
    cbn [negb andb]. rewrite none_exists. tauto.
  - cbn [negb andb]. destruct (str_contains "://" uri) eqn:Hc; cbn [negb].
    + rewrite none_exists. tauto.
    + split; [discriminate|]. intros (_ & H & _). discriminate.
Qed.

End RedirectUri.

(** ** SHA-256 digests: lengths *)

Lemma be_bytes_length k x : length (SHA256.be_bytes k x) = k.
Proof. induction k; simpl; congruence. Qed.

Lemma flat_map_length_const {A B} (f : A -> list B) (n : nat) (l : list A) :
  (forall x, length (f x) = n) -> length (flat_map f l) = (n * length l)%nat.
Proof.
  intros H. induction l as [|a l IH]; simpl; [lia|].
  rewrite length_app, H, IH. lia.
Qed.

Lemma compress_fold_length (blocks : list (list N)) : forall h,
  length h = 8%nat -> length (fold_left SHA256.compress blocks h) = 8%nat.
Proof.
  induction blocks as [|b blocks IH]; intros h Hh; [exact Hh|].
  simpl. apply IH. reflexivity.
Qed.

Lemma digest_length (msg : list N) : length (SHA256.digest msg) = 32%nat.
Proof.
  unfold SHA256.digest.
  rewrite (flat_map_length_const _ 4%nat) by (intros x; apply be_bytes_length).
  rewrite compress_fold_length; reflexivity.
Qed.

(** X8. [hash_token] returns 64 characters, each a lower-case hexadecimal
    digit, whatever the token. *)
Theorem hash_token_hex (token : string) :
  String.length (security.hash_token token) = 64%nat
  /\ forallb (fun c => existsb (Ascii.eqb c)
                               (list_ascii_of_string "0123456789abcdef"))
             (list_ascii_of_string (security.hash_token token)) = true.
Proof.
  unfold security.hash_token, security.hex.
  rewrite string_length_of_list, list_ascii_of_string_of_list_ascii.
  split.
  - rewrite (flat_map_length_const _ 2%nat) by reflexivity.
    rewrite digest_length. reflexivity.
  - assert (Hd : forall n, existsb (Ascii.eqb (security.hex_digit n))
                             (list_ascii_of_string "0123456789abcdef") = true).
    { intros n. unfold security.hex_digit.
      destruct (String.get (N.to_nat n) "0123456789abcdef") as [c|] eqn:G;
        [|reflexivity].
      apply string_get_in in G. apply existsb_exists. exists c.
      split; [exact G|]. apply Ascii.eqb_refl. }
    induction (SHA256.digest (bytes_of_str token)) as [|b l IH]; [reflexivity|].
    cbn [flat_map app forallb]. rewrite !Hd, IH. reflexivity.
Qed.

Example hash_token_abc :
  security.hash_token "abc"
  = "ba7816bf8f01cfea414140de5dae2223b00361a396177a9cb410ff61f20015ad".
Proof. vm_compute. reflexivity. Qed.

(** ** PKCE: the length of an S256 challenge *)

Lemma sextet_not_pad (i : N) : (i < 64)%N -> Base64.sextet i <> "="%char.
Proof.
  intros Hi.
  assert (Hall : forallb (fun k => negb (Ascii.eqb (Base64.sextet (N.of_nat k)) "="%char))
                         (seq 0 64) = true) by (vm_compute; reflexivity).
  rewrite forallb_forall in Hall.
  specialize (Hall (N.to_nat i)). rewrite N2Nat.id in Hall.
  intros E. rewrite E in Hall. 
  assert (negb (Ascii.eqb "=" "=") = true); [|discriminate].
  apply Hall. apply in_seq. lia.
Qed.

Lemma rstrip_eq_app (l r : list ascii) :
  Base64.rstrip_eq r <> [] -> Base64.rstrip_eq (l ++ r) = l ++ Base64.rstrip_eq r.
Proof.
  intros Hr. induction l as [|a l IH]; [reflexivity|].
  change (Base64.rstrip_eq ((a :: l) ++ r))
    with (match Base64.rstrip_eq (l ++ r) with
          | [] => if Ascii.eqb a "="%char then [] else [a]
          | _ :: _ => a :: Base64.rstrip_eq (l ++ r)
          end).
  rewrite IH. destruct (l ++ Base64.rstrip_eq r) eqn:E.
  - apply app_eq_nil in E. tauto.
  - simpl. rewrite E. reflexivity.
Qed.

Lemma urlsafe_nopad_32 (bs : list N) :
  length bs = 32%nat -> String.length (Base64.urlsafe_nopad bs) = 43%nat.
Proof.
  intros H.
  do 32 (destruct bs as [|? bs]; [discriminate|]).
  destruct bs; [|discriminate]. clear H.
  unfold Base64.urlsafe_nopad, Base64.rstrip_pad, Base64.urlsafe_b64encode.
  rewrite list_ascii_of_string_of_list_ascii, string_length_of_list.
  rewrite <- (firstn_skipn 42 (Base64.encode _)).
  cbn [Base64.encode firstn skipn].
  rewrite rstrip_eq_app.
  - cbn [Base64.rstrip_eq fold_right].
    match goal with
    | |- context [Ascii.eqb (Base64.sextet ?x) _] =>
        destruct (Ascii.eqb (Base64.sextet x) "="%char) eqn:E
    end.
    + exfalso. apply Ascii.eqb_eq in E. revert E. apply sextet_not_pad.
      rewrite N.shiftl_mul_pow2.
      change 15%N with (N.ones 4). rewrite N.land_ones.
      match goal with |- (?a mod _ * _ < _)%N =>
        pose proof (N.mod_upper_bound a (2 ^ 4)%N ltac:(discriminate)) end.
      change (2 ^ 4)%N with 16%N in *. change (2 ^ 2)%N with 4%N. lia.
    + rewrite length_app. reflexivity.
  - cbn [Base64.rstrip_eq fold_right].
    match goal with
    | |- context [Ascii.eqb (Base64.sextet ?x) _] =>
        destruct (Ascii.eqb (Base64.sextet x) "="%char) eqn:E
    end.
    + exfalso. apply Ascii.eqb_eq in E. revert E. apply sextet_not_pad.
      rewrite N.shiftl_mul_pow2.
      change 15%N with (N.ones 4). rewrite N.land_ones.
      match goal with |- (?a mod _ * _ < _)%N =>
        pose proof (N.mod_upper_bound a (2 ^ 4)%N ltac:(discriminate)) end.
      change (2 ^ 4)%N with 16%N in *. change (2 ^ 2)%N with 4%N. lia.
    + discriminate.
Qed.

(** X9. An S256 challenge that verifies has 43 ASCII characters: it is the
    unpadded Base64 text of a 32-byte digest. No verifier matches a
    challenge of another length. *)
Theorem verify_pkce_S256_length (code_verifier code_challenge : string) :
  verify_pkce code_verifier code_challenge "S256" = Ok true ->
  String.length code_challenge = 43%nat /\ is_ascii code_challenge = true.
Proof.
  intros H. apply verify_pkce_S256 in H. destruct H as [_ <-].
  split; [|apply urlsafe_nopad_ascii].
  apply urlsafe_nopad_32, digest_length.
Qed.

Lemma verify_pkce_S256_length_witness :
  String.length "E9Melhoa2OwvFrEMTJguCHaoeK1t8URWbuGJSstw-cM" = 43%nat.
Proof.
  apply (verify_pkce_S256_length "dBjftJeZ4CVP-mB92K27uhbUJU1p1r_wW1gFWFOEjXk"
           "E9Melhoa2OwvFrEMTJguCHaoeK1t8URWbuGJSstw-cM").
  vm_compute. reflexivity.
Defined.

Lemma validate_redirect_uri_accepts_witness :
  security.validate_redirect_uri "https://rp/cb" = true.
Proof.
  apply (proj2 (validate_redirect_uri_accepts "https://rp/cb")).
  split; [discriminate|]. split; [vm_compute; reflexivity|].
  intros p Hp. vm_compute in Hp.
  destruct Hp as [<-|[<-|[<-|[<-|[<-|[<-|[]]]]]]]; vm_compute; reflexivity.
Defined.

(** ** utils/security.py: the rate limiter *)

Lemma filter_length_le {A} (p : A -> bool) (l : list A) :
  (length (List.filter p l) <= length l)%nat.
Proof.
  induction l as [|a l IH]; simpl; [lia|]. destruct (p a); simpl; lia.
Qed.

Section RateLimiterProperties.
Context {fl : security.PyFloat}.

Lemma bucket_cleanup now key (self : security.RateLimiter) :
  exists p, security.bucket key (security._cleanup now self)
            = List.filter p (security.bucket key self).
Proof.
  unfold security._cleanup, security.bucket.
  destruct (security.flt _ _).
  - exists (fun _ => true). symmetry. apply forallb_filter_id.
    apply forallb_forall. reflexivity.
  - exists (fun t => security.flt (security.fsub now t) (security.float_of_int 3600)).
    simpl. rewrite lookup_omap.
    destruct (security._storage self !! key) as [l|]; simpl; [|reflexivity].
    destruct (List.filter _ l); reflexivity.
Qed.


Lemma check_bounded now0 now key (rule : security.RateLimitRule.t)
    (self : security.RateLimiter) :
  Z.of_nat (length (security.bucket key self))
  <= security.RateLimitRule.max_requests rule ->
  Z.of_nat (length (security.bucket key
                      (snd (security.check now0 now key rule self))))
  <= security.RateLimitRule.max_requests rule.
Proof.
  intros H. unfold security.check.
  fold (security.bucket key (security._cleanup now0 self)).
  fold (security.in_window now0 now key rule self).
  destruct (bucket_cleanup now0 key self) as (p & Hp).
  assert (Hk : (length (security.in_window now0 now key rule self)
                <= length (security.bucket key self))%nat).
  { unfold security.in_window. rewrite Hp.
    etransitivity; [apply filter_length_le|apply filter_length_le]. }
  destruct (Z.of_nat (length (security.in_window now0 now key rule self))
            >=? security.RateLimitRule.max_requests rule)
    eqn:E; unfold security.bucket; simpl; rewrite lookup_insert_eq; simpl.
  - lia.
  - destruct (Z.geb_spec
                (Z.of_nat (length (security.in_window now0 now key rule self)))
                (security.RateLimitRule.max_requests rule)); [discriminate|].
    rewrite length_app. simpl. lia.
Qed.

(** X11. Whatever the clock readings, successive calls of [check] for a key
    never let its entry grow beyond [max_requests] request times: a limiter
    that starts empty remembers at most that many admitted requests. *)
Theorem checks_bounded times key (rule : security.RateLimitRule.t)
    (self : security.RateLimiter) :
  Z.of_nat (length (security.bucket key self))
  <= security.RateLimitRule.max_requests rule ->
  Z.of_nat (length (security.bucket key (security.checks times key rule self)))
  <= security.RateLimitRule.max_requests rule.
Proof.
  unfold security.checks. revert self.
  induction times as [|t times IH]; intros self H; [exact H|].
  simpl. apply IH. apply check_bounded. exact H.
Qed.

End RateLimiterProperties.


Lemma checks_bounded_witness :
  Z.of_nat (length (security.bucket "token:10.0.0.1"
                      (security.checks (fl := security.IntClock.seconds) [(1, 1); (2, 2); (3, 3)] "token:10.0.0.1"
                         {| security.RateLimitRule.max_requests := 2;
                            security.RateLimitRule.window_seconds := 60 |}
                         (security.new_limiter (fl := security.IntClock.seconds) 0))))
  <= 2.
Proof.
  apply (checks_bounded (fl := security.IntClock.seconds)
           [(1, 1); (2, 2); (3, 3)] "token:10.0.0.1"
           {| security.RateLimitRule.max_requests := 2;
              security.RateLimitRule.window_seconds := 60 |}
           (security.new_limiter (fl := security.IntClock.seconds) 0)).
  vm_compute. discriminate.
Defined.

(** ** page/oauth_routes.py: the authorization request *)

Lemma bind_lift_ok {A B} (a : A) (k : A -> M B) : bind (lift (Ok a)) k = k a.
Proof. reflexivity. Qed.

Lemma bind_ret {A B} (a : A) (k : A -> M B) : bind (ret a) k = k a.
Proof. reflexivity. Qed.

(** A branch that answers without touching the store. *)
Ltac refused_request H :=
  unfold ret in H; simpl in H; rewrite H; cbn [fst snd];
  split; [intros _; reflexivity|];
  split; [intros ? ? ? H'; discriminate H'|];
  split; [|intros ? ?; discriminate].

Section AuthorizeEndpoint.
Context {rt : PyRuntime}.
Variable config : Config.t.
Variable urlencode : list (string * string) -> string.
Variable verification_code_length : Z.

Lemma validate_client_redirect cid uri :
  validate_client config cid None (Some uri)
  = match find_client config cid with
    | None => Ok (false, None, Some "invalid_client")
    | Some c =>
        if _validate_redirect_uri uri (OAuthClient.redirect_uris c)
        then Ok (true, Some c, None)
        else Ok (false, None, Some "invalid_redirect_uri")
    end.
Proof. unfold validate_client. destruct (find_client config cid); reflexivity. Qed.

Lemma validate_scope_shape scope client :
  validate_scope scope client = (true, None)
  \/ exists e, validate_scope scope client = (false, Some e).
Proof.
  unfold validate_scope. destruct (List.find _ _); eauto.
Qed.

Lemma pkce_method_ok (cc ccm : option string) :
  truthy_str cc && negb (match ccm with
                         | Some m => str_in m ["plain"; "S256"]
                         | None => false
                         end) = false
  <-> (truthy_str cc = true -> ccm = Some "plain" \/ ccm = Some "S256").
Proof.
  destruct (truthy_str cc); cbn [andb]; [|split; [discriminate|reflexivity]].
  rewrite negb_false_iff. destruct ccm as [m|].
  - rewrite str_in_In. split.
    + intros [<-|[<-|[]]] _; auto.
    + intros H. destruct (H eq_refl) as [[= ->]|[= ->]]; simpl; auto.
  - split; [discriminate|]. intros H. destruct (H eq_refl); discriminate.
Qed.

Lemma create_pending_auth_run now1 now2 vc ac cid ruri scope state cc ccm ip ua ttl st :
  crud.create_pending_auth now1 now2 vc ac cid ruri scope 0 0 state cc ccm ip ua
                           ttl st
  = if taken vc (map PendingAuth.verification_code (pending_auth st))
       || taken ac (map PendingAuth.auth_code (pending_auth st))
    then Raise IntegrityError
    else
      let row := requested_row now1 (now2 + timedelta_seconds ttl) vc ac cid ruri
                   scope state cc ccm ip ua (pending_auth st) in
      Ok (row, with_pending_auth st (pending_auth st ++ [row])).
Proof. reflexivity. Qed.

(** X12. [GET /authorize] stores a request only together with the consent
    page, and only when the redirect URI passes the filter, the response
    type is code, the client is registered with that redirect URI, every
    scope is allowed to it and a PKCE challenge comes with the method plain
    or S256. Such a request is stored unclaimed, unapproved and unused, under
    the code shown on the page, unless one of its codes is already in the
    table (then the answer is 500). Every other answer leaves the store
    as it was, and the exception for an empty redirect URI is never
    raised. *)
Theorem authorize_stores_valid_requests
    limiter_check utcnow random token_urlsafe client_host user_agent
    client_id redirect_uri response_type scope
    state code_challenge code_challenge_method nonce st :
  let out := get_db_authorize
               (authorize config urlencode verification_code_length
                  limiter_check utcnow random token_urlsafe client_host
                  user_agent client_id redirect_uri response_type scope state
                  code_challenge code_challenge_method nonce) st in
  let ttl := OAuthProviderConfig.verification_code_expire
               (Config.oauth_provider config) in
  let code := generate_verification_code verification_code_length random in
  let row := requested_row (utcnow 0%nat) (utcnow 1%nat + timedelta_seconds ttl)
               code (token_urlsafe 0%nat) client_id redirect_uri scope state
               code_challenge code_challenge_method client_host user_agent
               (pending_auth st) in
  ((forall name shown minutes, fst out <> ConsentPage name shown minutes) ->
   snd out = st)
  /\ (forall name shown minutes, fst out = ConsentPage name shown minutes ->
        fst limiter_check = true
        /\ shown = code
        /\ snd out = with_pending_auth st (pending_auth st ++ [row])
        /\ exists client,
             name = OAuthClient.name client
             /\ authorize_valid config client_id redirect_uri response_type scope
                  code_challenge code_challenge_method client)
  /\ (forall client,
        fst limiter_check = true ->
        authorize_valid config client_id redirect_uri response_type scope
          code_challenge code_challenge_method client ->
        taken code (map PendingAuth.verification_code (pending_auth st)) = false ->
        taken (token_urlsafe 0%nat)
              (map PendingAuth.auth_code (pending_auth st)) = false ->
        fst out = ConsentPage (OAuthClient.name client) code (ttl / 60))
  /\ (forall detail headers, fst out <> HTTPException 400 detail headers).
Proof.
  intros out ttl code row.
  assert (Hout : out = get_db_authorize
               (authorize config urlencode verification_code_length
                  limiter_check utcnow random token_urlsafe client_host
                  user_agent client_id redirect_uri response_type scope state
                  code_challenge code_challenge_method nonce) st) by reflexivity.
  clearbody out. unfold get_db_authorize, authorize in Hout.
  destruct limiter_check as [allowed retry_after]. simpl fst.
  destruct allowed; cbn [negb] in Hout.
  2:{ refused_request Hout. intros client H. discriminate H. }
  destruct (security.validate_redirect_uri redirect_uri) eqn:Euri; cbn [negb] in Hout.
  2:{ refused_request Hout. intros client _ (H & _). congruence. }
  destruct (String.eqb response_type "code") eqn:Etype; cbn [negb] in Hout.
  2:{ apply String.eqb_neq in Etype.
      assert (Hne : String.eqb redirect_uri "" = false).
      { unfold security.validate_redirect_uri in Euri.
        destruct (String.eqb redirect_uri ""); [discriminate|reflexivity]. }
      rewrite Hne in Hout. refused_request Hout.
      intros client _ (_ & H & _). congruence. }
  apply String.eqb_eq in Etype.
  rewrite validate_client_redirect in Hout.
  destruct (find_client config client_id) as [client|] eqn:Eclient.
  2:{ rewrite bind_lift_ok in Hout. refused_request Hout.
      intros client _ (_ & _ & (H & _) & _). congruence. }
  destruct (_validate_redirect_uri redirect_uri (OAuthClient.redirect_uris client))
    eqn:Eredirect.
  2:{ rewrite bind_lift_ok in Hout. refused_request Hout.
      intros client' _ (_ & _ & (H1 & H2 & _) & _). congruence. }
  rewrite bind_lift_ok in Hout. cbn [negb] in Hout.
  destruct (validate_scope_shape scope client) as [Escope|(e & Escope)];
    rewrite Escope in Hout.
  2:{ refused_request Hout.
      intros client' _ (_ & _ & (H1 & _ & H3) & _).
      assert (client' = client) by congruence. subst client'.
      apply validate_scope_true in H3. rewrite Escope in H3. discriminate. }
  assert (Hscope : forall s, In s (str_split scope) ->
                             In s (OAuthClient.allowed_scopes client)).
  { apply validate_scope_true. rewrite Escope. reflexivity. }
  destruct (truthy_str code_challenge && negb _) eqn:Epkce.
  { refused_request Hout.
    intros client' _ (_ & _ & _ & H).
    pose proof (proj2 (pkce_method_ok _ _) H). congruence. }
  pose proof (proj1 (pkce_method_ok _ _) Epkce) as Hpkce.
  unfold bind in Hout. cbn [negb] in Hout. rewrite create_pending_auth_run in Hout.
  fold code in Hout. fold ttl in Hout.
  destruct (taken code _ || taken (token_urlsafe 0%nat) _) eqn:Etaken.
  { refused_request Hout.
    intros client' _ _ T1 T2. rewrite T1, T2 in Etaken. discriminate. }
  cbv zeta in Hout. fold row in Hout. unfold ret in Hout. rewrite Hout.
  cbn [fst snd].
  split; [intros H; exfalso; eapply H; reflexivity|].
  split.
  { intros name shown minutes [= <- <- <-].
    split; [reflexivity|]. split; [reflexivity|]. split; [reflexivity|].
    exists client. split; [reflexivity|].
    repeat split; auto. }
  split; [|discriminate].
  intros client' _ (_ & _ & (H1 & _) & _) _ _.
  assert (client' = client) by congruence. subst client'. reflexivity.
Qed.

End AuthorizeEndpoint.

Lemma authorize_stores_valid_requests_witness :
  fst (get_db_authorize
         (authorize Scenario.config plain_urlencode 6 (true, None)
            Scenario.utcnow (fun _ => 5%nat) (fun _ => "AC") None None
            "demo" "https://rp/cb" "code" "openid email" (Some "ST")
            None None None)
         (Scenario.store_with [Scenario.alice; Scenario.bob] [] []))
  = ConsentPage "Demo" "777777" 5.
Proof.
  apply (proj1 (proj2 (proj2
           (authorize_stores_valid_requests Scenario.config plain_urlencode 6
              (true, None) Scenario.utcnow (fun _ => 5%nat) (fun _ => "AC")
              None None "demo" "https://rp/cb" "code" "openid email"
              (Some "ST") None None None
              (Scenario.store_with [Scenario.alice; Scenario.bob] [] []))))
           Scenario.demo).
  - reflexivity.
  - split; [vm_compute; reflexivity|]. split; [reflexivity|].
    split; [|discriminate].
    split; [reflexivity|]. split; [vm_compute; reflexivity|].
    intros s Hs. vm_compute in Hs. vm_compute.
    destruct Hs as [<-|[<-|[]]]; tauto.
  - reflexivity.
  - reflexivity.
Defined.

Section AuthorizePending.
Context {rt : PyRuntime}.
Variable config : Config.t.
Variable verification_code_length : Z.

(** X13. [GET /authorize/pending] stores a request exactly when the client
    is registered with the redirect URI and every scope is allowed to it
    (and the two codes are free): neither the response type, nor the filter
    on redirect URIs, nor the PKCE method is looked at, and the challenge and
    its method are stored as given. Every answer other than 200 leaves the
    store as it was. *)
Theorem authorize_pending_stores_requests
    utcnow random token_urlsafe client_host user_agent
    client_id redirect_uri scope state code_challenge code_challenge_method st :
  let out := get_db
               (authorize_pending config verification_code_length utcnow random
                  token_urlsafe client_host user_agent client_id redirect_uri
                  scope state code_challenge code_challenge_method) st in
  let ttl := OAuthProviderConfig.verification_code_expire
               (Config.oauth_provider config) in
  let code := generate_verification_code verification_code_length random in
  let row := requested_row (utcnow 0%nat) (utcnow 1%nat + timedelta_seconds ttl)
               code (token_urlsafe 0%nat) client_id redirect_uri scope state
               code_challenge code_challenge_method client_host user_agent
               (pending_auth st) in
  (JSONResponse.status_code (fst out) <> 200 -> snd out = st)
  /\ (JSONResponse.status_code (fst out) = 200 ->
      snd out = with_pending_auth st (pending_auth st ++ [row])
      /\ JSONResponse.content (fst out) !! "verification_code" = Some (JStr code)
      /\ exists client, client_request_valid config client_id redirect_uri scope
                          client)
  /\ (forall client,
        client_request_valid config client_id redirect_uri scope client ->
        taken code (map PendingAuth.verification_code (pending_auth st)) = false ->
        taken (token_urlsafe 0%nat)
              (map PendingAuth.auth_code (pending_auth st)) = false ->
        JSONResponse.status_code (fst out) = 200
        /\ PendingAuth.code_challenge_method row = code_challenge_method).
Proof.
  intros out ttl code row.
  assert (Hout : out = get_db
               (authorize_pending config verification_code_length utcnow random
                  token_urlsafe client_host user_agent client_id redirect_uri
                  scope state code_challenge code_challenge_method) st)
    by reflexivity.
  clearbody out. unfold get_db, authorize_pending in Hout.
  rewrite validate_client_redirect in Hout.
  destruct (find_client config client_id) as [client|] eqn:Eclient.
  2:{ rewrite bind_lift_ok in Hout. unfold ret in Hout. simpl in Hout.
      rewrite Hout. cbn [fst snd JSONResponse.status_code json_status].
      split; [reflexivity|]. split; [discriminate|].
      intros client (H & _). congruence. }
  destruct (_validate_redirect_uri redirect_uri (OAuthClient.redirect_uris client))
    eqn:Eredirect.
  2:{ rewrite bind_lift_ok in Hout. unfold ret in Hout. simpl in Hout.
      rewrite Hout. cbn [fst snd JSONResponse.status_code json_status].
      split; [reflexivity|]. split; [discriminate|].
      intros client' (H1 & H2 & _). congruence. }
  rewrite bind_lift_ok in Hout. cbn [negb] in Hout.
  destruct (validate_scope_shape scope client) as [Escope|(e & Escope)];
    rewrite Escope in Hout.
  2:{ unfold ret in Hout. simpl in Hout.
      rewrite Hout. cbn [fst snd JSONResponse.status_code json_status].
      split; [reflexivity|]. split; [discriminate|].
      intros client' (H1 & _ & H3).
      assert (client' = client) by congruence. subst client'.
      apply validate_scope_true in H3. rewrite Escope in H3. discriminate. }
  assert (Hscope : forall s, In s (str_split scope) ->
                             In s (OAuthClient.allowed_scopes client)).
  { apply validate_scope_true. rewrite Escope. reflexivity. }
  unfold bind in Hout. cbn [negb] in Hout.
  rewrite create_pending_auth_run in Hout.
  fold code in Hout. fold ttl in Hout.
  destruct (taken code _ || taken (token_urlsafe 0%nat) _) eqn:Etaken.
  { rewrite Hout. cbn [fst snd JSONResponse.status_code internal_server_error].
    split; [reflexivity|]. split; [discriminate|].
    intros client' _ T1 T2. rewrite T1, T2 in Etaken. discriminate. }
  cbv zeta in Hout. fold row in Hout. unfold ret in Hout. rewrite Hout.
  cbn [fst snd JSONResponse.status_code JSONResponse.content json_response].
  split; [intros H; exfalso; apply H; reflexivity|].
  split.
  { intros _. split; [reflexivity|]. split; [reflexivity|].
    exists client. repeat split; auto. }
  intros client' _ _ _. split; reflexivity.
Qed.

End AuthorizePending.

Lemma authorize_pending_stores_requests_witness :
  let out := get_db
               (authorize_pending Scenario.config 6 Scenario.utcnow
                  (fun _ => 5%nat) (fun _ => "AC") None None "demo"
                  "https://rp/cb" "openid email" None (Some "challenge")
                  (Some "S512"))
               (Scenario.store_with [Scenario.alice; Scenario.bob] [] []) in
  JSONResponse.status_code (fst out) = 200
  /\ map PendingAuth.code_challenge_method (pending_auth (snd out))
     = [Some "S512"].
Proof.
  intros out.
  destruct (proj2 (proj2
             (authorize_pending_stores_requests Scenario.config 6
                Scenario.utcnow (fun _ => 5%nat) (fun _ => "AC") None None
                "demo" "https://rp/cb" "openid email" None (Some "challenge")
                (Some "S512")
                (Scenario.store_with [Scenario.alice; Scenario.bob] [] [])))
             Scenario.demo) as [H200 _].
  - split; [reflexivity|]. split; [vm_compute; reflexivity|].
    intros s Hs. vm_compute in Hs. vm_compute.
    destruct Hs as [<-|[<-|[]]]; tauto.
  - reflexivity.
  - reflexivity.
  - split; [exact H200|]. vm_compute. reflexivity.
Defined.

(** ** page/oauth_routes.py: polling, revocation and userinfo *)

Lemma filter_key_cases {A} (key : A -> string) (l : list A) (k : string) :
  NoDup (map key l) ->
  (List.filter (fun x => String.eqb (key x) k) l = []
   /\ forall r, In r l -> key r <> k)
  \/ (exists r, In r l /\ key r = k
                /\ List.filter (fun x => String.eqb (key x) k) l = [r]).
Proof.
  intros Hnd.
  destruct (List.find (fun x => String.eqb (key x) k) l) as [r|] eqn:F.
  - apply find_some in F. destruct F as [Hin Hk]. apply String.eqb_eq in Hk.
    right. exists r. split; [exact Hin|]. split; [exact Hk|].
    rewrite <- Hk. apply (filter_unique key String.eqb Seqb_iff l r Hnd Hin).
  - left. pose proof (find_none _ _ F) as Hn. split.
    + apply filter_none. exact Hn.
    + intros r Hin Hk. specialize (Hn r Hin). apply String.eqb_neq in Hn. tauto.
Qed.

Section Polling.
Context {rt : PyRuntime}.
Variable urlencode : list (string * string) -> string.

(** X14. [GET /authorize/check] never changes the store. It answers 404
    when no request carries the upper-cased code, and otherwise by the
    request alone: 410 once the expiry lies before the clock reading, the
    redirect URL with the authorization code when the request is approved,
    pending otherwise. So the authorization code is given out exactly for an
    approved request whose expiry is not before now, used or not. *)
Theorem authorize_check_discloses utcnow verification_code st :
  store_wf st ->
  let out := get_db (authorize_check urlencode utcnow verification_code) st in
  let k := str_upper verification_code in
  snd out = st
  /\ ((forall r, In r (pending_auth st) -> PendingAuth.verification_code r <> k) ->
      JSONResponse.status_code (fst out) = 404)
  /\ (forall r, In r (pending_auth st) -> PendingAuth.verification_code r = k ->
        fst out = check_answer urlencode (utcnow 0%nat) r)
  /\ (is_Some (JSONResponse.content (fst out) !! "redirect_uri")
      <-> exists r, In r (pending_auth st)
                    /\ PendingAuth.verification_code r = k
                    /\ utcnow 0%nat <= PendingAuth.expires_at r
                    /\ PendingAuth.is_approved r = true).
Proof.
  intros W out k.
  assert (Hout : out = get_db (authorize_check urlencode utcnow verification_code) st)
    by reflexivity.
  clearbody out.
  unfold get_db, authorize_check, bind, crud.get_pending_auth_by_code in Hout.
  fold k in Hout.
  pose proof W as (_ & _ & _ & _ & _ & _ & N7 & _).
  destruct (filter_key_cases PendingAuth.verification_code (pending_auth st) k N7)
    as [[E Hnone]|(r & Hin & Hk & E)]; rewrite E in Hout; simpl in Hout.
  - rewrite Hout. cbn [fst snd].
    split; [reflexivity|]. split; [reflexivity|].
    split; [intros r Hin Hk; exfalso; exact (Hnone r Hin Hk)|].
    split.
    + intros [v Hv]. vm_compute in Hv. discriminate.
    + intros (r & Hin & Hk & _). exfalso. exact (Hnone r Hin Hk).
  - assert (Hans : out = (check_answer urlencode (utcnow 0%nat) r, st)).
    { rewrite Hout. unfold check_answer.
      destruct (PendingAuth.expires_at r <? utcnow 0%nat); [reflexivity|].
      destruct (PendingAuth.is_approved r); reflexivity. }
    clear Hout. rewrite Hans. cbn [fst snd].
    split; [reflexivity|]. split.
    { intros Hn. exfalso. exact (Hn r Hin Hk). }
    split.
    { intros r' Hin' Hk'.
      assert (r' = r); [|subst; reflexivity].
      apply (unique_key PendingAuth.verification_code (pending_auth st));
        auto; congruence. }
    unfold check_answer.
    destruct (PendingAuth.expires_at r <? utcnow 0%nat) eqn:Ee.
    { apply Z.ltb_lt in Ee. split.
      - intros [v Hv]. vm_compute in Hv. discriminate.
      - intros (r' & Hin' & Hk' & Hle & _).
        assert (r' = r); [|subst; lia].
        apply (unique_key PendingAuth.verification_code (pending_auth st));
          auto; congruence. }
    apply Z.ltb_ge in Ee.
    destruct (PendingAuth.is_approved r) eqn:Ea.
    { split.
      - intros _. exists r. auto.
      - intros _. cbn [JSONResponse.content json_response].
        rewrite lookup_insert_ne by discriminate.
        rewrite lookup_singleton_eq. eauto. }
    split.
    + intros [v Hv]. vm_compute in Hv. discriminate.
    + intros (r' & Hin' & Hk' & _ & Ha).
      assert (r' = r); [|subst; congruence].
      apply (unique_key PendingAuth.verification_code (pending_auth st));
        auto; congruence.
Qed.

End Polling.

Lemma authorize_check_discloses_witness :
  get_db (authorize_check plain_urlencode
            (fun _ => timedelta_seconds 300) "k7m3q2")
         Scenario.store_used
  = (json_response {[ "approved" := JBool true;
                      "redirect_uri" := JStr "https://rp/cb?code=AC&state=ST" ]},
     Scenario.store_used).
Proof.
  destruct (authorize_check_discloses plain_urlencode
              (fun _ => timedelta_seconds 300) "k7m3q2" Scenario.store_used
              ltac:(decide_wf)) as (Hst & _ & Hans & _).
  rewrite (surjective_pairing (get_db _ _)), Hst.
  rewrite (Hans (Scenario.request "openid email" 10001 1 true true)
                (or_introl eq_refl) eq_refl).
  reflexivity.
Defined.

Lemma filter_opt_cases {A} (key : A -> option string) (l : list A) (k : string) :
  NoDup (non_null (map key l)) ->
  (List.filter (fun x => match key x with
                         | Some t => String.eqb t k
                         | None => false
                         end) l = []
   /\ forall r, In r l -> key r <> Some k)
  \/ (exists r, In r l /\ key r = Some k
                /\ List.filter (fun x => match key x with
                                         | Some t => String.eqb t k
                                         | None => false
                                         end) l = [r]).
Proof.
  intros Hnd.
  destruct (List.find (fun x => match key x with
                                | Some t => String.eqb t k
                                | None => false
                                end) l) as [r|] eqn:F.
  - apply find_some in F. destruct F as [Hin Hk].
    destruct (key r) as [t|] eqn:Er; [|discriminate].
    apply String.eqb_eq in Hk. subst t.
    right. exists r. split; [exact Hin|]. split; [exact Er|].
    apply (filter_unique_opt key l r k Hnd Hin Er).
  - left. pose proof (find_none _ _ F) as Hn. split.
    + apply filter_none. exact Hn.
    + intros r Hin Hk. specialize (Hn r Hin). cbv beta in Hn. rewrite Hk in Hn.
      rewrite String.eqb_refl in Hn. discriminate.
Qed.

Lemma access_retired_step a rows rows' :
  tokens_step rows rows' -> access_retired a rows -> access_retired a rows'.
Proof.
  intros Hs [(r0 & Hin0 & Ha0) Hall]. destruct Hs as [|row Hfree _|p].
  - split; eauto.
  - split.
    + exists r0. split; [apply in_or_app; left; exact Hin0|exact Ha0].
    + intros r Hin Ha. apply in_app_or in Hin. destruct Hin as [Hin|[<-|[]]].
      * apply Hall; assumption.
      * exfalso. apply taken_false in Hfree. apply Hfree.
        rewrite Ha, <- Ha0. apply in_map. exact Hin0.
  - split.
    + exists (if p r0 then set_is_revoked true r0 else r0). split.
      * apply in_map_iff. exists r0. auto.
      * destruct (p r0); exact Ha0.
    + intros r Hin Ha. apply in_map_iff in Hin. destruct Hin as (r' & <- & Hin').
      destruct (p r'); [reflexivity|]. apply Hall; assumption.
Qed.

Lemma access_retired_follows a st st' :
  follows st st' -> access_retired a (oauth_token st) ->
  access_retired a (oauth_token st').
Proof.
  induction 1 as [|st1 st2 m _ IH Hm]; intros H; [exact H|].
  eapply access_retired_step; [eapply apply_mutation_tokens; exact Hm|auto].
Qed.

Lemma access_retired_lookup now a st :
  access_retired a (oauth_token st) ->
  crud.get_token_by_access_token now a true st = Ok (None, st).
Proof.
  intros [_ Hall]. unfold crud.get_token_by_access_token.
  rewrite filter_filter_none; [reflexivity|].
  intros r Hin Hq. apply String.eqb_eq in Hq.
  unfold crud.access_valid. rewrite (Hall r Hin Hq). reflexivity.
Qed.

Lemma revoked_rows_idem i rows :
  revoked_rows i (revoked_rows i rows) = revoked_rows i rows.
Proof.
  unfold revoked_rows. rewrite map_map. apply map_ext. intros r.
  destruct (Z.eqb (OAuthToken.id r) i) eqn:E; simpl; rewrite E; reflexivity.
Qed.

Lemma revoked_rows_access_retired r rows :
  NoDup (map OAuthToken.access_token rows) -> In r rows ->
  access_retired (OAuthToken.access_token r) (revoked_rows (OAuthToken.id r) rows).
Proof.
  intros Hnd Hin. split.
  - exists (set_is_revoked true r). split; [apply in_revoked_rows; exact Hin|reflexivity].
  - intros r' Hin' Ha. unfold revoked_rows in Hin'. apply in_map_iff in Hin'.
    destruct Hin' as (r0 & <- & Hin0).
    assert (r0 = r).
    { apply (unique_key OAuthToken.access_token rows); auto.
      destruct (Z.eqb (OAuthToken.id r0) (OAuthToken.id r)); exact Ha. }
    subst r0. rewrite Z.eqb_refl. reflexivity.
Qed.

Section Revocation.
Context {rt : PyRuntime}.
Variable config : Config.t.

(** What [revoke] does once the client [cid] is authenticated. *)
Lemma revoke_authenticated token hint client_id client_secret authorization cid st :
  client_authenticated config authorization client_id client_secret cid ->
  revoke config token hint client_id client_secret authorization st
  = (let* by_access := crud.get_token_by_access_token 0 token false in
     let* token_record :=
       match by_access with
       | Some r => ret (Some r)
       | None => crud.get_token_by_refresh_token 0 token false
       end in
     let* _ :=
       match token_record with
       | Some token_record =>
           if String.eqb (OAuthToken.client_id token_record) cid
           then crud.revoke_token (OAuthToken.id token_record)
           else ret false
       | None => ret false
       end in
     ret (json_response ∅)) st.
Proof.
  intros (secret & client & Hcred & Hne & Hval). unfold revoke.
  rewrite Hcred. cbn [truthy_str or_str].
  apply String.eqb_neq in Hne. rewrite Hne. cbn [negb].
  rewrite Hval. rewrite bind_lift_ok. reflexivity.
Qed.

(** The row that [revoke] finds for [token]: the one that carries it as
    access token, else the one that carries it as refresh token. *)
Lemma revoke_lookup token st :
  store_wf st ->
  exists by_access found,
    crud.get_token_by_access_token 0 token false st = Ok (by_access, st)
    /\ match by_access with
       | Some r => ret (Some r)
       | None => crud.get_token_by_refresh_token 0 token false
       end st = Ok (found, st)
    /\ (forall r, found = Some r ->
          In r (oauth_token st)
          /\ (OAuthToken.access_token r = token
              \/ OAuthToken.refresh_token r = Some token))
    /\ (forall r, In r (oauth_token st) -> OAuthToken.access_token r = token ->
          found = Some r)
    /\ (forall r, In r (oauth_token st) -> OAuthToken.refresh_token r = Some token ->
          (forall r', In r' (oauth_token st) -> OAuthToken.access_token r' <> token) ->
          found = Some r)
    /\ (found = None ->
        forall r, In r (oauth_token st) ->
                  OAuthToken.access_token r <> token
                  /\ OAuthToken.refresh_token r <> Some token).
Proof.
  intros W. pose proof W as (_ & _ & _ & _ & _ & _ & _ & _ & _ & _ & N11 & N12).
  unfold crud.get_token_by_access_token, crud.get_token_by_refresh_token.
  destruct (filter_key_cases OAuthToken.access_token (oauth_token st) token N11)
    as [[E Hnone]|(r & Hin & Hk & E)]; rewrite E; simpl.
  - exists None.
    destruct (filter_opt_cases OAuthToken.refresh_token (oauth_token st) token N12)
      as [[E' Hnone']|(r & Hin & Hk & E')]; rewrite E'; simpl.
    + exists None. split; [reflexivity|]. split; [reflexivity|].
      split; [discriminate|].
      split; [intros r Hin Ha; exfalso; exact (Hnone r Hin Ha)|].
      split; [intros r Hin Hr; exfalso; exact (Hnone' r Hin Hr)|].
      intros _ r Hin. split; auto.
    + exists (Some r). split; [reflexivity|]. split; [reflexivity|].
      split; [intros r' [= <-]; auto|].
      split; [intros r' Hin' Ha; exfalso; exact (Hnone r' Hin' Ha)|].
      split; [|discriminate].
      intros r' Hin' Hr' _. f_equal.
      destruct (OAuthToken.refresh_token r) eqn:Er; [|discriminate].
      injection Hk as ->.
      pose proof (filter_unique_opt OAuthToken.refresh_token (oauth_token st)
                    r' token N12 Hin' Hr') as E2.
      rewrite E' in E2. congruence.
  - exists (Some r), (Some r). split; [reflexivity|]. split; [reflexivity|].
    split; [intros r' [= <-]; auto|].
    split.
    { intros r' Hin' Ha. f_equal.
      apply (unique_key OAuthToken.access_token (oauth_token st)); auto.
      congruence. }
    split; [|discriminate].
    intros r' _ _ Hno. exfalso. exact (Hno r Hin Hk).
Qed.

End Revocation.

Section BearerToken.
Context {rt : PyRuntime}.

(** [/userinfo] with a bearer token: what is left after the header has been
    read. *)
Lemma userinfo_bearer utcnow a st :
  a <> "" ->
  userinfo utcnow (Some ("Bearer " +:+ a)) st
  = (let* token_record := crud.get_token_by_access_token (utcnow 0%nat) a true in
     match token_record with
     | None =>
         ret (error_response 401 "invalid_token"
                "Invalid or expired access token"
                [("WWW-Authenticate",
                  "Bearer error=" +:+ dquote +:+ "invalid_token" +:+ dquote)])
     | Some token_record =>
         let* bind_user :=
           crud.get_bind_user_by_uin (OAuthToken.uin token_record) true in
         match bind_user with
         | None => ret (error_response 401 "invalid_token" "User not found" [])
         | Some bind_user =>
             let* claims :=
               lift (get_user_claims (OAuthToken.scope token_record)
                                     (build_user_data bind_user)) in
             ret (json_response claims)
         end
     end) st.
Proof.
  intros Hne. unfold userinfo. cbn [truthy_str].
  rewrite bearer_nonempty, bearer_prefix, bearer_drop.
  cbn [negb andb truthy_str or_str].
  apply String.eqb_neq in Hne. rewrite Hne. reflexivity.
Qed.

End BearerToken.

Section RevocationEndpoint.
Context {rt : PyRuntime}.
Variable config : Config.t.

Lemma revoke_found token hint client_id client_secret authorization cid r st :
  store_wf st ->
  client_authenticated config authorization client_id client_secret cid ->
  In r (oauth_token st) ->
  OAuthToken.access_token r = token
  \/ (OAuthToken.refresh_token r = Some token
      /\ forall r', In r' (oauth_token st) -> OAuthToken.access_token r' <> token) ->
  revoke config token hint client_id client_secret authorization st
  = if String.eqb (OAuthToken.client_id r) cid
    then Ok (json_response ∅,
             with_oauth_token st (revoked_rows (OAuthToken.id r) (oauth_token st)))
    else Ok (json_response ∅, st).
Proof.
  intros W Hauth Hin Htok.
  rewrite (revoke_authenticated config token hint client_id client_secret
             authorization cid st Hauth).
  destruct (revoke_lookup token st W)
    as (by_access & found & Hrun1 & Hrun2 & _ & Hacc & Href & _).
  assert (Hfound : found = Some r).
  { destruct Htok as [Ha|[Hr Hno]]; [apply Hacc|apply Href]; auto. }
  subst found.
  unfold bind at 1. rewrite Hrun1. cbv beta iota.
  unfold bind at 1. rewrite Hrun2. cbv beta iota.
  destruct (String.eqb (OAuthToken.client_id r) cid); [|reflexivity].
  unfold bind. rewrite revoke_token_run. reflexivity.
Qed.

(** X15. [POST /revoke] by the authenticated client a token was issued to
    answers 200 with an empty body and sets [is_revoked] on the row that
    carries the token, as access token or else as refresh token. The call
    can be repeated with the same outcome, and in every later store neither
    token of the row is valid any more: [/userinfo] answers 401 to the access
    token. *)
Theorem revoke_retires_token
    token hint client_id client_secret authorization cid r st :
  store_wf st ->
  client_authenticated config authorization client_id client_secret cid ->
  In r (oauth_token st) ->
  OAuthToken.access_token r = token
  \/ (OAuthToken.refresh_token r = Some token
      /\ forall r', In r' (oauth_token st) -> OAuthToken.access_token r' <> token) ->
  OAuthToken.client_id r = cid ->
  let request := revoke config token hint client_id client_secret authorization in
  let out := get_db request st in
  fst out = json_response ∅
  /\ snd out = with_oauth_token st
                 (revoked_rows (OAuthToken.id r) (oauth_token st))
  /\ get_db request (snd out) = (json_response ∅, snd out)
  /\ forall st', follows (snd out) st' ->
       (forall now, crud.get_token_by_access_token now (OAuthToken.access_token r)
                      true st' = Ok (None, st'))
       /\ (forall now k, OAuthToken.refresh_token r = Some k ->
             crud.get_token_by_refresh_token now k true st' = Ok (None, st'))
       /\ (forall utcnow, OAuthToken.access_token r <> "" ->
             get_db (userinfo utcnow
                       (Some ("Bearer " +:+ OAuthToken.access_token r))) st'
             = (error_response 401 "invalid_token"
                  "Invalid or expired access token"
                  [("WWW-Authenticate",
                    "Bearer error=" +:+ dquote +:+ "invalid_token" +:+ dquote)],
                st')).
Proof.
  intros W Hauth Hin Htok Hcid request out.
  pose proof W as (_ & _ & _ & _ & _ & _ & _ & _ & _ & _ & N11 & N12).
  set (st1 := with_oauth_token st (revoked_rows (OAuthToken.id r) (oauth_token st))).
  assert (Hout : out = (json_response ∅, st1)).
  { unfold out, request, get_db.
    rewrite (revoke_found token hint client_id client_secret authorization cid
               r st W Hauth Hin Htok).
    rewrite Hcid, String.eqb_refl. reflexivity. }
  rewrite Hout. cbn [fst snd].
  split; [reflexivity|]. split; [reflexivity|].
  assert (W1 : store_wf st1).
  { apply (apply_mutation_wf (MRevokeToken (OAuthToken.id r)) st); [|exact W].
    simpl. unfold forget. rewrite revoke_token_run. reflexivity. }
  split.
  { unfold request, get_db.
    rewrite (revoke_found token hint client_id client_secret authorization cid
               (set_is_revoked true r) st1 W1 Hauth).
    - change (OAuthToken.client_id (set_is_revoked true r))
        with (OAuthToken.client_id r).
      rewrite Hcid, String.eqb_refl.
      change (OAuthToken.id (set_is_revoked true r)) with (OAuthToken.id r).
      unfold st1. simpl. rewrite revoked_rows_idem. reflexivity.
    - apply in_revoked_rows. exact Hin.
    - destruct Htok as [Ha|[Hr Hno]]; [left; exact Ha|right].
      split; [exact Hr|].
      intros r' Hin' Ha. unfold st1 in Hin'. simpl in Hin'.
      unfold revoked_rows in Hin'. apply in_map_iff in Hin'.
      destruct Hin' as (r0 & <- & Hin0). apply (Hno r0 Hin0).
      destruct (Z.eqb (OAuthToken.id r0) (OAuthToken.id r)); exact Ha. }
  intros st' Hfol.
  assert (Hacc : access_retired (OAuthToken.access_token r) (oauth_token st')).
  { apply (access_retired_follows _ st1 st' Hfol).
    apply revoked_rows_access_retired; assumption. }
  split; [intros now; apply access_retired_lookup; exact Hacc|].
  split.
  { intros now k Hk. apply refresh_retired_lookup.
    apply (refresh_retired_follows k st1 st' Hfol).
    apply revoked_rows_retired; assumption. }
  intros utcnow Hne. unfold get_db.
  rewrite (userinfo_bearer utcnow _ st' Hne).
  unfold bind. rewrite (access_retired_lookup _ _ st' Hacc). reflexivity.
Qed.

(** X16. [POST /revoke] by an authenticated client revokes nothing that was
    issued to another client: when every row that carries the token belongs
    to other clients, or no row carries it, the answer is 200 with an empty
    body and the store is unchanged. *)
Theorem revoke_leaves_foreign_tokens
    token hint client_id client_secret authorization cid st :
  store_wf st ->
  client_authenticated config authorization client_id client_secret cid ->
  (forall r, In r (oauth_token st) ->
             OAuthToken.access_token r = token
             \/ OAuthToken.refresh_token r = Some token ->
             OAuthToken.client_id r <> cid) ->
  get_db (revoke config token hint client_id client_secret authorization) st
  = (json_response ∅, st).
Proof.
  intros W Hauth Hforeign. unfold get_db.
  rewrite (revoke_authenticated config token hint client_id client_secret
             authorization cid st Hauth).
  destruct (revoke_lookup token st W)
    as (by_access & found & Hrun1 & Hrun2 & Hsome & _ & _ & _).
  unfold bind at 1. rewrite Hrun1. cbv beta iota.
  unfold bind at 1. rewrite Hrun2. cbv beta iota.
  destruct found as [r|]; [|reflexivity].
  destruct (Hsome r eq_refl) as [Hin Hcarry].
  pose proof (Hforeign r Hin Hcarry) as Hne.
  apply String.eqb_neq in Hne. rewrite Hne. reflexivity.
Qed.

End RevocationEndpoint.

Lemma scenario_client_authenticated :
  client_authenticated Scenario.config None (Some "demo") (Some "s3cret") "demo".
Proof.
  exists (Some "s3cret"), Scenario.demo.
  split; [reflexivity|]. split; [discriminate|]. vm_compute. reflexivity.
Qed.

Lemma revoke_retires_token_witness :
  snd (get_db (revoke Scenario.config "A1" None (Some "demo") (Some "s3cret") None)
              Scenario2.store_token)
  = Scenario.store_with [Scenario.alice; Scenario.bob] []
      [Scenario.token_row 1 "A1" "R1" "openid email" true].
Proof.
  destruct (revoke_retires_token Scenario.config "A1" None (Some "demo")
              (Some "s3cret") None "demo"
              (Scenario.token_row 1 "A1" "R1" "openid email" false)
              Scenario2.store_token ltac:(decide_wf)
              scenario_client_authenticated (or_introl eq_refl)
              (or_introl eq_refl) eq_refl) as (_ & H & _).
  rewrite H. reflexivity.
Defined.

Lemma revoke_leaves_foreign_tokens_witness :
  get_db (revoke Scenario.config "R9" None (Some "demo") (Some "s3cret") None)
         Scenario2.store_token
  = (json_response ∅, Scenario2.store_token).
Proof.
  apply (revoke_leaves_foreign_tokens Scenario.config "R9" None (Some "demo")
           (Some "s3cret") None "demo" Scenario2.store_token).
  - decide_wf.
  - exact scenario_client_authenticated.
  - intros r [<-|[]] [H|H]; discriminate H.
Defined.

(** ** [/userinfo] reads and never writes *)

Lemma scalar_one_some {A} (l : list A) (r : A) :
  scalar_one_or_none l = Ok (Some r) -> l = [r].
Proof.
  destruct l as [|a [|b l]]; simpl; intros H; try discriminate.
  injection H as ->. reflexivity.
Qed.

Lemma lift_store {A} (x : result A) (st st' : Store) (a : A) :
  lift x st = Ok (a, st') -> st' = st /\ x = Ok a.
Proof.
  unfold lift. destruct x; intros H; [|discriminate].
  injection H as -> ->. auto.
Qed.

Lemma get_token_by_access_token_some now a st st' tok :
  crud.get_token_by_access_token now a true st = Ok (Some tok, st') ->
  st' = st /\ In tok (oauth_token st) /\ OAuthToken.access_token tok = a
  /\ crud.access_valid now tok = true.
Proof.
  unfold crud.get_token_by_access_token. intros H.
  apply lift_store in H. destruct H as [-> H]. split; [reflexivity|].
  apply scalar_one_some in H.
  assert (Hin : In tok [tok]) by (left; reflexivity).
  rewrite <- H in Hin. apply filter_In in Hin. destruct Hin as [Hin Hv].
  apply filter_In in Hin. destruct Hin as [Hin Ha].
  apply String.eqb_eq in Ha. auto.
Qed.

Lemma get_bind_user_by_uin_some uin st st' bu :
  crud.get_bind_user_by_uin uin true st = Ok (Some bu, st') ->
  st' = st /\ In bu (bind_user st) /\ BindUser.uin bu = uin
  /\ BindUser.is_active bu = true.
Proof.
  unfold crud.get_bind_user_by_uin. intros H.
  apply lift_store in H. destruct H as [-> H]. split; [reflexivity|].
  apply scalar_one_some in H.
  assert (Hin : In bu [bu]) by (left; reflexivity).
  rewrite <- H in Hin. apply filter_In in Hin. destruct Hin as [Hin Hv].
  apply filter_In in Hin. destruct Hin as [Hin Ha].
  apply Z.eqb_eq in Ha. auto.
Qed.

Lemma query_store {A} (q : list A) (st st' : Store) (x : option A) :
  lift (scalar_one_or_none q) st = Ok (x, st') -> st' = st.
Proof. intros H. apply lift_store in H. tauto. Qed.

Section UserinfoReads.
Context {rt : PyRuntime}.

(** X17. [GET /userinfo] never changes the store, whatever the header and
    the store. It answers 200 only to a header that starts with "Bearer "
    and carries the access token of a row that is neither revoked nor
    expired, for a UIN that has an active binding; the body is then the
    claims of that binding for the scope of that row. *)
Theorem userinfo_read_only utcnow authorization st :
  let out := get_db (userinfo utcnow authorization) st in
  snd out = st
  /\ (JSONResponse.status_code (fst out) = 200 ->
      exists header tok bu,
        authorization = Some header
        /\ String.prefix "Bearer " header = true
        /\ In tok (oauth_token st)
        /\ OAuthToken.access_token tok = str_drop 7 header
        /\ crud.access_valid (utcnow 0%nat) tok = true
        /\ In bu (bind_user st)
        /\ BindUser.uin bu = OAuthToken.uin tok
        /\ BindUser.is_active bu = true
        /\ get_user_claims (OAuthToken.scope tok) (build_user_data bu)
           = Ok (JSONResponse.content (fst out))).
Proof.
  intros out.
  assert (Hout : out = get_db (userinfo utcnow authorization) st) by reflexivity.
  clearbody out. unfold get_db, userinfo in Hout.
  set (access_token := match authorization with
                       | Some a => if truthy_str authorization
                                      && String.prefix "Bearer " a
                                   then Some (str_drop 7 a) else None
                       | None => None
                       end) in Hout.
  destruct (truthy_str access_token) eqn:Et; cbn [negb] in Hout.
  2:{ rewrite Hout. split; [reflexivity|]. intros H. vm_compute in H. discriminate. }
  unfold bind in Hout.
  destruct (crud.get_token_by_access_token (utcnow 0%nat) (or_str access_token "")
              true st) as [[[tok|] st1]|e] eqn:Etok.
  3:{ rewrite Hout. split; [reflexivity|]. intros H. vm_compute in H. discriminate. }
  2:{ apply query_store in Etok. subst st1. rewrite Hout.
      split; [reflexivity|]. intros H. vm_compute in H. discriminate. }
  apply get_token_by_access_token_some in Etok.
  destruct Etok as (-> & Hin & Ha & Hv).
  destruct (crud.get_bind_user_by_uin (OAuthToken.uin tok) true st)
    as [[[bu|] st1]|e] eqn:Ebu.
  3:{ rewrite Hout. split; [reflexivity|]. intros H. vm_compute in H. discriminate. }
  2:{ apply query_store in Ebu. subst st1. rewrite Hout.
      split; [reflexivity|]. intros H. vm_compute in H. discriminate. }
  apply get_bind_user_by_uin_some in Ebu.
  destruct Ebu as (-> & Hinb & Hu & Hact).
  unfold lift in Hout.
  destruct (get_user_claims (OAuthToken.scope tok) (build_user_data bu))
    as [claims|e] eqn:Ec.
  2:{ rewrite Hout. split; [reflexivity|]. intros H. vm_compute in H. discriminate. }
  unfold ret in Hout. rewrite Hout. cbn [fst snd].
  split; [reflexivity|]. intros _.
  destruct authorization as [header|]; [|discriminate].
  unfold access_token in *.
  destruct (truthy_str (Some header) && String.prefix "Bearer " header) eqn:Ep;
    [|discriminate].
  apply andb_true_iff in Ep. destruct Ep as [_ Ep].
  exists header, tok, bu.
  split; [reflexivity|]. split; [exact Ep|]. split; [exact Hin|].
  split.
  { rewrite Ha. cbn [or_str truthy_str] in *.
    destruct (String.eqb (str_drop 7 header) ""); [discriminate|reflexivity]. }
  repeat split; auto.
Qed.

End UserinfoReads.

Lemma userinfo_read_only_witness :
  exists tok,
    In tok (oauth_token Scenario3.store_profile)
    /\ OAuthToken.access_token tok = "A1".
Proof.
  destruct (userinfo_read_only Scenario.utcnow (Some "Bearer A1")
              Scenario3.store_profile) as (_ & H).
  destruct (H eq_refl) as (header & tok & bu & [= <-] & _ & Hin & Ha & _).
  exists tok. split; [exact Hin|exact Ha].
Defined.

(** ** Claims stay inside the granted scope *)

Section ClaimsScope.
Context {rt : PyRuntime}.

Lemma fold_copy_extra_raise extra scopes e :
  fold_left (copy_extra extra) scopes (Raise e) = Raise e.
Proof. induction scopes as [|s l IH]; [reflexivity|exact IH]. Qed.

Lemma copy_extra_keys extra claims s claims' :
  copy_extra extra (Ok claims) s = Ok claims' ->
  forall k, is_Some (claims' !! k) -> k = s \/ is_Some (claims !! k).
Proof.
  unfold copy_extra. intros H k Hk.
  destruct extra as [| | | t | l | d]; try discriminate.
  - destruct (str_contains s t && negb (dict_has claims s)); [discriminate|].
    injection H as <-. auto.
  - destruct (existsb _ l && negb (dict_has claims s)); [discriminate|].
    injection H as <-. auto.
  - destruct (d !! s) as [v|]; [destruct (claims !! s) eqn:Ec|].
    + injection H as <-. auto.
    + injection H as <-. destruct (decide (k = s)) as [->|Hne]; [auto|].
      rewrite lookup_insert_ne in Hk by congruence. auto.
    + injection H as <-. auto.
Qed.

Lemma fold_copy_extra_keys extra (P : string -> Prop) : forall scopes claims claims',
  (forall s, In s scopes -> P s) ->
  (forall k, is_Some (claims !! k) -> P k) ->
  fold_left (copy_extra extra) scopes (Ok claims) = Ok claims' ->
  forall k, is_Some (claims' !! k) -> P k.
Proof.
  induction scopes as [|s l IH]; intros claims claims' Hs Hc H k Hk.
  - injection H as <-. auto.
  - cbn [fold_left] in H. destruct (copy_extra extra (Ok claims) s) as [c2|e] eqn:E.
    + refine (IH c2 claims' _ _ H k Hk).
      * intros s' Hs'. apply Hs. right. exact Hs'.
      * intros k' Hk'. destruct (copy_extra_keys _ _ _ _ E k' Hk') as [->|H'].
        -- apply Hs. left. reflexivity.
        -- auto.
    + rewrite fold_copy_extra_raise in H. discriminate.
Qed.

Lemma insert_keys (P : string -> Prop) (claims : pydict) k0 v :
  P k0 -> (forall k, is_Some (claims !! k) -> P k) ->
  forall k, is_Some (<[ k0 := v ]> claims !! k) -> P k.
Proof.
  intros H0 Hc k Hk. destruct (decide (k = k0)) as [->|Hne]; [exact H0|].
  rewrite lookup_insert_ne in Hk by congruence. auto.
Qed.

(** X18. [get_user_claims] puts into the claims only what the scope covers:
    every key of the result is one of the granted scopes, or sub when openid
    is granted, or preferred_username when profile is granted. With no scope
    the result is empty. *)
Theorem get_user_claims_within_scope (scope : string) (bind_user_data : pydict) :
  (forall claims,
      get_user_claims scope bind_user_data = Ok claims ->
      forall k, is_Some (claims !! k) -> claim_in_scope scope k)
  /\ (str_split scope = [] -> get_user_claims scope bind_user_data = Ok ∅).
Proof.
  split.
  - intros claims H. unfold get_user_claims in H.
    revert H. apply fold_copy_extra_keys.
    + intros s Hs. left. exact Hs.
    + repeat match goal with
             | |- forall k, is_Some ((if ?c then _ else _) !! k) -> _ =>
                 destruct c eqn:?
             | |- forall k, is_Some (<[ _ := _ ]> _ !! k) -> _ =>
                 apply insert_keys
             end;
        repeat match goal with
               | H : _ && _ = true |- _ => apply andb_true_iff in H; destruct H
               | H : _ || _ = true |- _ => apply orb_true_iff in H
               | H : str_in _ _ = true |- _ => apply str_in_In in H
               end;
        try (intros k [v Hv]; rewrite lookup_empty in Hv; discriminate);
        unfold claim_in_scope; try solve [auto].
      all: try solve [match goal with
                      | H : _ \/ _ |- _ =>
                          destruct H as [H|H]; apply str_in_In in H; auto
                      end].
  - intros E. unfold get_user_claims. rewrite E. reflexivity.
Qed.

End ClaimsScope.

Lemma get_user_claims_within_scope_witness :
  claim_in_scope "openid email" "sub".
Proof.
  apply (proj1 (get_user_claims_within_scope "openid email"
                  (build_user_data Scenario.alice))
           {[ "sub" := JStr "u-42"; "email" := JStr "a@x" ]}).
  - vm_compute. reflexivity.
  - rewrite lookup_insert_eq. eauto.
Defined.

(** ** What the callback keeps of the upstream profile *)

Section ExtraData.
Variable config : Config.t.

Lemma build_extra_data_fold (raw : pydict) (k : string) (v : jvalue) :
  forall fields (acc : pydict),
    fold_left
      (fun extra_data field =>
         if negb (str_in field ["sub"; "email"; "preferred_username"])
         then match raw !! field with
              | Some v => <[ field := v ]> extra_data
              | None => extra_data
              end
         else extra_data) fields acc !! k = Some v
    <-> (In k fields /\ ~ In k own_columns /\ raw !! k = Some v)
        \/ (~ (In k fields /\ ~ In k own_columns /\ is_Some (raw !! k))
            /\ acc !! k = Some v).
Proof.
  induction fields as [|f fields IH]; intros acc.
  - simpl. split; [intros H; right; split; [tauto|exact H]|].
    intros [(F & _)|(_ & H)]; [destruct F|exact H].
  - cbn [fold_left]. rewrite IH. clear IH. cbn [In].
    assert (Hown : str_in f ["sub"; "email"; "preferred_username"] = true
                   <-> In f own_columns) by apply str_in_In.
    destruct (decide (k = f)) as [->|Hne].
    + destruct (str_in f ["sub"; "email"; "preferred_username"]) eqn:Ef;
        cbn [negb].
      * assert (In f own_columns) by (apply Hown; reflexivity). tauto.
      * assert (~ In f own_columns) by (rewrite <- Hown; discriminate).
        destruct (raw !! f) as [w|] eqn:Er.
        -- rewrite lookup_insert_eq. assert (is_Some (Some w)) by eauto.
           destruct (in_dec String.string_dec f fields); tauto.
        -- assert (~ is_Some (@None jvalue)) by (intros [? ?]; discriminate).
           assert (~ (@None jvalue = Some v)) by discriminate. tauto.
    + assert (f <> k) by congruence.
      destruct (str_in f ["sub"; "email"; "preferred_username"]) eqn:Ef;
        cbn [negb]; [tauto|].
      destruct (raw !! f) as [w|] eqn:Er;
        [rewrite lookup_insert_ne by congruence|]; tauto.
Qed.

(** X19. The [extra_data] built by the callback holds exactly the entries of
    the upstream profile whose name is listed in [stored_fields] and is none
    of sub, email and preferred_username, with the value the profile gives
    them. *)
Theorem build_extra_data_fields (raw_data : pydict) (k : string) (v : jvalue) :
  build_extra_data config raw_data !! k = Some v
  <-> In k (Config.stored_fields config)
      /\ ~ In k own_columns
      /\ raw_data !! k = Some v.
Proof.
  unfold build_extra_data. rewrite build_extra_data_fold.
  rewrite lookup_empty. split.
  - intros [H|(_ & H)]; [exact H|discriminate].
  - intros H. left. exact H.
Qed.

End ExtraData.

Lemma build_extra_data_fields_witness :
  build_extra_data Scenario.config
    {[ "nickname" := JStr "Nick"; "email" := JStr "a@x"; "groups" := JStr "g" ]}
    !! "nickname" = Some (JStr "Nick").
Proof.
  apply (proj2 (build_extra_data_fields Scenario.config _ "nickname" (JStr "Nick"))).
  split; [vm_compute; tauto|]. split.
  - vm_compute. intros [H|[H|[H|[]]]]; discriminate H.
  - rewrite lookup_insert_eq. reflexivity.
Defined.

(** ** bot/handlers.py: confirming and cancelling an unbind *)

Lemma deactivated_rows_uin i rows :
  map BindUser.uin (deactivated_rows i rows) = map BindUser.uin rows.
Proof. apply map_update_key. reflexivity. Qed.

Lemma in_deactivated_rows bu rows :
  In bu rows -> In (set_is_active false bu) (deactivated_rows (BindUser.id bu) rows).
Proof.
  intros H. apply (in_update (fun r => Z.eqb (BindUser.id r) (BindUser.id bu)));
    [exact H|apply Z.eqb_refl].
Qed.

Section UnbindConfirm.
Context {rt : PyRuntime}.
Variable config : Config.t.

(** X20. [unbind confirm] with one pending request and an active binding
    deactivates the binding, writes one unbind log (is_unbind, reason
    confirm, both times set), marks the request processed and leaves
    oauth_token alone. The tokens of the user are not revoked, yet
    [/userinfo] answers 401 "User not found" to them from then on, since
    the active binding is gone. *)
Theorem unbind_confirm_deactivates
    utcnow arg rest user_id message_type source_id bu p st :
  store_wf st -> In bu (bind_user st) -> BindUser.uin bu = user_id ->
  BindUser.is_active bu = true ->
  str_lower arg = "confirm" ->
  pending_unbinds (utcnow 0%nat) user_id st = [p] ->
  let out := run_command
               (handle_unbind config utcnow (arg :: rest) user_id message_type
                              source_id) st in
  fst out = Reply.unbound (PendingUnbind.username p)
  /\ bind_user (snd out) = deactivated_rows (BindUser.id bu) (bind_user st)
  /\ unbind_log (snd out)
     = unbind_log st ++ [unbind_log_row (utcnow 1%nat) (Some (utcnow 2%nat))
                           user_id p bu true "confirm" (unbind_log st)]
  /\ pending_unbind (snd out)
     = superseded_rows [p] (pending_unbind st)
  /\ oauth_token (snd out) = oauth_token st
  /\ crud.get_bind_user_by_uin user_id true (snd out) = Ok (None, snd out)
  /\ (forall tok utcnow',
        In tok (oauth_token st) -> OAuthToken.uin tok = user_id ->
        OAuthToken.access_token tok <> "" ->
        crud.access_valid (utcnow' 0%nat) tok = true ->
        get_db (userinfo utcnow'
                  (Some ("Bearer " +:+ OAuthToken.access_token tok))) (snd out)
        = (error_response 401 "invalid_token" "User not found" [], snd out)).
Proof.
  intros W Hin Hu Hact Harg Hp out. subst user_id.
  pose proof W as (_ & N2 & _ & _ & _ & _ & _ & _ & _ & _ & N11 & _).
  set (st1 := {| bind_user := deactivated_rows (BindUser.id bu) (bind_user st);
                 pending_bind := pending_bind st;
                 pending_auth := pending_auth st;
                 pending_unbind := superseded_rows [p] (pending_unbind st);
                 oauth_token := oauth_token st;
                 authorization_log := authorization_log st;
                 unbind_log :=
                   unbind_log st ++ [unbind_log_row (utcnow 1%nat)
                                       (Some (utcnow 2%nat)) (BindUser.uin bu)
                                       p bu true "confirm" (unbind_log st)] |}).
  assert (Hout : out = (Reply.unbound (PendingUnbind.username p), st1)).
  { unfold out, run_command, handle_unbind. unfold bind at 1.
    rewrite get_pending_unbind_by_uin_run by (rewrite Hp; simpl; lia).
    rewrite Hp. cbn [head]. rewrite Harg, String.eqb_refl. unfold bind at 1.
    rewrite (get_bind_user_by_uin_active st bu N2 Hin Hact).
    reflexivity. }
  rewrite Hout. cbn [fst snd].
  split; [reflexivity|]. split; [reflexivity|]. split; [reflexivity|].
  split; [reflexivity|]. split; [reflexivity|].
  assert (Hnone : crud.get_bind_user_by_uin (BindUser.uin bu) true st1
                  = Ok (None, st1)).
  {
    change (BindUser.uin bu) with (BindUser.uin (set_is_active false bu)).
    apply get_bind_user_by_uin_inactive.
    - unfold st1. simpl. rewrite deactivated_rows_uin. exact N2.
    - unfold st1. simpl. apply in_deactivated_rows. exact Hin.
    - reflexivity. }
  split; [exact Hnone|].
  intros tok utcnow' Htok Htu Hne Hvalid. unfold get_db.
  rewrite (userinfo_bearer utcnow' _ st1 Hne). unfold bind at 1.
  rewrite (get_token_by_access_token_valid (utcnow' 0%nat) st1 tok N11 Htok).
  rewrite Hvalid. unfold bind at 1. rewrite Htu, Hnone. reflexivity.
Qed.

End UnbindConfirm.

Lemma unbind_confirm_deactivates_witness :
  let out := run_command
               (handle_unbind Scenario.config Scenario.utcnow ["confirm"] 10001
                              "private" 10001) Scenario5.store_unbinding in
  fst out = Reply.unbound "alice"
  /\ map OAuthToken.is_revoked (oauth_token (snd out)) = [false]
  /\ get_db (userinfo Scenario.utcnow (Some "Bearer A1")) (snd out)
     = (error_response 401 "invalid_token" "User not found" [], snd out).
Proof.
  intros out.
  destruct (unbind_confirm_deactivates Scenario.config Scenario.utcnow "confirm"
              [] 10001 "private" 10001 Scenario.alice Scenario5.unbind_request
              Scenario5.store_unbinding ltac:(decide_wf) (or_introl eq_refl)
              eq_refl eq_refl eq_refl eq_refl)
    as (Hmsg & _ & _ & _ & Htok & _ & Hinfo).
  split; [exact Hmsg|]. split; [unfold out; rewrite Htok; reflexivity|].
  apply (Hinfo (Scenario.token_row 1 "A1" "R1" "openid email" false)
               Scenario.utcnow (or_introl eq_refl) eq_refl).
  - discriminate.
  - reflexivity.
Defined.

(** X21. [cancel] with one pending unbind request marks it processed, so
    that no request of the user is pending from then on, and answers that
    the request was cancelled; the binding and the tokens are left alone,
    and a log row (not an unbind, reason cancel, no unbind time) is written
    when the user has an active binding. Without a pending request nothing
    changes. *)
Theorem cancel_closes_request utcnow user_id message_type source_id st :
  store_wf st ->
  let out := run_command (handle_cancel utcnow user_id message_type source_id) st in
  (pending_unbinds (utcnow 0%nat) user_id st = [] ->
   out = (Replies.nothing_to_cancel, st))
  /\ (forall p,
        pending_unbinds (utcnow 0%nat) user_id st = [p] ->
        fst out = Replies.cancelled
        /\ bind_user (snd out) = bind_user st
        /\ oauth_token (snd out) = oauth_token st
        /\ pending_unbind (snd out) = superseded_rows [p] (pending_unbind st)
        /\ (forall t, utcnow 0%nat <= t -> pending_unbinds t user_id (snd out) = [])
        /\ (forall bu, In bu (bind_user st) -> BindUser.uin bu = user_id ->
              BindUser.is_active bu = true ->
              unbind_log (snd out)
              = unbind_log st ++ [unbind_log_row (utcnow 1%nat) None user_id p bu
                                    false "cancel" (unbind_log st)])
        /\ ((forall bu, In bu (bind_user st) -> BindUser.uin bu = user_id ->
               BindUser.is_active bu = false) ->
            unbind_log (snd out) = unbind_log st)).
Proof.
  intros W out.
  pose proof W as (_ & N2 & _).
  split.
  { intros Hp. unfold out, run_command, handle_cancel. unfold bind at 1.
    rewrite get_pending_unbind_by_uin_run by (rewrite Hp; simpl; lia).
    rewrite Hp. reflexivity. }
  intros p Hp.
  assert (Hlook : crud.get_pending_unbind_by_uin (utcnow 0%nat) user_id true st
                  = Ok (Some p, st)).
  { rewrite get_pending_unbind_by_uin_run by (rewrite Hp; simpl; lia).
    rewrite Hp. reflexivity. }
  assert (Hlater : forall st',
            pending_unbind st' = superseded_rows [p] (pending_unbind st) ->
            forall t, utcnow 0%nat <= t -> pending_unbinds t user_id st' = []).
  { intros st' Hrows t Ht. unfold pending_unbinds. rewrite Hrows.
    apply filter_filter_none. intros r Hin Hq. apply Z.eqb_eq in Hq.
    apply (superseded_rows_invalid (utcnow 0%nat) t user_id st r);
      [rewrite Hp; simpl; lia|exact Ht|rewrite Hp; exact Hin|exact Hq]. }
  destruct (crud.get_bind_user_by_uin user_id true st) as [[[bu|] st0]|e] eqn:Ebu.
  - apply get_bind_user_by_uin_some in Ebu. destruct Ebu as (-> & Hin & Hu & Hact).
    assert (Erun : crud.get_bind_user_by_uin user_id true st = Ok (Some bu, st)).
    { rewrite <- Hu. apply get_bind_user_by_uin_active; assumption. }
    assert (Hout : out
                   = (Replies.cancelled,
                      {| bind_user := bind_user st;
                         pending_bind := pending_bind st;
                         pending_auth := pending_auth st;
                         pending_unbind := superseded_rows [p] (pending_unbind st);
                         oauth_token := oauth_token st;
                         authorization_log := authorization_log st;
                         unbind_log :=
                           unbind_log st
                           ++ [unbind_log_row (utcnow 1%nat) None user_id p bu
                                 false "cancel" (unbind_log st)] |})).
    { unfold out, run_command, handle_cancel. unfold bind at 1.
      rewrite Hlook. cbv beta iota. unfold bind at 1. rewrite Erun. reflexivity. }
    rewrite Hout. cbn [fst snd].
    split; [reflexivity|]. split; [reflexivity|]. split; [reflexivity|].
    split; [reflexivity|]. split; [apply Hlater; reflexivity|].
    split.
    + intros bu' Hin' Hu' Hact'. simpl.
      assert (bu' = bu); [|subst; reflexivity].
      apply (unique_key BindUser.uin (bind_user st)); auto. congruence.
    + intros Hall. rewrite (Hall bu Hin Hu) in Hact. discriminate.
  - pose proof (query_store _ _ _ _ Ebu) as Hst. subst st0.
    pose proof Ebu as Erun.
    assert (Hout : out
                   = (Replies.cancelled,
                      with_pending_unbind st
                        (superseded_rows [p] (pending_unbind st)))).
    { unfold out, run_command, handle_cancel. unfold bind at 1.
      rewrite Hlook. cbv beta iota. unfold bind at 1. rewrite Erun. reflexivity. }
    rewrite Hout. cbn [fst snd].
    split; [reflexivity|]. split; [reflexivity|]. split; [reflexivity|].
    split; [reflexivity|]. split; [apply Hlater; reflexivity|].
    split; [|reflexivity].
    intros bu Hin Hu Hact. exfalso.
    rewrite <- Hu in Erun.
    rewrite (get_bind_user_by_uin_active st bu N2 Hin Hact) in Erun. discriminate.
  - exfalso. unfold crud.get_bind_user_by_uin in Ebu.
    destruct (List.filter BindUser.is_active
                (List.filter (fun r => Z.eqb (BindUser.uin r) user_id)
                             (bind_user st))) as [|a [|b l]] eqn:Ef;
      try discriminate.
    assert (Ha : In a (a :: b :: l)) by (left; reflexivity).
    assert (Hb : In b (a :: b :: l)) by (right; left; reflexivity).
    rewrite <- Ef in Ha, Hb.
    apply filter_In in Ha, Hb. destruct Ha as [Ha _], Hb as [Hb _].
    apply filter_In in Ha, Hb. destruct Ha as [Ha Hua], Hb as [Hb Hub].
    apply Z.eqb_eq in Hua, Hub.
    assert (a = b) by (apply (unique_key BindUser.uin (bind_user st)); auto; congruence).
    subst b.
    assert (Hnd : NoDup (a :: a :: l)).
    { rewrite <- Ef. apply NoDup_ListNoDup, List.NoDup_filter, List.NoDup_filter.
      apply NoDup_ListNoDup. apply (NoDup_fmap_1 BindUser.uin). exact N2. }
    apply NoDup_cons in Hnd. destruct Hnd as [Hnd _]. apply Hnd. left.
Qed.

Lemma cancel_closes_request_witness :
  fst (run_command (handle_cancel Scenario.utcnow 10001 "private" 10001)
                   Scenario5.store_unbinding)
  = Replies.cancelled.
Proof.
  apply (proj2 (cancel_closes_request Scenario.utcnow 10001 "private" 10001
                  Scenario5.store_unbinding ltac:(decide_wf))
           Scenario5.unbind_request eq_refl).
Defined.

(** ** bot/handlers.py and page/routes.py: binding *)

Lemma get_bind_user_by_uin_none uin st :
  (forall r, In r (bind_user st) -> BindUser.uin r = uin ->
             BindUser.is_active r = false) ->
  crud.get_bind_user_by_uin uin true st = Ok (None, st).
Proof.
  intros H. unfold crud.get_bind_user_by_uin.
  rewrite filter_filter_none; [reflexivity|].
  intros r Hin Hq. apply Z.eqb_eq in Hq. auto.
Qed.

Lemma get_pending_bind_by_state_unique now st p :
  NoDup (map PendingBind.state (pending_bind st)) -> In p (pending_bind st) ->
  crud.get_pending_bind_by_state now (PendingBind.state p) true st
  = Ok (if negb (PendingBind.is_used p) && (now <? PendingBind.expires_at p)
        then Some p else None, st).
Proof.
  intros Hnd Hin. unfold crud.get_pending_bind_by_state.
  rewrite (filter_unique PendingBind.state String.eqb Seqb_iff _ p Hnd Hin).
  simpl. destruct (negb (PendingBind.is_used p) && _); reflexivity.
Qed.

Section Bind.
Context {rt : PyRuntime}.
Variable config : Config.t.
Variable urlencode : list (string * string) -> string.
Variable sso_client : SSOClientConfig.t.
Variable bind_link_expire : Z.
Variable fetch_wellknown_config : string -> option pydict.

(** X22. [bind <username>] creates nothing for a caller who has an active
    binding and tells the bound name. For a caller without one it stores a
    link under the drawn state, valid until the configured lifetime has
    passed, and answers with the upstream URL that carries this state; a
    state that is already in the table makes the command fail with the
    store unchanged. *)
Theorem bind_creates_link
    utcnow token_urlsafe username rest user_id message_type source_id st :
  store_wf st -> SSOClientConfig.enabled sso_client = true ->
  let out := run_command
               (handle_bind config urlencode sso_client bind_link_expire
                  fetch_wellknown_config utcnow token_urlsafe
                  (username :: rest) user_id message_type source_id) st in
  let state := token_urlsafe 0%nat in
  let row := bind_request (utcnow 0%nat)
               (utcnow 1%nat + timedelta_seconds bind_link_expire) state user_id
               username message_type source_id (pending_bind st) in
  (forall bu, In bu (bind_user st) -> BindUser.uin bu = user_id ->
              BindUser.is_active bu = true ->
              out = (Replies.already_bound (Config.command_prefix config)
                       (bound_username bu), st))
  /\ ((forall bu, In bu (bind_user st) -> BindUser.uin bu = user_id ->
                  BindUser.is_active bu = false) ->
      (taken state (map PendingBind.state (pending_bind st)) = true ->
       out = (Reply.failure, st))
      /\ (taken state (map PendingBind.state (pending_bind st)) = false ->
          out = (Replies.bind_link (bind_link_expire / 60)
                   (auth_url urlencode sso_client fetch_wellknown_config state),
                 with_pending_bind st (pending_bind st ++ [row]))
          /\ forall t,
               crud.get_pending_bind_by_state t state true (snd out)
               = Ok (if t <? utcnow 1%nat + timedelta_seconds bind_link_expire
                     then Some row else None, snd out))).
Proof.
  intros W Hen out state row.
  pose proof W as (_ & N2 & _).
  split.
  - intros bu Hin Hu Hact. unfold out, run_command, handle_bind.
    rewrite Hen. cbn [negb]. unfold bind at 1. rewrite <- Hu.
    rewrite (get_bind_user_by_uin_active st bu N2 Hin Hact). reflexivity.
  - intros Hnone.
    assert (Hrun : out = match crud.create_pending_bind (utcnow 0%nat)
                                 (utcnow 1%nat) state user_id username
                                 message_type source_id bind_link_expire st with
                         | Ok (_, st') =>
                             (Replies.bind_link (bind_link_expire / 60)
                                (auth_url urlencode sso_client
                                   fetch_wellknown_config state), st')
                         | Raise _ => (Reply.failure, st)
                         end).
    { unfold out, run_command, handle_bind.
      rewrite Hen. cbn [negb]. unfold bind at 1.
      rewrite (get_bind_user_by_uin_none user_id st Hnone).
      cbv beta iota. unfold bind. fold state.
      destruct (crud.create_pending_bind _ _ _ _ _ _ _ _ st) as [[r st']|e];
        reflexivity. }
    unfold crud.create_pending_bind in Hrun.
    split.
    + intros T. rewrite T in Hrun. exact Hrun.
    + intros T. rewrite T in Hrun. fold row in Hrun.
      split; [exact Hrun|]. rewrite Hrun. cbn [snd]. intros t.
      assert (W1 : store_wf (with_pending_bind st (pending_bind st ++ [row]))).
      { apply (apply_mutation_wf
                 (MCreatePendingBind (utcnow 0%nat) (utcnow 1%nat) state user_id
                    username message_type source_id bind_link_expire) st);
          [|exact W].
        simpl. unfold forget, crud.create_pending_bind. rewrite T. reflexivity. }
      pose proof W1 as (_ & _ & _ & _ & M5 & _).
      assert (Hin : In row (pending_bind
                              (with_pending_bind st (pending_bind st ++ [row]))))
        by (simpl; apply in_or_app; right; left; reflexivity).
      exact (get_pending_bind_by_state_unique t _ row M5 Hin).
Qed.

End Bind.

Lemma bind_creates_link_witness :
  run_command
    (handle_bind Scenario.config plain_urlencode Scenario6.sso 300
       (fun _ => None) Scenario.utcnow (fun _ => "S") ["alice"] 10001
       "private" 10001) Scenario.store_created
  = (Replies.already_bound "/sso" "alice", Scenario.store_created).
Proof.
  apply (proj1 (bind_creates_link Scenario.config plain_urlencode Scenario6.sso
                  300 (fun _ => None) Scenario.utcnow (fun _ => "S") "alice" []
                  10001 "private" 10001 Scenario.store_created
                  ltac:(decide_wf) eq_refl) Scenario.alice).
  - left. reflexivity.
  - reflexivity.
  - reflexivity.
Defined.

Lemma taken_false_intro {K} `{EqDecision K} (k : K) (col : list K) :
  ~ In k col -> taken k col = false.
Proof.
  intros H. unfold taken. apply bool_decide_eq_false.
  intros Hin. apply H, list_elem_of_In, Hin.
Qed.

Lemma used_links_state i rows :
  map PendingBind.state (used_links i rows) = map PendingBind.state rows.
Proof. apply map_update_key. reflexivity. Qed.

Section Callback.
Variable config : Config.t.

Lemma oauth_callback_pending utcnow oauth_client code state description pending st :
  store_wf st -> code <> "" -> state <> "" ->
  In pending (pending_bind st) -> PendingBind.state pending = state ->
  PendingBind.is_used pending = false ->
  utcnow 0%nat < PendingBind.expires_at pending ->
  (forall r, In r (bind_user st) -> BindUser.uin r = PendingBind.uin pending ->
             BindUser.is_active r = false) ->
  oauth_callback config utcnow oauth_client (Some code) (Some state) None
                 description st
  = match oauth_client with
    | None => Ok (html 500 "配置错误", st)
    | Some exchange_and_get_userinfo =>
        match exchange_and_get_userinfo code with
        | None => Ok (html 200 "获取信息失败", st)
        | Some userinfo =>
            (let* existing_sub :=
               crud.get_bind_user_by_sub (UserInfo.sub userinfo) true in
             match existing_sub with
             | Some _ =>
                 let* _ := crud.mark_pending_bind_used (PendingBind.id pending) in
                 ret (html 200 "账号已被绑定")
             | None =>
                 let extra_data :=
                   build_extra_data config
                     (default ∅ (UserInfo.raw_data userinfo)) in
                 let* _ :=
                   crud.create_bind_user (utcnow 1%nat)
                     (PendingBind.uin pending) (UserInfo.sub userinfo)
                     (UserInfo.email userinfo)
                     (UserInfo.preferred_username userinfo)
                     (if truthy (JDict extra_data)
                      then Some extra_data else None) in
                 let* _ := crud.mark_pending_bind_used (PendingBind.id pending) in
                 ret (html 200 "绑定成功")
             end) st
        end
    end.
Proof.
  intros W Hc Hs Hin Hst Hused Hexp Hnone.
  pose proof W as (_ & _ & _ & _ & N5 & _).
  unfold oauth_callback. cbn [truthy_str or_str].
  apply String.eqb_neq in Hc, Hs. rewrite Hc, Hs. cbn [negb orb].
  unfold bind at 1. rewrite <- Hst.
  rewrite (get_pending_bind_by_state_found _ st pending N5 Hin Hused Hexp).
  cbv beta iota. unfold bind at 1.
  rewrite (get_bind_user_by_uin_none _ st Hnone).
  destruct oauth_client as [exchange|]; [|reflexivity].
  destruct (exchange code); reflexivity.
Qed.

(** X23. [GET /callback] for a link that is unused and not expired, for a
    UIN and an upstream account that no row of bind_user carries, creates
    the active binding of the UIN to the account (with the profile entries
    selected by [stored_fields]) and marks the link used. The binding is
    found by its UIN from then on, and every further callback with the same
    state answers 400 and changes nothing. *)
Theorem callback_binds utcnow exchange code state userinfo pending st :
  store_wf st -> code <> "" -> state <> "" ->
  In pending (pending_bind st) -> PendingBind.state pending = state ->
  PendingBind.is_used pending = false ->
  utcnow 0%nat < PendingBind.expires_at pending ->
  (forall r, In r (bind_user st) -> BindUser.uin r <> PendingBind.uin pending) ->
  exchange code = Some userinfo ->
  (forall r, In r (bind_user st) -> BindUser.sub r <> UserInfo.sub userinfo) ->
  let out := get_db_page
               (oauth_callback config utcnow (Some exchange) (Some code)
                               (Some state) None None) st in
  let row := bound_row config (utcnow 1%nat) pending userinfo (bind_user st) in
  fst out = html 200 "绑定成功"
  /\ bind_user (snd out) = bind_user st ++ [row]
  /\ pending_bind (snd out) = used_links (PendingBind.id pending) (pending_bind st)
  /\ crud.get_bind_user_by_uin (PendingBind.uin pending) true (snd out)
     = Ok (Some row, snd out)
  /\ (forall utcnow' oauth_client' code',
        let again := get_db_page
                       (oauth_callback config utcnow' oauth_client' code'
                                       (Some state) None None) (snd out) in
        HTMLResponse.status_code (fst again) = 400 /\ snd again = snd out).
Proof.
  intros W Hc Hs Hin Hst Hused Hexp Hnouin Hex Hnosub out row.
  pose proof W as (N1 & N2 & N3 & N4 & N5 & _).
  set (st1 := {| bind_user := bind_user st ++ [row];
                 pending_bind := used_links (PendingBind.id pending)
                                            (pending_bind st);
                 pending_auth := pending_auth st;
                 pending_unbind := pending_unbind st;
                 oauth_token := oauth_token st;
                 authorization_log := authorization_log st;
                 unbind_log := unbind_log st |}).
  assert (Hout : out = (html 200 "绑定成功", st1)).
  { unfold out, get_db_page.
    rewrite (oauth_callback_pending utcnow (Some exchange) code state None
               pending st W Hc Hs Hin Hst Hused Hexp).
    2:{ intros r Hr Hu. exfalso. exact (Hnouin r Hr Hu). }
    rewrite Hex. unfold bind at 1.
    rewrite get_bind_user_by_sub_none.
    2:{ intros r Hr Hsub. exfalso. exact (Hnosub r Hr Hsub). }
    cbv beta iota zeta. unfold bind at 1. unfold crud.create_bind_user.
    rewrite (taken_false_intro (PendingBind.uin pending)).
    2:{ intros Hi. apply in_map_iff in Hi. destruct Hi as (r & Hu & Hr).
        exact (Hnouin r Hr Hu). }
    rewrite (taken_false_intro (UserInfo.sub userinfo)).
    2:{ intros Hi. apply in_map_iff in Hi. destruct Hi as (r & Hu & Hr).
        exact (Hnosub r Hr Hu). }
    reflexivity. }
  rewrite Hout. cbn [fst snd].
  split; [reflexivity|]. split; [reflexivity|]. split; [reflexivity|].
  assert (Hrow_uin : NoDup (map BindUser.uin (bind_user st1))).
  { unfold st1. simpl. rewrite map_app. apply NoDup_snoc; [exact N2|].
    intros Hi. apply in_map_iff in Hi. destruct Hi as (r & Hu & Hr).
    exact (Hnouin r Hr Hu). }
  split.
  { apply (get_bind_user_by_uin_active st1 row Hrow_uin).
    - unfold st1. simpl. apply in_or_app. right. left. reflexivity.
    - reflexivity. }
  intros utcnow' oauth_client' code'.
  set (again := get_db_page _ st1).
  assert (Hagain : again = (html 400 "参数错误", st1)
                   \/ again = (html 400 "链接已失效", st1)).
  { unfold again, get_db_page, oauth_callback. cbn [truthy_str].
    destruct (negb (truthy_str code') || negb (negb (String.eqb state "")))
      eqn:E; [left; reflexivity|right].
    unfold bind at 1. cbn [or_str]. apply String.eqb_neq in Hs. rewrite Hs.
    assert (Hin1 : In (set_bind_is_used true pending) (pending_bind st1)).
    { unfold st1. simpl.
      apply (in_update (fun r => Z.eqb (PendingBind.id r) (PendingBind.id pending)));
        [exact Hin|apply Z.eqb_refl]. }
    assert (M5 : NoDup (map PendingBind.state (pending_bind st1))).
    { unfold st1. simpl. rewrite used_links_state. exact N5. }
    rewrite <- Hst.
    change (PendingBind.state pending)
      with (PendingBind.state (set_bind_is_used true pending)).
    rewrite (get_pending_bind_by_state_unique _ st1 _ M5 Hin1). reflexivity. }
  destruct Hagain as [->| ->]; split; reflexivity.
Qed.

(** X24. The ways [GET /callback] ends without a binding. An upstream
    error, a missing code or state, an unknown, used or expired state, a
    missing upstream client and a failed exchange all leave the store as it
    was, so that after a failed exchange the link can still be used. When
    the UIN already has an active binding, or the upstream account is
    actively bound, the link is marked used and nothing else changes. *)
Theorem callback_failures utcnow oauth_client code state error description st :
  store_wf st ->
  let out := get_db_page
               (oauth_callback config utcnow oauth_client code state error
                               description) st in
  (truthy_str error = true -> out = (html 200 "授权失败", st))
  /\ (truthy_str error = false ->
      truthy_str code = false \/ truthy_str state = false ->
      out = (html 400 "参数错误", st))
  /\ (truthy_str error = false -> truthy_str code = true ->
      truthy_str state = true ->
      (forall p, In p (pending_bind st) ->
                 PendingBind.state p = or_str state "" ->
                 PendingBind.is_used p = true
                 \/ PendingBind.expires_at p <= utcnow 0%nat) ->
      out = (html 400 "链接已失效", st))
  /\ (forall c s pending,
        error = None -> code = Some c -> c <> "" -> state = Some s -> s <> "" ->
        In pending (pending_bind st) -> PendingBind.state pending = s ->
        PendingBind.is_used pending = false ->
        utcnow 0%nat < PendingBind.expires_at pending ->
        (forall bu, In bu (bind_user st) ->
                    BindUser.uin bu = PendingBind.uin pending ->
                    BindUser.is_active bu = true ->
                    out = (html 200 "已存在绑定",
                           with_pending_bind st
                             (used_links (PendingBind.id pending)
                                         (pending_bind st))))
        /\ ((forall r, In r (bind_user st) ->
                       BindUser.uin r = PendingBind.uin pending ->
                       BindUser.is_active r = false) ->
            (oauth_client = None -> out = (html 500 "配置错误", st))
            /\ (forall exchange,
                  oauth_client = Some exchange -> exchange c = None ->
                  out = (html 200 "获取信息失败", st)
                  /\ crud.get_pending_bind_by_state (utcnow 0%nat) s true (snd out)
                     = Ok (Some pending, snd out))
            /\ (forall exchange userinfo bu,
                  oauth_client = Some exchange -> exchange c = Some userinfo ->
                  In bu (bind_user st) ->
                  BindUser.sub bu = UserInfo.sub userinfo ->
                  BindUser.is_active bu = true ->
                  out = (html 200 "账号已被绑定",
                         with_pending_bind st
                           (used_links (PendingBind.id pending)
                                       (pending_bind st)))))).
Proof.
  intros W out.
  pose proof W as (N1 & N2 & N3 & N4 & N5 & _).
  split.
  { intros He. unfold out, get_db_page, oauth_callback. rewrite He. reflexivity. }
  split.
  { intros He Hcs. unfold out, get_db_page, oauth_callback. rewrite He.
    destruct Hcs as [H|H]; rewrite H; cbn [negb orb];
      [|rewrite orb_true_r]; reflexivity. }
  split.
  { intros He Hc Hs Hall. unfold out, get_db_page, oauth_callback.
    rewrite He, Hc, Hs. cbn [negb orb]. unfold bind at 1.
    unfold crud.get_pending_bind_by_state.
    rewrite filter_filter_none; [reflexivity|].
    intros p Hin Hq. apply String.eqb_eq in Hq.
    destruct (Hall p Hin Hq) as [Hu|Hx].
    - rewrite Hu. reflexivity.
    - apply andb_false_iff. right. apply Z.ltb_ge. exact Hx. }
  intros c s pending -> -> Hc -> Hs Hin Hst Hused Hexp.
  split.
  { intros bu Hbu Hu Hact. unfold out, get_db_page, oauth_callback.
    cbn [truthy_str or_str].
    apply String.eqb_neq in Hc, Hs. rewrite Hc, Hs. cbn [negb orb].
    unfold bind at 1. rewrite <- Hst.
    rewrite (get_pending_bind_by_state_found _ st pending N5 Hin Hused Hexp).
    cbv beta iota. unfold bind at 1. rewrite <- Hu.
    rewrite (get_bind_user_by_uin_active st bu N2 Hbu Hact). reflexivity. }
  intros Hnone.
  assert (Hrun := oauth_callback_pending utcnow oauth_client c s description
                    pending st W Hc Hs Hin Hst Hused Hexp Hnone).
  split.
  { intros ->. unfold out, get_db_page. rewrite Hrun. reflexivity. }
  split.
  { intros exchange -> Hex. rewrite Hex in Hrun.
    assert (Hout : out = (html 200 "获取信息失败", st))
      by (unfold out, get_db_page; rewrite Hrun; reflexivity).
    split; [exact Hout|]. rewrite Hout. cbn [snd]. rewrite <- Hst.
    apply get_pending_bind_by_state_found; assumption. }
  intros exchange userinfo bu -> Hex Hbu Hsub Hact.
  rewrite Hex in Hrun. unfold out, get_db_page. rewrite Hrun.
  unfold bind at 1. unfold crud.get_bind_user_by_sub.
  rewrite <- Hsub.
  rewrite (filter_unique BindUser.sub String.eqb Seqb_iff _ bu N3 Hbu).
  simpl. rewrite Hact. reflexivity.
Qed.

End Callback.

Lemma callback_binds_witness :
  let linked := snd (run_command
                       (handle_bind Scenario.config plain_urlencode
                          Scenario6.sso 300 (fun _ => None) Scenario.utcnow
                          (fun _ => "S") ["alice"] 10001 "private" 10001)
                       Scenario6.store_empty) in
  let out := get_db_page
               (oauth_callback Scenario.config Scenario.utcnow
                  (Some Scenario6.upstream) (Some "XYZ") (Some "S") None None)
               linked in
  fst out = html 200 "绑定成功"
  /\ map BindUser.uin (bind_user (snd out)) = [10001]
  /\ map BindUser.extra_data (bind_user (snd out))
     = [Some {[ "nickname" := JStr "Nick" ]}].
Proof.
  intros linked out.
  destruct (callback_binds Scenario.config Scenario.utcnow Scenario6.upstream
              "XYZ" "S"
              {| UserInfo.sub := "u-42"; UserInfo.email := Some "a@x";
                 UserInfo.preferred_username := Some "alice";
                 UserInfo.raw_data :=
                   Some {[ "sub" := JStr "u-42"; "nickname" := JStr "Nick" ]} |}
              (bind_request (Scenario.utcnow 0%nat)
                 (Scenario.utcnow 1%nat + timedelta_seconds 300) "S" 10001
                 "alice" "private" 10001 [])
              linked) as (Hpage & Hrows & _).
  - decide_wf.
  - discriminate.
  - discriminate.
  - left. reflexivity.
  - reflexivity.
  - reflexivity.
  - reflexivity.
  - intros r [].
  - reflexivity.
  - intros r [].
  - split; [exact Hpage|]. unfold out. rewrite Hrows.
    split; vm_compute; reflexivity.
Defined.

Lemma callback_failures_witness :
  get_db_page
    (oauth_callback Scenario.config Scenario.utcnow (Some (fun _ => None))
                    (Some "XYZ") (Some "S") None None) Scenario4.store_rebind
  = (html 200 "获取信息失败", Scenario4.store_rebind).
Proof.
  destruct (callback_failures Scenario.config Scenario.utcnow
              (Some (fun _ => None)) (Some "XYZ") (Some "S") None None
              Scenario4.store_rebind ltac:(decide_wf)) as (_ & _ & _ & H).
  destruct (H "XYZ" "S" Scenario4.bind_link eq_refl eq_refl
              ltac:(discriminate) eq_refl ltac:(discriminate)
              (or_introl eq_refl) eq_refl eq_refl eq_refl) as (_ & H').
  destruct H' as (_ & Hfail & _).
  - intros r [<-|[<-|[]]] Hu; [reflexivity|discriminate Hu].
  - exact (proj1 (Hfail (fun _ => None) eq_refl eq_refl)).
Defined.

(** ** page/oauth_routes.py: the two grants of [/token] *)

Section Grants.
Context {rt : PyRuntime}.
Variable config : Config.t.

(** The checks of the code grant once the request [r] has been found. *)
Lemma authorization_code_checks_found now form c r st :
  store_wf st -> TokenForm.code form = Some c -> c <> "" ->
  In r (pending_auth st) -> PendingAuth.auth_code r = c ->
  crud.auth_code_valid now r = true ->
  authorization_code_checks now form st
  = (if truthy_str (TokenForm.redirect_uri form)
        && negb (String.eqb (or_str (TokenForm.redirect_uri form) "")
                            (PendingAuth.redirect_uri r))
     then ret (inl (error_response 400 "invalid_grant" "redirect_uri mismatch" []))
     else
       let* pkce :=
         if truthy_str (PendingAuth.code_challenge r) then
           if negb (truthy_str (TokenForm.code_verifier form)) then
             ret (Some (error_response 400 "invalid_request"
                          "code_verifier is required" []))
           else
             let* ok :=
               lift (verify_pkce
                       (or_str (TokenForm.code_verifier form) "")
                       (or_str (PendingAuth.code_challenge r) "")
                       (or_str (PendingAuth.code_challenge_method r) "plain")) in
             if ok then ret None
             else ret (Some (error_response 400 "invalid_grant"
                               "Invalid code_verifier" []))
         else ret None in
       match pkce with
       | Some resp => ret (inl resp)
       | None =>
           let* bind_user := crud.get_bind_user_by_uin (PendingAuth.uin r) true in
           match bind_user with
           | None => ret (inl (error_response 400 "invalid_grant"
                                 "User not found" []))
           | Some bind_user => ret (inr (r, bind_user))
           end
       end) st.
Proof.
  intros W Hcode Hne Hin Hac Hvalid.
  pose proof W as (_ & _ & _ & _ & _ & _ & _ & N8 & _).
  unfold authorization_code_checks. rewrite Hcode.
  apply String.eqb_neq in Hne. rewrite Hne.
  unfold bind at 1. rewrite <- Hac.
  rewrite (get_pending_auth_by_auth_code_found now st r N8 Hin), Hvalid.
  reflexivity.
Qed.

Lemma redirect_matches_test redirect_uri r :
  redirect_matches redirect_uri r ->
  truthy_str redirect_uri
  && negb (String.eqb (or_str redirect_uri "") (PendingAuth.redirect_uri r))
  = false.
Proof.
  unfold redirect_matches. intros H.
  destruct (truthy_str redirect_uri); [|reflexivity].
  rewrite (H eq_refl), String.eqb_refl. reflexivity.
Qed.

(** X25. The code grant of [POST /token]: an authenticated client that
    presents a usable authorization code, with a matching or absent redirect
    URI and a passing PKCE test, for a user with an active binding, gets 200
    with the token response for the scope of the request; the request is
    marked used and one token row is stored for that client, user and
    scope. The client the request was created for plays no part: the tokens
    go to the client that presents the code. Drawing a token that is already
    stored ends in 500 with the store unchanged. *)
Theorem code_grant_issues_tokens ra tt utcnow rnd form cid c r bu st :
  store_wf st -> authenticated config form cid ->
  TokenForm.grant_type form = "authorization_code" ->
  TokenForm.code form = Some c -> c <> "" ->
  In r (pending_auth st) -> PendingAuth.auth_code r = c ->
  crud.auth_code_valid (utcnow 0%nat) r = true ->
  redirect_matches (TokenForm.redirect_uri form) r ->
  pkce_passes (TokenForm.code_verifier form) r ->
  In bu (bind_user st) -> BindUser.uin bu = PendingAuth.uin r ->
  BindUser.is_active bu = true ->
  let out := get_db (token config (true, ra) tt utcnow rnd form) st in
  let row := issued_row config (utcnow 1%nat) (rnd 0%nat) (rnd 1%nat) cid bu
               (PendingAuth.scope r) (oauth_token st) in
  (taken (rnd 0%nat) (map OAuthToken.access_token (oauth_token st))
   || taken (rnd 1%nat) (non_null (map OAuthToken.refresh_token (oauth_token st)))
   = true ->
   out = (internal_server_error, st))
  /\ (taken (rnd 0%nat) (map OAuthToken.access_token (oauth_token st))
      || taken (rnd 1%nat) (non_null (map OAuthToken.refresh_token (oauth_token st)))
      = false ->
      fst out = json_response
                  (TokenResponse.model_dump
                     (create_token_response config tt (rnd 0%nat) (rnd 1%nat)
                        (BindUser.uin bu) cid (PendingAuth.scope r)
                        (build_user_data bu) true None))
      /\ pending_auth (snd out) = used_requests (PendingAuth.id r) (pending_auth st)
      /\ oauth_token (snd out) = oauth_token st ++ [row]
      /\ bind_user (snd out) = bind_user st
      /\ JSONResponse.content (fst out) !! "scope"
         = Some (JStr (PendingAuth.scope r))
      /\ forall t, crud.get_pending_auth_by_auth_code t c true (snd out)
                   = Ok (None, snd out)).
Proof.
  intros W Hauth Hgt Hcode Hne Hin Hac Hvalid Hredir Hpkce Hbu Hu Hact out row.
  pose proof W as (_ & N2 & _ & _ & _ & N6 & N7 & N8 & _).
  assert (Hchecks : authorization_code_checks (utcnow 0%nat) form st
                    = Ok (inr (r, bu), st)).
  { rewrite (authorization_code_checks_found (utcnow 0%nat) form c r st
               W Hcode Hne Hin Hac Hvalid).
    rewrite (redirect_matches_test _ _ Hredir).
    destruct Hpkce as [Hno|[Hv Hok]].
    - rewrite Hno. rewrite bind_ret. unfold bind at 1. rewrite <- Hu.
      rewrite (get_bind_user_by_uin_active st bu N2 Hbu Hact). reflexivity.
    - destruct (truthy_str (PendingAuth.code_challenge r)).
      + rewrite Hv. cbn [negb]. rewrite Hok. rewrite bind_lift_ok.
        rewrite bind_ret. unfold bind at 1. rewrite <- Hu.
        rewrite (get_bind_user_by_uin_active st bu N2 Hbu Hact). reflexivity.
      + rewrite bind_ret. unfold bind at 1. rewrite <- Hu.
        rewrite (get_bind_user_by_uin_active st bu N2 Hbu Hact). reflexivity. }
  assert (Hrun : token config (true, ra) tt utcnow rnd form st
                 = issue_tokens config tt (utcnow 1%nat) rnd cid
                     (PendingAuth.scope r) bu
                     (with_pending_auth st
                        (used_requests (PendingAuth.id r) (pending_auth st)))).
  { rewrite (token_dispatch config ra tt utcnow rnd form cid st Hauth).
    rewrite Hgt.
    change (String.eqb "authorization_code" "authorization_code") with true.
    cbv iota. unfold grant_authorization_code. unfold bind at 1.
    rewrite Hchecks. cbv beta iota. unfold authorization_code_redeem.
    reflexivity. }
  unfold out, get_db. rewrite Hrun. rewrite issue_tokens_run.
  cbn [oauth_token with_pending_auth].
  split.
  - intros T. rewrite T. reflexivity.
  - intros T. rewrite T. cbn [fst snd].
    split; [reflexivity|]. split; [reflexivity|]. split; [reflexivity|].
    split; [reflexivity|]. split.
    + cbn [JSONResponse.content json_response]. unfold TokenResponse.model_dump.
      cbn [TokenResponse.refresh_token TokenResponse.id_token
           TokenResponse.scope create_token_response].
      destruct (str_in "openid" (str_split (PendingAuth.scope r)));
        repeat (rewrite lookup_insert_ne by discriminate);
        first [rewrite lookup_singleton_eq | rewrite lookup_insert_eq];
        reflexivity.
    + intros t. apply get_pending_auth_by_auth_code_none.
      intros c' r' [= <-] Hin' Hac'. cbn [pending_auth] in Hin'.
      unfold used_requests in Hin'. apply in_map_iff in Hin'.
      destruct Hin' as (r0 & <- & Hin0).
      assert (r0 = r).
      { apply (unique_key PendingAuth.auth_code (pending_auth st)); auto.
        destruct (Z.eqb (PendingAuth.id r0) (PendingAuth.id r)); rewrite Hac;
          exact Hac'. }
      subst r0. rewrite Z.eqb_refl. unfold crud.auth_code_valid. simpl.
      rewrite andb_false_r. reflexivity.
Qed.

End Grants.

Lemma scenario_other_authenticated :
  authenticated Scenario7.config Scenario7.other_form "other".
Proof.
  exists (Some "0ther"), Scenario7.other.
  split; [reflexivity|]. split; [discriminate|]. vm_compute. reflexivity.
Qed.

Lemma code_grant_issues_tokens_witness :
  let out := get_db (token Scenario7.config (true, None) 0 Scenario.utcnow
                       (Scenario.draws "A1" "R1") Scenario7.other_form)
                    Scenario.store_approved in
  map PendingAuth.client_id (pending_auth Scenario.store_approved) = ["demo"]
  /\ JSONResponse.status_code (fst out) = 200
  /\ map OAuthToken.client_id (oauth_token (snd out)) = ["other"].
Proof.
  intros out.
  destruct (code_grant_issues_tokens Scenario7.config None 0 Scenario.utcnow
              (Scenario.draws "A1" "R1") Scenario7.other_form "other" "AC"
              (Scenario.request "openid email" 10001 1 true false)
              Scenario.alice Scenario.store_approved) as (_ & H).
  - decide_wf.
  - exact scenario_other_authenticated.
  - reflexivity.
  - reflexivity.
  - discriminate.
  - left. reflexivity.
  - reflexivity.
  - reflexivity.
  - intros H. discriminate H.
  - left. reflexivity.
  - left. reflexivity.
  - reflexivity.
  - reflexivity.
  - destruct (H eq_refl) as (Hresp & _ & Htok & _).
    split; [reflexivity|]. unfold out. rewrite Hresp, Htok.
    split; reflexivity.
Defined.

Section GrantRefusals.
Context {rt : PyRuntime}.
Variable config : Config.t.

(** X26. The PKCE test of the code grant, for a usable code whose request
    stores a challenge: without a verifier the answer is invalid_request,
    with a verifier that does not verify it is invalid_grant, and a stored
    method other than plain and S256 makes every verifier fail. A verifier
    on which the comparison raises ends in 500. In all these cases the
    store is unchanged: the code is not consumed and can be presented
    again. *)
Theorem pkce_failure_keeps_code ra tt utcnow rnd form cid c r st :
  store_wf st -> authenticated config form cid ->
  TokenForm.grant_type form = "authorization_code" ->
  TokenForm.code form = Some c -> c <> "" ->
  In r (pending_auth st) -> PendingAuth.auth_code r = c ->
  crud.auth_code_valid (utcnow 0%nat) r = true ->
  redirect_matches (TokenForm.redirect_uri form) r ->
  truthy_str (PendingAuth.code_challenge r) = true ->
  let out := get_db (token config (true, ra) tt utcnow rnd form) st in
  let challenge := or_str (PendingAuth.code_challenge r) "" in
  let method := or_str (PendingAuth.code_challenge_method r) "plain" in
  (truthy_str (TokenForm.code_verifier form) = false ->
   out = (error_response 400 "invalid_request" "code_verifier is required" [],
          st))
  /\ (forall v, TokenForm.code_verifier form = Some v -> v <> "" ->
        (verify_pkce v challenge method = Ok false ->
         out = (error_response 400 "invalid_grant" "Invalid code_verifier" [],
                st))
        /\ (forall e, verify_pkce v challenge method = Raise e ->
                      out = (internal_server_error, st))
        /\ (method <> "plain" -> method <> "S256" ->
            out = (error_response 400 "invalid_grant" "Invalid code_verifier" [],
                   st))).
Proof.
  intros W Hauth Hgt Hcode Hne Hin Hac Hvalid Hredir Hcc out challenge method.
  assert (Hrun : token config (true, ra) tt utcnow rnd form st
                 = (let* checked := authorization_code_checks (utcnow 0%nat) form in
                    match checked with
                    | inl resp => ret resp
                    | inr (pending, bind_user) =>
                        authorization_code_redeem config tt (utcnow 1%nat) rnd
                          cid pending bind_user
                    end) st).
  { rewrite (token_dispatch config ra tt utcnow rnd form cid st Hauth).
    rewrite Hgt.
    change (String.eqb "authorization_code" "authorization_code") with true.
    reflexivity. }
  assert (Hchecks := authorization_code_checks_found (utcnow 0%nat) form c r st
                       W Hcode Hne Hin Hac Hvalid).
  rewrite (redirect_matches_test _ _ Hredir), Hcc in Hchecks.
  fold challenge in Hchecks. fold method in Hchecks.
  split.
  - intros Hv. rewrite Hv in Hchecks. cbn [negb] in Hchecks.
    rewrite bind_ret in Hchecks.
    unfold out, get_db. rewrite Hrun. unfold bind at 1. rewrite Hchecks.
    reflexivity.
  - intros v Hv Hvne. rewrite Hv in Hchecks. cbn [truthy_str or_str] in Hchecks.
    apply String.eqb_neq in Hvne. rewrite Hvne in Hchecks.
    cbn [negb] in Hchecks.
    assert (Hfalse : verify_pkce v challenge method = Ok false ->
                     out = (error_response 400 "invalid_grant"
                              "Invalid code_verifier" [], st)).
    { intros Hf. rewrite Hf, bind_lift_ok, bind_ret in Hchecks.
      unfold out, get_db. rewrite Hrun. unfold bind at 1. rewrite Hchecks.
      reflexivity. }
    split; [exact Hfalse|]. split.
    + intros e He. rewrite He in Hchecks.
      unfold out, get_db. rewrite Hrun. unfold bind at 1. rewrite Hchecks.
      reflexivity.
    + intros H1 H2. apply Hfalse. apply verify_pkce_other; assumption.
Qed.

(** X27. The refresh grant for a refresh token that is valid: presented by
    a client other than the one it was issued to, it is refused with
    "Client mismatch" and nothing changes, so the token is not revoked.
    Presented by its own client, the old row is revoked and the new row
    carries the same scope for the same client and the user's binding; when
    the user has no active binding any more the old row is revoked all the
    same and no token is issued. *)
Theorem refresh_keeps_grant ra tt utcnow rnd form cid k r1 st :
  store_wf st -> authenticated config form cid ->
  TokenForm.grant_type form = "refresh_token" ->
  TokenForm.refresh_token form = Some k -> k <> "" ->
  In r1 (oauth_token st) -> OAuthToken.refresh_token r1 = Some k ->
  crud.refresh_valid (utcnow 0%nat) r1 = true ->
  let out := get_db (token config (true, ra) tt utcnow rnd form) st in
  let rows := revoked_rows (OAuthToken.id r1) (oauth_token st) in
  (OAuthToken.client_id r1 <> cid ->
   out = (error_response 400 "invalid_grant" "Client mismatch" [], st))
  /\ (OAuthToken.client_id r1 = cid ->
      (forall bu,
          In bu (bind_user st) -> BindUser.uin bu = OAuthToken.uin r1 ->
          BindUser.is_active bu = true ->
          taken (rnd 0%nat) (map OAuthToken.access_token (oauth_token st))
          || taken (rnd 1%nat)
                   (non_null (map OAuthToken.refresh_token (oauth_token st)))
          = false ->
          oauth_token (snd out)
          = rows ++ [issued_row config (utcnow 1%nat) (rnd 0%nat) (rnd 1%nat)
                       cid bu (OAuthToken.scope r1) rows]
          /\ JSONResponse.content (fst out) !! "scope"
             = Some (JStr (OAuthToken.scope r1)))
      /\ ((forall bu, In bu (bind_user st) ->
                      BindUser.uin bu = OAuthToken.uin r1 ->
                      BindUser.is_active bu = false) ->
          out = (error_response 400 "invalid_grant" "User not found" [],
                 with_oauth_token st rows))).
Proof.
  intros W Hauth Hgt Hrt Hne Hin Hk Hvalid out rows.
  pose proof W as (_ & N2 & _ & _ & _ & _ & _ & _ & _ & _ & _ & N12).
  assert (Hrun : token config (true, ra) tt utcnow rnd form st
                 = (if negb (String.eqb (OAuthToken.client_id r1) cid)
                    then ret (error_response 400 "invalid_grant"
                                "Client mismatch" [])
                    else
                      let* _ := crud.revoke_token (OAuthToken.id r1) in
                      let* bind_user :=
                        crud.get_bind_user_by_uin (OAuthToken.uin r1) true in
                      match bind_user with
                      | None => ret (error_response 400 "invalid_grant"
                                       "User not found" [])
                      | Some bind_user =>
                          issue_tokens config tt (utcnow 1%nat) rnd cid
                            (OAuthToken.scope r1) bind_user
                      end) st).
  { rewrite (token_dispatch config ra tt utcnow rnd form cid st Hauth).
    rewrite Hgt.
    change (String.eqb "refresh_token" "authorization_code") with false.
    change (String.eqb "refresh_token" "refresh_token") with true. cbv iota.
    unfold grant_refresh_token. rewrite Hrt. cbn [truthy_str or_str].
    apply String.eqb_neq in Hne. rewrite Hne. cbn [negb]. unfold bind at 1.
    rewrite (get_token_by_refresh_token_valid _ st r1 k N12 Hin Hk), Hvalid.
    reflexivity. }
  split.
  - intros Hc. apply String.eqb_neq in Hc. rewrite Hc in Hrun.
    unfold out, get_db. rewrite Hrun. reflexivity.
  - intros Hc. rewrite Hc, String.eqb_refl in Hrun. cbn [negb] in Hrun.
    unfold bind at 1 in Hrun. rewrite revoke_token_run in Hrun.
    fold rows in Hrun. cbv beta iota in Hrun. split.
    + intros bu Hbu Hu Hact T. unfold bind at 1 in Hrun. rewrite <- Hu in Hrun.
      rewrite (get_bind_user_by_uin_active (with_oauth_token st rows) bu N2 Hbu
                 Hact) in Hrun.
      cbv beta iota in Hrun. rewrite issue_tokens_run in Hrun.
      cbn [oauth_token with_oauth_token] in Hrun.
      unfold rows in Hrun at 1 2.
      rewrite revoked_rows_access, revoked_rows_refresh, T in Hrun.
      unfold out, get_db. rewrite Hrun. cbn [fst snd oauth_token].
      split; [reflexivity|].
      cbn [JSONResponse.content json_response]. unfold TokenResponse.model_dump.
      cbn [TokenResponse.refresh_token TokenResponse.id_token
           TokenResponse.scope create_token_response].
      destruct (str_in "openid" (str_split (OAuthToken.scope r1)));
        repeat (rewrite lookup_insert_ne by discriminate);
        first [rewrite lookup_singleton_eq | rewrite lookup_insert_eq];
        reflexivity.
    + intros Hnone. unfold bind at 1 in Hrun.
      rewrite (get_bind_user_by_uin_none _ (with_oauth_token st rows) Hnone)
        in Hrun.
      unfold out, get_db. rewrite Hrun. reflexivity.
Qed.

End GrantRefusals.

Lemma scenario_pkce_authenticated v :
  authenticated Scenario.config (Scenario8.pkce_form v) "demo".
Proof.
  exists (Some "s3cret"), Scenario.demo.
  split; [reflexivity|]. split; [discriminate|]. vm_compute. reflexivity.
Qed.

Lemma pkce_failure_keeps_code_witness :
  get_db (token Scenario.config (true, None) 0 Scenario.utcnow
            (Scenario.draws "A1" "R1") (Scenario8.pkce_form (Some "abc")))
         (Scenario8.store_pkce "abc" (Some "S512"))
  = (error_response 400 "invalid_grant" "Invalid code_verifier" [],
     Scenario8.store_pkce "abc" (Some "S512")).
Proof.
  destruct (pkce_failure_keeps_code Scenario.config None 0 Scenario.utcnow
              (Scenario.draws "A1" "R1") (Scenario8.pkce_form (Some "abc"))
              "demo" "AC" (Scenario8.pkce_request "abc" (Some "S512"))
              (Scenario8.store_pkce "abc" (Some "S512"))) as (_ & H).
  - decide_wf.
  - apply scenario_pkce_authenticated.
  - reflexivity.
  - reflexivity.
  - discriminate.
  - left. reflexivity.
  - reflexivity.
  - reflexivity.
  - intros _. reflexivity.
  - reflexivity.
  - destruct (H "abc" eq_refl ltac:(discriminate)) as (_ & _ & Hm).
    apply Hm; discriminate.
Defined.

Lemma scenario_other_refresh_authenticated r :
  authenticated Scenario7.config (Scenario7.other_refresh_form r) "other".
Proof.
  exists (Some "0ther"), Scenario7.other.
  split; [reflexivity|]. split; [discriminate|]. vm_compute. reflexivity.
Qed.

Lemma refresh_keeps_grant_witness :
  get_db (token Scenario7.config (true, None) 0 Scenario.utcnow
            (Scenario.draws "A2" "R2") (Scenario7.other_refresh_form "R1"))
         Scenario2.store_token
  = (error_response 400 "invalid_grant" "Client mismatch" [],
     Scenario2.store_token).
Proof.
  destruct (refresh_keeps_grant Scenario7.config None 0 Scenario.utcnow
              (Scenario.draws "A2" "R2") (Scenario7.other_refresh_form "R1")
              "other" "R1" (Scenario.token_row 1 "A1" "R1" "openid email" false)
              Scenario2.store_token) as (H & _).
  - decide_wf.
  - apply scenario_other_refresh_authenticated.
  - reflexivity.
  - reflexivity.
  - discriminate.
  - left. reflexivity.
  - reflexivity.
  - reflexivity.
  - apply H. discriminate.
Defined.

(** ** The outcomes of the [auth] command *)

Lemma get_pending_auth_by_code_some now k st st' r :
  crud.get_pending_auth_by_code now k true st = Ok (Some r, st') ->
  st' = st /\ In r (pending_auth st)
  /\ PendingAuth.verification_code r = k /\ crud.code_valid now r = true.
Proof.
  unfold crud.get_pending_auth_by_code. intros H.
  apply lift_store in H. destruct H as [-> H]. split; [reflexivity|].
  apply scalar_one_some in H.
  assert (Hin : In r [r]) by (left; reflexivity).
  rewrite <- H in Hin. apply filter_In in Hin. destruct Hin as [Hin Hv].
  apply filter_In in Hin. destruct Hin as [Hin Ha].
  apply String.eqb_eq in Ha. auto.
Qed.

Section AuthOutcomes.
Context {rt : PyRuntime}.
Variable config : Config.t.

(** X28. The [auth] command has two kinds of outcome, whatever the store.
    Either it leaves the store as it was and answers with the usage text,
    "not bound", "invalid or expired", "not yours" or the failure text; or
    the caller has an active binding, the code names a request that is
    neither used, approved nor expired and that is unclaimed or claimed by
    the caller, the answer is the approval text, the request is claimed
    (when unclaimed) and approved, and exactly one successful
    authorization_log row for the caller is appended. *)
Theorem handle_auth_outcomes utcnow args user_id st :
  let out := run_command (handle_auth config utcnow args user_id) st in
  (snd out = st
   /\ In (fst out)
         [Reply.auth_usage (Config.command_prefix config);
          Reply.not_bound_sso (Config.command_prefix config);
          Reply.invalid_or_expired; Reply.not_yours; Reply.failure])
  \/ (exists code rest bu r,
        args = code :: rest
        /\ In bu (bind_user st) /\ BindUser.uin bu = user_id
        /\ BindUser.is_active bu = true
        /\ In r (pending_auth st)
        /\ PendingAuth.verification_code r = str_upper code
        /\ crud.code_valid (utcnow 0%nat) r = true
        /\ (PendingAuth.uin r = 0 \/ PendingAuth.uin r = user_id)
        /\ fst out
           = Reply.approved
               (client_display_name config (PendingAuth.client_id r))
               (PendingAuth.scope r)
        /\ snd out
           = with_authorization_log
               (with_pending_auth st
                  (approved_rows (Z.eqb (PendingAuth.uin r) 0)
                     (PendingAuth.id r) user_id (BindUser.id bu)
                     (pending_auth st)))
               (authorization_log st
                ++ [approval_log (utcnow 1%nat) user_id r
                      (authorization_log st)])).
Proof.
  intros out.
  assert (Hout : out = run_command (handle_auth config utcnow args user_id) st)
    by reflexivity.
  clearbody out.
  destruct args as [|code rest].
  { left. rewrite Hout. split; [reflexivity|]. left. reflexivity. }
  unfold run_command, handle_auth, handle_auth_lookup in Hout.
  unfold bind at 1 2 in Hout.
  destruct (crud.get_bind_user_by_uin user_id true st) as [[[bu|] st1]|e] eqn:Ebu.
  - apply get_bind_user_by_uin_some in Ebu.
    destruct Ebu as (-> & Hbu & Huin & Hact).
    unfold bind at 1 in Hout.
    destruct (crud.get_pending_auth_by_code (utcnow 0%nat) (str_upper code)
                true st) as [[[r|] st2]|e] eqn:Er.
    + apply get_pending_auth_by_code_some in Er.
      destruct Er as (-> & Hr & Hk & Hv).
      cbv beta iota in Hout. unfold ret at 1 in Hout. cbv beta iota in Hout.
      destruct (Z.eq_dec (PendingAuth.uin r) 0) as [E0|E0].
      * right. exists code, rest, bu, r.
        split; [reflexivity|]. repeat (split; [assumption|]).
        split; [left; assumption|].
        unfold handle_auth_approve in Hout.
        rewrite (proj2 (Z.eqb_eq _ _) E0) in Hout.
        rewrite (proj2 (Z.eqb_eq _ _) E0).
        rewrite Hout. split; reflexivity.
      * destruct (Z.eq_dec (PendingAuth.uin r) user_id) as [Eu|Eu].
        -- right. exists code, rest, bu, r.
           split; [reflexivity|]. repeat (split; [assumption|]).
           split; [right; assumption|].
           unfold handle_auth_approve in Hout.
           rewrite (proj2 (Z.eqb_neq _ _) E0) in Hout.
           rewrite (proj2 (Z.eqb_neq _ _) E0).
           rewrite (proj2 (Z.eqb_eq _ _) Eu) in Hout. cbn [negb] in Hout.
           rewrite Hout. split; reflexivity.
        -- left. rewrite handle_auth_approve_foreign in Hout by assumption.
           rewrite Hout. split; [reflexivity|].
           right. right. right. left. reflexivity.
    + pose proof (query_store _ _ _ _ Er) as ->.
      left. rewrite Hout. split; [reflexivity|].
      right. right. left. reflexivity.
    + left. rewrite Hout. split; [reflexivity|].
      right. right. right. right. left. reflexivity.
  - pose proof (query_store _ _ _ _ Ebu) as ->.
    left. rewrite Hout. split; [reflexivity|].
    right. left. reflexivity.
  - left. rewrite Hout. split; [reflexivity|].
    right. right. right. right. left. reflexivity.
Qed.

End AuthOutcomes.

(** ** Revoking every token of a user *)

Lemma selected_token_revoked uin client_id r :
  selected_token uin client_id (set_is_revoked true r)
  = selected_token uin client_id r.
Proof. reflexivity. Qed.

Lemma revoke_all_user_tokens_eq uin client_id st :
  crud.revoke_all_user_tokens uin client_id st
  = Ok (Z.of_nat (length (List.filter (selected_token uin client_id)
                            (oauth_token st))),
        with_oauth_token st
          (map (fun r => if selected_token uin client_id r
                         then set_is_revoked true r else r)
               (oauth_token st))).
Proof. reflexivity. Qed.

(** X29. [revoke_all_user_tokens] never fails and changes only the
    oauth_token table, where it adds and removes no row. Afterwards every
    row of the user (of the given client, when a non-empty client id is
    passed) is revoked, so neither its access nor its refresh token is valid
    at any time; every other row is kept as it was. The returned count is
    the number of selected rows, those already revoked included, and an
    empty client id selects the same rows as no client id. *)
Theorem revoke_all_user_tokens_selected uin client_id st :
  exists st',
    crud.revoke_all_user_tokens uin client_id st
    = Ok (Z.of_nat (length (List.filter (selected_token uin client_id)
                              (oauth_token st))), st')
    /\ st' = with_oauth_token st (oauth_token st')
    /\ map OAuthToken.id (oauth_token st') = map OAuthToken.id (oauth_token st)
    /\ (forall r', In r' (oauth_token st') ->
          selected_token uin client_id r' = true ->
          OAuthToken.is_revoked r' = true
          /\ forall now, crud.access_valid now r' = false
                         /\ crud.refresh_valid now r' = false)
    /\ (forall r, In r (oauth_token st) ->
          selected_token uin client_id r = false -> In r (oauth_token st'))
    /\ crud.revoke_all_user_tokens uin client_id st'
       = Ok (Z.of_nat (length (List.filter (selected_token uin client_id)
                                 (oauth_token st))), st')
    /\ crud.revoke_all_user_tokens uin (Some "") st
       = crud.revoke_all_user_tokens uin None st.
Proof.
  set (rows := map (fun r => if selected_token uin client_id r
                             then set_is_revoked true r else r)
                   (oauth_token st)).
  exists (with_oauth_token st rows).
  rewrite !revoke_all_user_tokens_eq. fold rows.
  cbn [oauth_token with_oauth_token].
  split; [reflexivity|].
  split; [reflexivity|].
  split.
  { unfold rows. rewrite map_map. apply map_ext. intros r.
    destruct (selected_token uin client_id r); reflexivity. }
  split.
  { intros r' Hin Hsel. apply in_map_iff in Hin as (r & <- & Hr).
    assert (Hrev : OAuthToken.is_revoked
                     (if selected_token uin client_id r
                      then set_is_revoked true r else r) = true).
    { destruct (selected_token uin client_id r) eqn:E; [reflexivity|].
      congruence. }
    split; [exact Hrev|]. intros now.
    unfold crud.access_valid, crud.refresh_valid. rewrite Hrev.
    split; reflexivity. }
  split.
  { intros r Hr Hsel. apply in_map_iff. exists r. rewrite Hsel. auto. }
  split; [|reflexivity].
  assert (Hlen : length (List.filter (selected_token uin client_id) rows)
                 = length (List.filter (selected_token uin client_id)
                             (oauth_token st))).
  { unfold rows. induction (oauth_token st) as [|r l IH]; [reflexivity|].
    cbn [map List.filter].
    destruct (selected_token uin client_id r) eqn:E.
    - rewrite selected_token_revoked, E. cbn [length]. now rewrite IH.
    - rewrite E. exact IH. }
  assert (Hrows : map (fun r => if selected_token uin client_id r
                                then set_is_revoked true r else r) rows
                  = rows).
  { unfold rows. rewrite map_map. apply map_ext. intros r.
    destruct (selected_token uin client_id r) eqn:E.
    - rewrite selected_token_revoked, E. reflexivity.
    - rewrite E. reflexivity. }
  rewrite Hlen, Hrows. reflexivity.
Qed.

(** ** The [Authorization: Basic] header *)

Lemma split_colon_join (u p : string) :
  existsb (Ascii.eqb ":"%char) (list_ascii_of_string u) = false ->
  split_colon (u +:+ ":" +:+ p) = Some (u, p).
Proof.
  induction u as [|c u IH]; intros H.
  - reflexivity.
  - cbn [list_ascii_of_string existsb] in H.
    apply orb_false_iff in H as [Hc Hu].
    change (String c u +:+ ":" +:+ p) with (String c (u +:+ ":" +:+ p)).
    cbn [split_colon]. rewrite Ascii.eqb_sym, Hc.
    now rewrite (IH Hu).
Qed.

Lemma split_colon_some (s u p : string) :
  split_colon s = Some (u, p) ->
  s = u +:+ ":" +:+ p
  /\ existsb (Ascii.eqb ":"%char) (list_ascii_of_string u) = false.
Proof.
  revert u. induction s as [|c s IH]; intros u H; [discriminate|].
  cbn [split_colon] in H.
  destruct (Ascii.eqb c ":"%char) eqn:Ec.
  - injection H as <- <-. apply Ascii.eqb_eq in Ec. subst c.
    split; reflexivity.
  - destruct (split_colon s) as [[u' p']|]; [|discriminate].
    injection H as <- <-. destruct (IH u' eq_refl) as [-> Hno].
    split; [reflexivity|].
    cbn [list_ascii_of_string existsb]. rewrite Ascii.eqb_sym, Ec. exact Hno.
Qed.

Section BasicHeader.
Context {rt : PyRuntime}.

(** X30. An [Authorization] header "Basic " followed by text that decodes
    to [u:p], where [u] holds no colon, replaces both form credentials by
    [u] and [p]; [p] may hold colons. Conversely, whenever the credentials
    used differ from the form's, the header starts with "Basic " and its
    remainder decodes to the used identifier, a colon and the used secret. *)
Theorem basic_credentials_header b u p client_id client_secret :
  b64decode_utf8 b = Some (u +:+ ":" +:+ p) ->
  existsb (Ascii.eqb ":"%char) (list_ascii_of_string u) = false ->
  basic_credentials (Some ("Basic " +:+ b)) client_id client_secret
  = (Some u, Some p)
  /\ forall authorization,
       basic_credentials authorization client_id client_secret
       <> (client_id, client_secret) ->
       exists a u' p',
         authorization = Some a /\ String.prefix "Basic " a = true
         /\ b64decode_utf8 (str_drop 6 a) = Some (u' +:+ ":" +:+ p')
         /\ basic_credentials authorization client_id client_secret
            = (Some u', Some p').
Proof.
  intros Hb Hu. split.
  - unfold basic_credentials.
    assert (Hp : String.prefix "Basic " ("Basic " +:+ b) = true).
    { destruct b; vm_compute; reflexivity. }
    rewrite Hp.
    change (truthy_str (Some ("Basic " +:+ b))) with true.
    change (str_drop 6 ("Basic " +:+ b)) with b. cbn [andb].
    rewrite Hb, (split_colon_join u p Hu). reflexivity.
  - intros authorization Hne. unfold basic_credentials in *.
    destruct authorization as [a|]; [|congruence].
    destruct (truthy_str (Some a) && String.prefix "Basic " a) eqn:E;
      [|congruence].
    apply andb_true_iff in E as [_ Hp].
    destruct (b64decode_utf8 (str_drop 6 a)) as [d|] eqn:Ed; [|congruence].
    destruct (split_colon d) as [[u' p']|] eqn:Es; [|congruence].
    apply split_colon_some in Es as [-> _].
    exists a, u', p'. auto.
Qed.

End BasicHeader.

Lemma basic_credentials_header_witness :
  basic_credentials (Some "Basic ZGVtbzpzOmNyZXQ=") (Some "form") None
  = (Some "demo", Some "s:cret").
Proof.
  apply (basic_credentials_header "ZGVtbzpzOmNyZXQ=" "demo" "s:cret"
           (Some "form") None); reflexivity.
Defined.
